(** * Reconciliation engine of the asset store: upserts, lookups, deletes, events

    A shallow embedding of [asset_store/repository/neo4j] (edge.py,
    entity_tag.py, edge_tag.py, neo_repository.py) and of the part of the older
    [asset_db/repository/neo4j/neo_repository.py] and [asset_db/types] that
    the properties below need.  The graph database is an explicit value of
    type [Graph]; every Cypher statement is a function on it; Python
    exceptions are values of [exn]; [datetime.now()] and [uuid4()] read a
    clock and an id source. *)

From Stdlib Require Import String Ascii List Bool Arith Lia.
Import ListNotations.
Open Scope string_scope.

(** ** Python values *)

Definition datetime := nat.

(** Exceptions by class; [Exception msg] is [raise Exception(msg)]. *)
Inductive exn : Type :=
| Exception (msg : string)
| AttributeError (msg : string)
| TypeError (msg : string)
| CypherSyntaxError (msg : string).

Inductive result (A : Type) : Type :=
| Ok (a : A)
| Raise (e : exn).
Arguments Ok {A} a.
Arguments Raise {A} e.

Definition bind {A B : Type} (m : result A) (k : A -> result B) : result B :=
  match m with
  | Ok a => k a
  | Raise e => Raise e
  end.

Notation "x <- m ;; k" := (bind m (fun x => k))
  (at level 61, m at next level, right associativity).

(** [x = node.get(key); if x is None: raise Exception(msg)] *)
Definition require {A : Type} (o : option A) (msg : string) : result A :=
  match o with
  | Some a => Ok a
  | None => Raise (Exception msg)
  end.

(** [str(x)] of an optional string: [str(None)] is the text [None]. *)
Definition py_str (o : option string) : string :=
  match o with
  | Some s => s
  | None => "None"
  end.

(** [x is not None and x != ""], returning the id when it holds. *)
Definition explicit_id (o : option string) : option string :=
  match o with
  | Some s => if (s =? "")%string then None else Some s
  | None => None
  end.

(** [a == b] on optional strings ([None == None] is true). *)
Definition opt_string_eqb (a b : option string) : bool :=
  match a, b with
  | Some x, Some y => (x =? y)%string
  | None, None => true
  | _, _ => false
  end.

(** [s.upper()] and [s.casefold()] are operations of the Python runtime on
    Unicode text; the repository applies them to relation labels and
    relationship types and nothing is assumed about them here. *)
Class PyStr : Type := {
  upper : string -> string;
  casefold : string -> string
}.

(** What [db.execute_query] hands back.  With the default transformer it is an
    [EagerResult], the named tuple that the callers unpack as
    [records, summary, keys]; with [result_transformer_=Result.single] it is
    the first record, or [None] when the statement produced no row. *)
Inductive pyobj (R : Type) : Type :=
| PyNone
| PyRecord (r : R)
| PyEagerResult (records : list R).
Arguments PyNone {R}.
Arguments PyRecord {R} r.
Arguments PyEagerResult {R} records.

Inductive transformer : Type :=
| to_eager_result
| Result_single.

Definition execute_query {R : Type} (rows : list R) (t : transformer) : pyobj R :=
  match t with
  | to_eager_result => PyEagerResult rows
  | Result_single =>
      match rows with
      | [] => PyNone
      | r :: _ => PyRecord r
      end
  end.

Definition is_None {R : Type} (o : pyobj R) : bool :=
  match o with
  | PyNone => true
  | _ => false
  end.

(** [o.get(key)]: records have [get]; a tuple and [None] do not. *)
Definition py_get {R V : Type} (o : pyobj R) (key : R -> option V) : result (option V) :=
  match o with
  | PyRecord r => Ok (key r)
  | PyNone => Raise (AttributeError "'NoneType' object has no attribute 'get'")
  | PyEagerResult _ => Raise (AttributeError "'EagerResult' object has no attribute 'get'")
  end.

(** [records, summary, keys = o] *)
Definition unpack_records {R : Type} (o : pyobj R) : result (list R) :=
  match o with
  | PyEagerResult records => Ok records
  | PyRecord _ => Raise (TypeError "cannot unpack non-iterable Record object")
  | PyNone => Raise (TypeError "cannot unpack non-iterable NoneType object")
  end.

(** A statement written as a plain string literal reaches the server as it is
    typed: only f-strings turn a doubled brace into a single one.  Cypher has
    no map literal that opens with two braces. *)
Definition plain_statement_ok (statement : string) : bool :=
  match index 0 "{{" statement with
  | Some _ => false
  | None => true
  end.

(** ** The payload library [asset_model]

    Assets, relations and properties come from an external package; the
    repository uses them through this interface only.  [prop_fields_match p q]
    is the Cypher filter built by [find_*_tags_by_content]: every key of
    [p.to_dict()] is present with the same value on a node that stores [q]. *)
Class AssetModel : Type := {
  Asset : Type;
  Relation : Type;
  Property : Type;
  asset_type : Asset -> string;
  label : Relation -> string;
  relation_type : Relation -> string;
  equals : Relation -> Relation -> bool;
  rel_is_fresher_than : Relation -> Relation -> bool;
  rel_override_with : Relation -> Relation -> Relation;
  property_type : Property -> string;
  prop_name : Property -> string;
  prop_is_fresher_than : Property -> Property -> bool;
  prop_override_with : Property -> Property -> Property;
  prop_fields_match : Property -> Property -> bool
}.

Section Types.
Context {AM : AssetModel}.

(** ** Stored record types

    Modelled from the spec: [asset_store/types] is not part of the sources.
    Section 3 gives the fields; the callers build records with [id],
    [created_at] and [updated_at] left out ([Edge(relation, from_entity,
    to_entity)], [EntityTag(entity=..., prop=...)]), so these three are
    optional, and [create_*_tag] tests [tag.prop is None]. *)
Record Entity : Type := mkEntity {
  entity_id : option string;
  entity_created_at : option datetime;
  entity_updated_at : option datetime;
  asset : Asset
}.

Record Edge : Type := mkEdge {
  edge_id : option string;
  edge_created_at : option datetime;
  edge_updated_at : option datetime;
  relation : Relation;
  from_entity : Entity;
  to_entity : Entity
}.

Record EntityTag : Type := mkEntityTag {
  etag_id : option string;
  etag_created_at : option datetime;
  etag_updated_at : option datetime;
  etag_entity : Entity;
  etag_prop : option Property
}.

Record EdgeTag : Type := mkEdgeTag {
  gtag_id : option string;
  gtag_created_at : option datetime;
  gtag_updated_at : option datetime;
  gtag_edge : Edge;
  gtag_prop : option Property
}.

(** Modelled from the spec: [asset_store/events] is not part of the sources;
    the constructors are the ones the repository code and its tests name. *)
Inductive Event : Type :=
| EdgeInserted (edge : Edge)
| EdgeUpdated (old_edge edge : Edge)
| EdgeUntouched (edge : Edge)
| EdgeDeleted (old_edge : Edge)
| EntityTagInserted (tag : EntityTag)
| EntityTagUpdated (old_tag tag : EntityTag)
| EntityTagUntouched (tag : EntityTag)
| EntityTagDeleted (old_tag : EntityTag)
| EdgeTagInserted (tag : EdgeTag)
| EdgeTagUpdated (old_tag tag : EdgeTag)
| EdgeTagUntouched (tag : EdgeTag)
| EdgeTagDeleted (old_tag : EdgeTag).

(** ** The graph store

    A relationship carries the [entity_id] of its two end nodes, its type and
    its property map; a tag node carries its second label (the property-type
    discriminator) and its property map.  A property the decoders test for
    [None] is optional here; [ep_relation] and [tp_prop] are the typed payload
    that the discriminator and the flattened fields decode to, absent when the
    discriminator is. *)
Record EdgeProps : Type := mkEdgeProps {
  ep_edge_id : option string;
  ep_created_at : option datetime;
  ep_updated_at : option datetime;
  ep_relation : option Relation
}.

Record Relationship : Type := mkRelationship {
  rel_start : option string;
  rel_end : option string;
  rel_type : string;
  rel_props : EdgeProps
}.

Record TagProps : Type := mkTagProps {
  tp_tag_id : option string;
  tp_owner_id : option string;
  tp_created_at : option datetime;
  tp_updated_at : option datetime;
  tp_prop : option Property
}.

Record TagNode : Type := mkTagNode {
  tn_label : string;
  tn_props : TagProps
}.

Record Graph : Type := mkGraph {
  entities : list Entity;
  relationships : list Relationship;
  entity_tag_nodes : list TagNode;
  edge_tag_nodes : list TagNode
}.

(** Rows of the result sets: [RETURN r, from.entity_id AS fid, to.entity_id AS
    tid] and [RETURN p]. *)
Record EdgeRow : Type := mkEdgeRow {
  row_r : option Relationship;
  row_fid : option string;
  row_tid : option string
}.

Record TagRow : Type := mkTagRow {
  row_p : option TagNode
}.

(** ** Repository object ([NeoRepository]) *)
Record NeoRepository : Type := mkNeoRepository {
  enforce_taxonomy : bool;
  emit_events : bool;
  _events_buffer : list Event;
  db : Graph;
  clock_reads : nat;
  uuids_drawn : nat
}.

End Types.

Section Model.
Context {AM : AssetModel} {PS : PyStr}.

(** [asset_model.valid_relationship], the taxonomy predicate. *)
Variable valid_relationship : string -> string -> string -> string -> bool.

(** [clock n] is what the [n]-th call of [datetime.now()] returns, [uuid4 n]
    the text of the [n]-th [str(uuid4())]. *)
Variable clock : nat -> datetime.
Variable uuid4 : nat -> string.

Definition set_db (self : NeoRepository) (g : Graph) : NeoRepository :=
  mkNeoRepository (enforce_taxonomy self) (emit_events self) (_events_buffer self)
    g (clock_reads self) (uuids_drawn self).

Definition set_events_buffer (self : NeoRepository) (buffer : list Event) : NeoRepository :=
  mkNeoRepository (enforce_taxonomy self) (emit_events self) buffer
    (db self) (clock_reads self) (uuids_drawn self).

Definition datetime_now (self : NeoRepository) : datetime * NeoRepository :=
  (clock (clock_reads self),
   mkNeoRepository (enforce_taxonomy self) (emit_events self) (_events_buffer self)
     (db self) (S (clock_reads self)) (uuids_drawn self)).

Definition str_uuid4 (self : NeoRepository) : string * NeoRepository :=
  (uuid4 (uuids_drawn self),
   mkNeoRepository (enforce_taxonomy self) (emit_events self) (_events_buffer self)
     (db self) (clock_reads self) (S (uuids_drawn self))).

(** ** neo_repository.py *)

(** [NeoRepository.__init__(uri, auth, enforce_taxonomy=True,
    emit_events=False)]; an argument left out is [None] here, and [database]
    is the store that [__enter__] connects to. *)
Definition __init__ (database : Graph) (enforce_taxonomy emit_events : option bool)
  : NeoRepository :=
  mkNeoRepository
    (match enforce_taxonomy with Some b => b | None => true end)
    (match emit_events with Some b => b | None => false end)
    [] database 0 0.

Definition _emit (self : NeoRepository) (event : Event) : NeoRepository :=
  if emit_events self
  then set_events_buffer self (_events_buffer self ++ [event])
  else self.

Definition flush_events (self : NeoRepository) : list Event * NeoRepository :=
  let events := _events_buffer self in
  (events, set_events_buffer self []).

(** ** entity.py *)

(** Modelled from the spec: [asset_store/repository/neo4j/entity.py] is not
    part of the sources.  An id-based find returns the stored entity with that
    id and fails when there is none (sections 4.5 and 7). *)
Definition find_entity_by_id (self : NeoRepository) (id : string) : result Entity :=
  match find (fun e => opt_string_eqb (entity_id e) (Some id)) (entities (db self)) with
  | Some e => Ok e
  | None => Raise (Exception "no entity was found")
  end.

(** ** edge.py *)

Definition _relationship_to_edge (rel : Relationship) (from_entity to_entity : Entity)
  : result Edge :=
  id <- require (ep_edge_id (rel_props rel)) "Unable to extract 'edge_id'" ;;
  created_at <- require (ep_created_at (rel_props rel)) "Unable to extract 'created_at'" ;;
  updated_at <- require (ep_updated_at (rel_props rel)) "Unable to extract 'updated_at'" ;;
  relation <- require (ep_relation (rel_props rel)) "Unable to extract 'etype'" ;;
  Ok (mkEdge (Some id) (Some created_at) (Some updated_at) relation from_entity to_entity).

(** [WHERE x.updated_at >= localDateTime(since)], when [since] is given. *)
Definition since_ok (since updated_at : option datetime) : bool :=
  match since with
  | None => true
  | Some t =>
      match updated_at with
      | Some u => (t <=? u)%nat
      | None => false
      end
  end.

(** [MATCH (:Entity {entity_id: $id}) -[r]-> (to:Entity) RETURN r,
    to.entity_id AS tid] *)
Definition match_outgoing (g : Graph) (id : option string) (since : option datetime)
  : list EdgeRow :=
  match id with
  | None => []
  | Some i =>
      map (fun r => mkEdgeRow (Some r) None (rel_end r))
        (filter (fun r => opt_string_eqb (rel_start r) (Some i)
                          && since_ok since (ep_updated_at (rel_props r)))
           (relationships g))
  end.

(** [MATCH (:Entity {entity_id: $id}) <-[r]- (from:Entity) RETURN r,
    from.entity_id AS fid] *)
Definition match_incoming (g : Graph) (id : option string) (since : option datetime)
  : list EdgeRow :=
  match id with
  | None => []
  | Some i =>
      map (fun r => mkEdgeRow (Some r) (rel_start r) None)
        (filter (fun r => opt_string_eqb (rel_end r) (Some i)
                          && since_ok since (ep_updated_at (rel_props r)))
           (relationships g))
  end.

(** [MATCH (from:Entity) -[r {edge_id: $id}]-> (to:Entity) RETURN r,
    from.entity_id as fid, to.entity_id as tid] *)
Definition match_edge_by_id (g : Graph) (id : string) : list EdgeRow :=
  map (fun r => mkEdgeRow (Some r) (rel_start r) (rel_end r))
    (filter (fun r => opt_string_eqb (ep_edge_id (rel_props r)) (Some id))
       (relationships g)).

(** The label test of the traversals: no labels, or one that matches the
    relationship type up to case. *)
Definition label_selected (labels : list string) (r : Relationship) : bool :=
  match labels with
  | [] => true
  | _ :: _ => existsb (fun l => (casefold l =? casefold (rel_type r))%string) labels
  end.

Fixpoint outgoing_edges_loop (self : NeoRepository) (entity : Entity)
  (labels : list string) (records : list EdgeRow) : result (list Edge) :=
  match records with
  | [] => Ok []
  | record :: rest =>
      match row_r record with
      | None => outgoing_edges_loop self entity labels rest
      | Some r =>
          if negb (label_selected labels r)
          then outgoing_edges_loop self entity labels rest
          else
            match row_tid record with
            | None => outgoing_edges_loop self entity labels rest
            | Some tid =>
                to_entity <- find_entity_by_id self tid ;;
                match _relationship_to_edge r entity to_entity with
                | Raise _ => outgoing_edges_loop self entity labels rest
                | Ok edge =>
                    results <- outgoing_edges_loop self entity labels rest ;;
                    Ok (edge :: results)
                end
            end
      end
  end.

Definition outgoing_edges (self : NeoRepository) (entity : Entity)
  (since : option datetime) (labels : list string) : result (list Edge) :=
  records <- unpack_records
    (execute_query (match_outgoing (db self) (entity_id entity) since) to_eager_result) ;;
  results <- outgoing_edges_loop self entity labels records ;;
  if (length results =? 0)%nat then Ok [] else Ok results.

Fixpoint incoming_edges_loop (self : NeoRepository) (entity : Entity)
  (labels : list string) (records : list EdgeRow) : result (list Edge) :=
  match records with
  | [] => Ok []
  | record :: rest =>
      match row_r record with
      | None => incoming_edges_loop self entity labels rest
      | Some r =>
          if negb (label_selected labels r)
          then incoming_edges_loop self entity labels rest
          else
            match row_fid record with
            | None => incoming_edges_loop self entity labels rest
            | Some fid =>
                from_entity <- find_entity_by_id self fid ;;
                edge <- _relationship_to_edge r from_entity entity ;;
                results <- incoming_edges_loop self entity labels rest ;;
                Ok (edge :: results)
            end
      end
  end.

Definition incoming_edges (self : NeoRepository) (entity : Entity)
  (since : option datetime) (labels : list string) : result (list Edge) :=
  records <- unpack_records
    (execute_query (match_incoming (db self) (entity_id entity) since) to_eager_result) ;;
  results <- incoming_edges_loop self entity labels records ;;
  if (length results =? 0)%nat then Ok [] else Ok results.

(** [v = record.get(key); if v is None: raise Exception(msg)] *)
Definition get_required {R V : Type} (record : pyobj R) (key : R -> option V)
  (msg : string) : result V :=
  v <- py_get record key ;;
  require v msg.

Definition find_edge_by_id (self : NeoRepository) (id : string) : result Edge :=
  let record := execute_query (match_edge_by_id (db self) id) Result_single in
  if is_None record then Raise (Exception "no edge was found")
  else
    r <- get_required record row_r "the record value for the relationship is empty" ;;
    fid <- get_required record row_fid "the record value for the from entity ID is empty" ;;
    from_entity <- find_entity_by_id self fid ;;
    tid <- get_required record row_tid "the record value for the to entity ID is empty" ;;
    to_entity <- find_entity_by_id self tid ;;
    _relationship_to_edge r from_entity to_entity.

Definition _find_existing_edge (self : NeoRepository) (edge : Edge) : result (option Edge) :=
  match explicit_id (edge_id edge) with
  | Some id =>
      found <- find_edge_by_id self id ;;
      Ok (Some found)
  | None =>
      match outgoing_edges self (from_entity edge) None [] with
      | Ok outs =>
          Ok (find (fun out =>
                      opt_string_eqb (entity_id (to_entity edge)) (entity_id (to_entity out))
                      && equals (relation edge) (relation out))
                outs)
      | Raise _ => Ok None
      end
  end.

(** Modelled from the spec: [Edge.label] and [Edge.to_dict] belong to
    [asset_store/types/edge.py], which is not part of the sources.  The
    relationship type is the relation label in upper case and the property map
    is [edge_id, created_at, updated_at, etype] and the flattened relation
    fields (section 6); decoding what [to_dict] wrote gives the relation back. *)
Definition Edge_label (edge : Edge) : string := upper (label (relation edge)).

Definition Edge_to_dict (edge : Edge) : EdgeProps :=
  mkEdgeProps (edge_id edge) (edge_created_at edge) (edge_updated_at edge)
    (Some (relation edge)).

Definition set_relationships (g : Graph) (rels : list Relationship) : Graph :=
  mkGraph (entities g) rels (entity_tag_nodes g) (edge_tag_nodes g).

Definition is_entity_node (id : string) (e : Entity) : bool :=
  opt_string_eqb (entity_id e) (Some id).

(** [MATCH (from:Entity {entity_id: "<from_id>"})
     MATCH (to:Entity {entity_id: "<to_id>"})
     CREATE (from) -[r:<label> $props]-> (to) RETURN r, from, to]:
    one relationship, and one row, for every pair of matching end nodes. *)
Definition create_relationship (g : Graph) (from_id to_id rtype : string)
  (props : EdgeProps) : list EdgeRow * Graph :=
  let froms := filter (is_entity_node from_id) (entities g) in
  let tos := filter (is_entity_node to_id) (entities g) in
  let created :=
    repeat (mkRelationship (Some from_id) (Some to_id) rtype props)
      (length froms * length tos) in
  (map (fun r => mkEdgeRow (Some r) (Some from_id) (Some to_id)) created,
   set_relationships g (relationships g ++ created)).

Definition relationship_between (from_id to_id rtype : string) (r : Relationship) : bool :=
  opt_string_eqb (rel_start r) (Some from_id)
  && opt_string_eqb (rel_end r) (Some to_id)
  && (rel_type r =? rtype)%string.

(** [MATCH (from:Entity {entity_id: "<from_id>"})
     MATCH (to:Entity {entity_id: "<to_id>"})
     MATCH (from) -[r:<label>]-> (to) SET r = $props RETURN r, from, to]:
    every relationship of that type between the two nodes gets the new map. *)
Definition set_relationship_props (g : Graph) (from_id to_id rtype : string)
  (props : EdgeProps) : list EdgeRow * Graph :=
  let rels :=
    map (fun r => if relationship_between from_id to_id rtype r
                  then mkRelationship (rel_start r) (rel_end r) (rel_type r) props
                  else r)
      (relationships g) in
  (map (fun r => mkEdgeRow (Some r) (Some from_id) (Some to_id))
     (filter (relationship_between from_id to_id rtype) rels),
   set_relationships g rels).

Definition taxonomy_message (edge : Edge) : string :=
  asset_type (asset (from_entity edge)) ++ " -" ++ label (relation edge) ++ "-> "
  ++ asset_type (asset (to_entity edge)) ++ " is not valid in the taxonomy".

Definition create_edge (self : NeoRepository) (edge : Edge) : result Edge * NeoRepository :=
  if enforce_taxonomy self
     && negb (valid_relationship
                (asset_type (asset (from_entity edge)))
                (label (relation edge))
                (relation_type (relation edge))
                (asset_type (asset (to_entity edge))))
  then (Raise (Exception (taxonomy_message edge)), self)
  else
    match _find_existing_edge self edge with
    | Raise e => (Raise e, self)
    | Ok None =>
        let (id, s1) := str_uuid4 self in
        let (created_at, s2) := datetime_now s1 in
        let (updated_at, s3) := datetime_now s2 in
        let new_edge :=
          mkEdge (Some id) (Some created_at) (Some updated_at)
            (relation edge) (from_entity edge) (to_entity edge) in
        let (rows, g) :=
          create_relationship (db s3)
            (py_str (entity_id (from_entity new_edge)))
            (py_str (entity_id (to_entity new_edge)))
            (Edge_label new_edge) (Edge_to_dict new_edge) in
        let s4 := set_db s3 g in
        let record := execute_query rows Result_single in
        if is_None record
        then (Raise (Exception "no records returned from the query"), s4)
        else (Ok new_edge, _emit s4 (EdgeInserted new_edge))
    | Ok (Some old_edge) =>
        if rel_is_fresher_than (relation edge) (relation old_edge)
        then
          let (updated_at, s1) := datetime_now self in
          let new_edge :=
            mkEdge (edge_id old_edge) (edge_created_at old_edge) (Some updated_at)
              (rel_override_with (relation old_edge) (relation edge))
              (from_entity old_edge) (to_entity old_edge) in
          let (rows, g) :=
            set_relationship_props (db s1)
              (py_str (entity_id (from_entity new_edge)))
              (py_str (entity_id (to_entity new_edge)))
              (Edge_label new_edge) (Edge_to_dict new_edge) in
          let s2 := set_db s1 g in
          let record := execute_query rows Result_single in
          if is_None record
          then (Raise (Exception "no records returned from the query"), s2)
          else (Ok new_edge, _emit s2 (EdgeUpdated old_edge new_edge))
        else (Ok old_edge, _emit self (EdgeUntouched old_edge))
    end.

Definition create_relation (self : NeoRepository) (relation : Relation)
  (from_entity to_entity : Entity) : result Edge * NeoRepository :=
  create_edge self (mkEdge None None None relation from_entity to_entity).

(** The statement of [delete_edge], a plain string literal. *)
Definition delete_edge_statement : string :=
  "MATCH ()-[r {{ edge_id: $id }}]->() DELETE r".

(** What [MATCH ()-[r {edge_id: $id}]->() DELETE r] does. *)
Definition delete_relationships (g : Graph) (id : string) : Graph :=
  set_relationships g
    (filter (fun r => negb (opt_string_eqb (ep_edge_id (rel_props r)) (Some id)))
       (relationships g)).

Definition delete_edge (self : NeoRepository) (id : string) : result Edge * NeoRepository :=
  match find_edge_by_id self id with
  | Raise e => (Raise e, self)
  | Ok edge =>
      if plain_statement_ok delete_edge_statement
      then
        let s1 := set_db self (delete_relationships (db self) id) in
        (Ok edge, _emit s1 (EdgeDeleted edge))
      else (Raise (CypherSyntaxError "Invalid input '{'"), self)
  end.

(** ** Statements on tag nodes (the same for [:EntityTag] and [:EdgeTag]) *)

(** [MATCH (p:<Kind>:<property type>) WHERE p.k = $k AND ... RETURN p], one
    conjunct for every key of [prop.to_dict()]. *)
Definition match_tags_by_content (nodes : list TagNode) (prop : Property)
  (since : option datetime) : list TagRow :=
  map (fun n => mkTagRow (Some n))
    (filter (fun n => (tn_label n =? property_type prop)%string
                      && match tp_prop (tn_props n) with
                         | Some stored => prop_fields_match prop stored
                         | None => false
                         end
                      && since_ok since (tp_updated_at (tn_props n)))
       nodes).

(** [MATCH (p:<Kind> {tag_id: $id}) RETURN p] *)
Definition match_tag_by_id (nodes : list TagNode) (id : option string) : list TagRow :=
  match id with
  | None => []
  | Some i =>
      map (fun n => mkTagRow (Some n))
        (filter (fun n => opt_string_eqb (tp_tag_id (tn_props n)) (Some i)) nodes)
  end.

(** [MATCH (p:<Kind> {<owner>_id: '<id>'}) RETURN p] *)
Definition match_tags_by_owner (nodes : list TagNode) (owner_id : string)
  (since : option datetime) : list TagRow :=
  map (fun n => mkTagRow (Some n))
    (filter (fun n => opt_string_eqb (tp_owner_id (tn_props n)) (Some owner_id)
                      && since_ok since (tp_updated_at (tn_props n)))
       nodes).

(** [CREATE (n:<Kind>:<property type> $props) RETURN n] *)
Definition create_tag_node (nodes : list TagNode) (ptype : string) (props : TagProps)
  : list TagRow * list TagNode :=
  let n := mkTagNode ptype props in
  ([mkTagRow (Some n)], (nodes ++ [n])%list).

(** [MATCH (n:<Kind> {tag_id: $tid}) SET n = $props RETURN n] *)
Definition set_tag_props (nodes : list TagNode) (tid : option string) (props : TagProps)
  : list TagRow * list TagNode :=
  let hit n := match tid with
               | Some i => opt_string_eqb (tp_tag_id (tn_props n)) (Some i)
               | None => false
               end in
  (map (fun n => mkTagRow (Some (mkTagNode (tn_label n) props))) (filter hit nodes),
   map (fun n => if hit n then mkTagNode (tn_label n) props else n) nodes).

(** [MATCH (n:<Kind> {tag_id: $id}) DETACH DELETE n] *)
Definition delete_tag_nodes (nodes : list TagNode) (id : string) : list TagNode :=
  filter (fun n => negb (opt_string_eqb (tp_tag_id (tn_props n)) (Some id))) nodes.

Definition set_entity_tag_nodes (g : Graph) (nodes : list TagNode) : Graph :=
  mkGraph (entities g) (relationships g) nodes (edge_tag_nodes g).

Definition set_edge_tag_nodes (g : Graph) (nodes : list TagNode) : Graph :=
  mkGraph (entities g) (relationships g) (entity_tag_nodes g) nodes.

(** Modelled from the spec: [EntityTag.to_dict] and [EdgeTag.to_dict] belong to
    [asset_store/types], which is not part of the sources.  The map is
    [tag_id, entity_id|edge_id, created_at, updated_at, ttype] and the
    flattened property fields (section 6), ids written with [str] as the
    [asset_db/types] versions do. *)
Definition EntityTag_to_dict (tag : EntityTag) : TagProps :=
  mkTagProps (Some (py_str (etag_id tag)))
    (Some (py_str (entity_id (etag_entity tag))))
    (etag_created_at tag) (etag_updated_at tag) (etag_prop tag).

Definition EdgeTag_to_dict (tag : EdgeTag) : TagProps :=
  mkTagProps (Some (py_str (gtag_id tag)))
    (Some (py_str (edge_id (gtag_edge tag))))
    (gtag_created_at tag) (gtag_updated_at tag) (gtag_prop tag).

(** ** entity_tag.py *)

Definition _node_to_entity_tag (self : NeoRepository) (node : TagNode) : result EntityTag :=
  id <- require (tp_tag_id (tn_props node)) "Unable to extract 'tag_id'" ;;
  entity_id <- require (tp_owner_id (tn_props node)) "Unable to extract 'entity_id'" ;;
  entity <- find_entity_by_id self entity_id ;;
  created_at <- require (tp_created_at (tn_props node)) "Unable to extract 'created_at'" ;;
  updated_at <- require (tp_updated_at (tn_props node)) "Unable to extract 'created_at'" ;;
  prop <- require (tp_prop (tn_props node)) "Unable to extract 'ttype'" ;;
  Ok (mkEntityTag (Some id) (Some created_at) (Some updated_at) entity (Some prop)).

Fixpoint entity_tags_of_records (self : NeoRepository) (records : list TagRow)
  : result (list EntityTag) :=
  match records with
  | [] => Ok []
  | record :: rest =>
      match row_p record with
      | None => entity_tags_of_records self rest
      | Some node =>
          tag <- _node_to_entity_tag self node ;;
          tags <- entity_tags_of_records self rest ;;
          Ok (tag :: tags)
      end
  end.

Definition find_entity_tags_by_content (self : NeoRepository) (prop : Property)
  (since : option datetime) : result (list EntityTag) :=
  records <- unpack_records
    (execute_query (match_tags_by_content (entity_tag_nodes (db self)) prop since)
       to_eager_result) ;;
  tags <- entity_tags_of_records self records ;;
  if (length tags =? 0)%nat then Ok [] else Ok tags.

Definition find_entity_tag_by_id (self : NeoRepository) (id : string) : result EntityTag :=
  let result :=
    execute_query (match_tag_by_id (entity_tag_nodes (db self)) (Some id)) to_eager_result in
  if is_None result
  then Raise (Exception ("the entity tag with ID " ++ id ++ " was not found"))
  else
    node <- get_required result row_p "the record value for the node is empty" ;;
    _node_to_entity_tag self node.

Fixpoint find_entity_tags_loop (self : NeoRepository) (names : list string)
  (records : list TagRow) : result (list EntityTag) :=
  match records with
  | [] => Ok []
  | record :: rest =>
      match row_p record with
      | None => find_entity_tags_loop self names rest
      | Some node =>
          tag <- _node_to_entity_tag self node ;;
          match etag_prop tag with
          | None => Raise (Exception "malformed entity tag")
          | Some p =>
              if (0 <? length names)%nat
                 && negb (existsb (fun n => (n =? prop_name p)%string) names)
              then find_entity_tags_loop self names rest
              else
                tags <- find_entity_tags_loop self names rest ;;
                Ok (tag :: tags)
          end
      end
  end.

Definition find_entity_tags (self : NeoRepository) (entity : Entity)
  (since : option datetime) (names : list string) : result (list EntityTag) :=
  records <- unpack_records
    (execute_query
       (match_tags_by_owner (entity_tag_nodes (db self)) (py_str (entity_id entity)) since)
       to_eager_result) ;;
  if (length records =? 0)%nat then Raise (Exception "no entity tags found")
  else
    tags <- find_entity_tags_loop self names records ;;
    if (length tags =? 0)%nat then Raise (Exception "no entity tag found") else Ok tags.

Definition _find_existing_entity_tag (self : NeoRepository) (tag : EntityTag)
  : result (option EntityTag) :=
  match explicit_id (etag_id tag) with
  | Some id =>
      found <- find_entity_tag_by_id self id ;;
      Ok (Some found)
  | None =>
      match etag_prop tag with
      | None => Raise (AttributeError "'NoneType' object has no attribute 'to_dict'")
      | Some prop =>
          findings <- find_entity_tags_by_content self prop None ;;
          match findings with
          | first :: _ => Ok (Some first)
          | [] => Ok None
          end
      end
  end.

Definition create_entity_tag (self : NeoRepository) (tag : EntityTag)
  : result EntityTag * NeoRepository :=
  match etag_prop tag with
  | None => (Raise (Exception "malformed entity tag"), self)
  | Some prop =>
      match _find_existing_entity_tag self tag with
      | Raise e => (Raise e, self)
      | Ok None =>
          let (id, s1) := str_uuid4 self in
          let (created_at, s2) := datetime_now s1 in
          let (updated_at, s3) := datetime_now s2 in
          let new_tag :=
            mkEntityTag (Some id) (Some created_at) (Some updated_at)
              (etag_entity tag) (Some prop) in
          let props := EntityTag_to_dict new_tag in
          let (rows, nodes) :=
            create_tag_node (entity_tag_nodes (db s3)) (property_type prop) props in
          let s4 := set_db s3 (set_entity_tag_nodes (db s3) nodes) in
          let record := execute_query rows Result_single in
          if is_None record
          then (Raise (Exception "no records returned from the query"), s4)
          else (Ok new_tag, _emit s4 (EntityTagInserted new_tag))
      | Ok (Some old_tag) =>
          match etag_prop old_tag with
          | None => (Raise (AttributeError "'NoneType' object has no attribute 'override_with'"), self)
          | Some old_prop =>
              if prop_is_fresher_than prop old_prop
              then
                let (updated_at, s1) := datetime_now self in
                let new_tag :=
                  mkEntityTag (etag_id old_tag) (etag_created_at old_tag) (Some updated_at)
                    (etag_entity old_tag) (Some (prop_override_with old_prop prop)) in
                let props := EntityTag_to_dict new_tag in
                let (rows, nodes) :=
                  set_tag_props (entity_tag_nodes (db s1)) (etag_id new_tag) props in
                let s2 := set_db s1 (set_entity_tag_nodes (db s1) nodes) in
                (Ok new_tag, _emit s2 (EntityTagUpdated old_tag new_tag))
              else (Ok old_tag, _emit self (EntityTagUntouched old_tag))
          end
      end
  end.

Definition create_entity_property (self : NeoRepository) (entity : Entity) (prop : Property)
  : result EntityTag * NeoRepository :=
  create_entity_tag self (mkEntityTag None None None entity (Some prop)).

(** The statement of [delete_entity_tag], a plain string literal. *)
Definition delete_entity_tag_statement : string :=
  "MATCH (n:EntityTag {tag_id: $id}) DETACH DELETE n".

Definition delete_entity_tag (self : NeoRepository) (id : string)
  : result EntityTag * NeoRepository :=
  match find_entity_tag_by_id self id with
  | Raise e => (Raise e, self)
  | Ok tag =>
      if plain_statement_ok delete_entity_tag_statement
      then
        let s1 :=
          set_db self
            (set_entity_tag_nodes (db self) (delete_tag_nodes (entity_tag_nodes (db self)) id)) in
        (Ok tag, _emit s1 (EntityTagDeleted tag))
      else (Raise (CypherSyntaxError "Invalid input '{'"), self)
  end.

(** ** edge_tag.py *)

Definition _node_to_edge_tag (self : NeoRepository) (node : TagNode) : result EdgeTag :=
  id <- require (tp_tag_id (tn_props node)) "Unable to extract 'tag_id'" ;;
  edge_id <- require (tp_owner_id (tn_props node)) "Unable to extract 'edge_id'" ;;
  edge <- find_edge_by_id self edge_id ;;
  created_at <- require (tp_created_at (tn_props node)) "Unable to extract 'created_at'" ;;
  updated_at <- require (tp_updated_at (tn_props node)) "Unable to extract 'updated_at'" ;;
  prop <- require (tp_prop (tn_props node)) "Unable to extract 'ttype'" ;;
  Ok (mkEdgeTag (Some id) (Some created_at) (Some updated_at) edge (Some prop)).

Fixpoint edge_tags_of_records (self : NeoRepository) (records : list TagRow)
  : result (list EdgeTag) :=
  match records with
  | [] => Ok []
  | record :: rest =>
      match row_p record with
      | None => edge_tags_of_records self rest
      | Some node =>
          tag <- _node_to_edge_tag self node ;;
          tags <- edge_tags_of_records self rest ;;
          Ok (tag :: tags)
      end
  end.

Definition find_edge_tags_by_content (self : NeoRepository) (prop : Property)
  (since : option datetime) : result (list EdgeTag) :=
  records <- unpack_records
    (execute_query (match_tags_by_content (edge_tag_nodes (db self)) prop since)
       to_eager_result) ;;
  tags <- edge_tags_of_records self records ;;
  if (length tags =? 0)%nat then Ok [] else Ok tags.

Definition find_edge_tag_by_id (self : NeoRepository) (id : string) : result EdgeTag :=
  let result :=
    execute_query (match_tag_by_id (edge_tag_nodes (db self)) (Some id)) to_eager_result in
  if is_None result
  then Raise (Exception ("the edge tag with ID " ++ id ++ " was not found"))
  else
    node <- get_required result row_p "the record value for the node is empty" ;;
    _node_to_edge_tag self node.

Fixpoint find_edge_tags_loop (self : NeoRepository) (names : list string)
  (records : list TagRow) : result (list EdgeTag) :=
  match records with
  | [] => Ok []
  | record :: rest =>
      match row_p record with
      | None => find_edge_tags_loop self names rest
      | Some node =>
          tag <- _node_to_edge_tag self node ;;
          match gtag_prop tag with
          | None => Raise (Exception "malformed edge tag")
          | Some p =>
              if (0 <? length names)%nat
                 && negb (existsb (fun n => (n =? prop_name p)%string) names)
              then find_edge_tags_loop self names rest
              else
                tags <- find_edge_tags_loop self names rest ;;
                Ok (tag :: tags)
          end
      end
  end.

Definition find_edge_tags (self : NeoRepository) (edge : Edge)
  (since : option datetime) (names : list string) : result (list EdgeTag) :=
  records <- unpack_records
    (execute_query
       (match_tags_by_owner (edge_tag_nodes (db self)) (py_str (edge_id edge)) since)
       to_eager_result) ;;
  tags <- find_edge_tags_loop self names records ;;
  if (length tags =? 0)%nat then Ok [] else Ok tags.

Definition _find_existing_edge_tag (self : NeoRepository) (tag : EdgeTag)
  : result (option EdgeTag) :=
  match explicit_id (gtag_id tag) with
  | Some id =>
      found <- find_edge_tag_by_id self id ;;
      Ok (Some found)
  | None =>
      match gtag_prop tag with
      | None => Raise (AttributeError "'NoneType' object has no attribute 'to_dict'")
      | Some prop =>
          findings <- find_edge_tags_by_content self prop None ;;
          match findings with
          | first :: _ => Ok (Some first)
          | [] => Ok None
          end
      end
  end.

(** In [create_entity_tag] and [create_edge_tag] the stored tag comes out of
    [_node_to_*_tag], which always sets [prop]; the branch for a stored tag
    without one is there for totality only. *)
Definition create_edge_tag (self : NeoRepository) (tag : EdgeTag)
  : result EdgeTag * NeoRepository :=
  match gtag_prop tag with
  | None => (Raise (Exception "malformed entity tag"), self)
  | Some prop =>
      match _find_existing_edge_tag self tag with
      | Raise e => (Raise e, self)
      | Ok None =>
          let (id, s1) := str_uuid4 self in
          let (created_at, s2) := datetime_now s1 in
          let (updated_at, s3) := datetime_now s2 in
          let new_tag :=
            mkEdgeTag (Some id) (Some created_at) (Some updated_at)
              (gtag_edge tag) (Some prop) in
          let props := EdgeTag_to_dict new_tag in
          let (rows, nodes) :=
            create_tag_node (edge_tag_nodes (db s3)) (property_type prop) props in
          let s4 := set_db s3 (set_edge_tag_nodes (db s3) nodes) in
          let record := execute_query rows Result_single in
          if is_None record
          then (Raise (Exception "no records returned from the query"), s4)
          else (Ok new_tag, _emit s4 (EdgeTagInserted new_tag))
      | Ok (Some old_tag) =>
          match gtag_prop old_tag with
          | None => (Raise (AttributeError "'NoneType' object has no attribute 'override_with'"), self)
          | Some old_prop =>
              if prop_is_fresher_than prop old_prop
              then
                let (updated_at, s1) := datetime_now self in
                let new_tag :=
                  mkEdgeTag (gtag_id old_tag) (gtag_created_at old_tag) (Some updated_at)
                    (gtag_edge old_tag) (Some (prop_override_with old_prop prop)) in
                let props := EdgeTag_to_dict new_tag in
                let (rows, nodes) :=
                  set_tag_props (edge_tag_nodes (db s1)) (gtag_id new_tag) props in
                let s2 := set_db s1 (set_edge_tag_nodes (db s1) nodes) in
                let record := execute_query rows Result_single in
                if is_None record
                then (Raise (Exception "no records returned from the query"), s2)
                else (Ok new_tag, _emit s2 (EdgeTagUpdated old_tag new_tag))
              else (Ok old_tag, _emit self (EdgeTagUntouched old_tag))
          end
      end
  end.

Definition create_edge_property (self : NeoRepository) (edge : Edge) (prop : Property)
  : result EdgeTag * NeoRepository :=
  create_edge_tag self (mkEdgeTag None None None edge (Some prop)).

(** The statement of [delete_edge_tag], a plain string literal. *)
Definition delete_edge_tag_statement : string :=
  "MATCH (n:EdgeTag {tag_id: $id}) DETACH DELETE n".

Definition delete_edge_tag (self : NeoRepository) (id : string)
  : result EdgeTag * NeoRepository :=
  match find_edge_tag_by_id self id with
  | Raise e => (Raise e, self)
  | Ok tag =>
      if plain_statement_ok delete_edge_tag_statement
      then
        let s1 :=
          set_db self
            (set_edge_tag_nodes (db self) (delete_tag_nodes (edge_tag_nodes (db self)) id)) in
        (Ok tag, _emit s1 (EdgeTagDeleted tag))
      else (Raise (CypherSyntaxError "Invalid input '{'"), self)
  end.

(** ** Sequences of facade calls *)

Inductive call : Type :=
| call_create_edge (edge : Edge)
| call_create_relation (relation : Relation) (from_entity to_entity : Entity)
| call_delete_edge (id : string)
| call_create_entity_tag (tag : EntityTag)
| call_create_entity_property (entity : Entity) (prop : Property)
| call_delete_entity_tag (id : string)
| call_create_edge_tag (tag : EdgeTag)
| call_create_edge_property (edge : Edge) (prop : Property)
| call_delete_edge_tag (id : string).

(** The repository after one call; an exception leaves the object as the call
    left it. *)
Definition after (self : NeoRepository) (c : call) : NeoRepository :=
  match c with
  | call_create_edge edge => snd (create_edge self edge)
  | call_create_relation relation from_entity to_entity =>
      snd (create_relation self relation from_entity to_entity)
  | call_delete_edge id => snd (delete_edge self id)
  | call_create_entity_tag tag => snd (create_entity_tag self tag)
  | call_create_entity_property entity prop => snd (create_entity_property self entity prop)
  | call_delete_entity_tag id => snd (delete_entity_tag self id)
  | call_create_edge_tag tag => snd (create_edge_tag self tag)
  | call_create_edge_property edge prop => snd (create_edge_property self edge prop)
  | call_delete_edge_tag id => snd (delete_edge_tag self id)
  end.

(** Whether the call returned (rather than raised). *)
Definition returned (self : NeoRepository) (c : call) : bool :=
  let ok {A : Type} (r : result A * NeoRepository) : bool :=
    match fst r with Ok _ => true | Raise _ => false end in
  match c with
  | call_create_edge edge => ok (create_edge self edge)
  | call_create_relation relation from_entity to_entity =>
      ok (create_relation self relation from_entity to_entity)
  | call_delete_edge id => ok (delete_edge self id)
  | call_create_entity_tag tag => ok (create_entity_tag self tag)
  | call_create_entity_property entity prop => ok (create_entity_property self entity prop)
  | call_delete_entity_tag id => ok (delete_entity_tag self id)
  | call_create_edge_tag tag => ok (create_edge_tag self tag)
  | call_create_edge_property edge prop => ok (create_edge_property self edge prop)
  | call_delete_edge_tag id => ok (delete_edge_tag self id)
  end.

Definition run (self : NeoRepository) (calls : list call) : NeoRepository :=
  fold_left after calls self.

End Model.

(** ** The older repository, [asset_db/repository/neo4j]

    Its content lookups for tags, over the same [Graph]. *)
Module AssetDb.
Section Model.
Context {AM : AssetModel}.

(** [query.query_node_by_property_key_value]: the node pattern of the four
    property classes it knows, as the test it puts on a node's property map;
    any other property is the exception [asset type not supported]. *)
Variable key_value_pattern : Property -> option (TagProps -> bool).

Definition query_node_by_property_key_value (prop : Property) : result (TagProps -> bool) :=
  require (key_value_pattern prop) "asset type not supported".

(** [extract.node_to_entity_tag] and [extract.node_to_edge_tag] open with
    [EntityTag()] and [EdgeTag()]; the dataclasses of [asset_db/types] give
    none of their five fields a default. *)
Definition node_to_entity_tag (node : TagNode) : result EntityTag :=
  Raise (TypeError "EntityTag.__init__() missing 5 required positional arguments").

Definition node_to_edge_tag (node : TagNode) : result EdgeTag :=
  Raise (TypeError "EdgeTag.__init__() missing 5 required positional arguments").

(** [MATCH (p:<Kind> {k: v, ...}) RETURN p] *)
Definition match_pattern (nodes : list TagNode) (qnode : TagProps -> bool)
  (since : option datetime) : list TagRow :=
  map (fun n => mkTagRow (Some n))
    (filter (fun n => qnode (tn_props n) && since_ok since (tp_updated_at (tn_props n)))
       nodes).

Fixpoint entity_tags_of_records (records : list TagRow) : result (list EntityTag) :=
  match records with
  | [] => Ok []
  | record :: rest =>
      match row_p record with
      | None => entity_tags_of_records rest
      | Some node =>
          tag <- node_to_entity_tag node ;;
          tags <- entity_tags_of_records rest ;;
          Ok (tag :: tags)
      end
  end.

Definition find_entity_tags_by_content (g : Graph) (prop : Property)
  (since : option datetime) : result (list EntityTag) :=
  qnode <- query_node_by_property_key_value prop ;;
  records <- unpack_records
    (execute_query (match_pattern (entity_tag_nodes g) qnode since) to_eager_result) ;;
  if (length records =? 0)%nat then Raise (Exception "no entity tags found")
  else
    tags <- entity_tags_of_records records ;;
    if (length tags =? 0)%nat then Raise (Exception "no entity tag found") else Ok tags.

Fixpoint edge_tags_of_records (records : list TagRow) : result (list EdgeTag) :=
  match records with
  | [] => Ok []
  | record :: rest =>
      match row_p record with
      | None => edge_tags_of_records rest
      | Some node =>
          tag <- node_to_edge_tag node ;;
          tags <- edge_tags_of_records rest ;;
          Ok (tag :: tags)
      end
  end.

Definition find_edge_tags_by_content (g : Graph) (prop : Property)
  (since : option datetime) : result (list EdgeTag) :=
  qnode <- query_node_by_property_key_value prop ;;
  records <- unpack_records
    (execute_query (match_pattern (edge_tag_nodes g) qnode since) to_eager_result) ;;
  if (length records =? 0)%nat then Raise (Exception "no edge tags found")
  else
    tags <- edge_tags_of_records records ;;
    if (length tags =? 0)%nat then Raise (Exception "no edge tag found") else Ok tags.

End Model.
End AssetDb.

(** ** A small payload library and the fixtures of the test suite

    The tests under [asset_store/repository/tests] work with an FQDN, an
    IPv4 address, a basic DNS relation between them and a source property.
    [Fixtures] gives these shapes a freshness order (the larger TTL, the
    larger confidence) so that every branch of the upserts can be evaluated;
    the theorems below hold for any payload library. *)
Module Fixtures.

(** The labels of the fixtures are ASCII text, on which [upper] and
    [casefold] change the letters a-z and A-Z and nothing else. *)
Definition upper_ascii (c : ascii) : ascii :=
  let n := nat_of_ascii c in
  if ((97 <=? n) && (n <=? 122))%nat then ascii_of_nat (n - 32) else c.

Definition lower_ascii (c : ascii) : ascii :=
  let n := nat_of_ascii c in
  if ((65 <=? n) && (n <=? 90))%nat then ascii_of_nat (n + 32) else c.

Fixpoint ascii_upper (s : string) : string :=
  match s with
  | EmptyString => EmptyString
  | String c r => String (upper_ascii c) (ascii_upper r)
  end.

Fixpoint ascii_casefold (s : string) : string :=
  match s with
  | EmptyString => EmptyString
  | String c r => String (lower_ascii c) (ascii_casefold r)
  end.

#[export] Instance text : PyStr := {|
  upper := ascii_upper;
  casefold := ascii_casefold
|}.

Inductive asset : Type :=
| FQDN (name : string)
| IPAddress (address : string) (version : nat).

Inductive relation : Type :=
| BasicDNSRelation (name : string) (rrtype : nat) (ttl : nat)
| SimpleRelation (name : string).

Inductive property : Type :=
| SourceProperty (source : string) (confidence : nat)
| SimpleProperty (property_name property_value : string).

Definition relation_name (r : relation) : string :=
  match r with
  | BasicDNSRelation name _ _ => name
  | SimpleRelation name => name
  end.

Definition relation_equals (a b : relation) : bool :=
  match a, b with
  | BasicDNSRelation n1 t1 _, BasicDNSRelation n2 t2 _ => (n1 =? n2)%string && (t1 =? t2)%nat
  | SimpleRelation n1, SimpleRelation n2 => (n1 =? n2)%string
  | _, _ => false
  end.

Definition relation_fresher (a b : relation) : bool :=
  match a, b with
  | BasicDNSRelation _ _ ttl1, BasicDNSRelation _ _ ttl2 => (ttl2 <? ttl1)%nat
  | _, _ => false
  end.

(** The filter of the content lookups: one equality for every key of
    [to_dict()], that is, for every field of the property. *)
Definition property_fields_match (p stored : property) : bool :=
  match p, stored with
  | SourceProperty s1 c1, SourceProperty s2 c2 => (s1 =? s2)%string && (c1 =? c2)%nat
  | SimpleProperty n1 v1, SimpleProperty n2 v2 => (n1 =? n2)%string && (v1 =? v2)%string
  | _, _ => false
  end.

(** A source property is fresher when its confidence is larger.  A simple
    property has no field that orders two observations: the one that comes in
    counts as the fresher one (last writer wins). *)
Definition property_fresher (p stored : property) : bool :=
  match p, stored with
  | SourceProperty _ c1, SourceProperty _ c2 => (c2 <? c1)%nat
  | SimpleProperty _ _, SimpleProperty _ _ => true
  | _, _ => false
  end.

#[export] Instance model : AssetModel := {|
  Asset := asset;
  Relation := relation;
  Property := property;
  asset_type := fun a => match a with FQDN _ => "FQDN" | IPAddress _ _ => "IPAddress" end;
  label := relation_name;
  relation_type := fun r =>
    match r with
    | BasicDNSRelation _ _ _ => "BasicDNSRelation"
    | SimpleRelation _ => "SimpleRelation"
    end;
  equals := relation_equals;
  rel_is_fresher_than := relation_fresher;
  rel_override_with := fun _ incoming => incoming;
  property_type := fun p =>
    match p with
    | SourceProperty _ _ => "SourceProperty"
    | SimpleProperty _ _ => "SimpleProperty"
    end;
  prop_name := fun p =>
    match p with
    | SourceProperty source _ => source
    | SimpleProperty name _ => name
    end;
  prop_is_fresher_than := property_fresher;
  prop_override_with := fun _ incoming => incoming;
  prop_fields_match := property_fields_match
|}.

(** A taxonomy with one legal combination. *)
Definition taxonomy (from_type rel_label rel_type to_type : string) : bool :=
  (from_type =? "FQDN")%string && (rel_label =? "dns_record")%string
  && (rel_type =? "BasicDNSRelation")%string && (to_type =? "IPAddress")%string.

Definition clock (n : nat) : datetime := 1000 + n.

Definition uuid4 (n : nat) : string :=
  match n with
  | 0 => "uuid-0"
  | 1 => "uuid-1"
  | 2 => "uuid-2"
  | _ => "uuid-n"
  end.

Definition fqdn : Entity := mkEntity (Some "fqdn-1") (Some 1) (Some 1) (FQDN "test.example.com").
Definition ip : Entity := mkEntity (Some "ip-1") (Some 2) (Some 2) (IPAddress "192.168.1.1" 4).
Definition other : Entity := mkEntity (Some "fqdn-2") (Some 3) (Some 3) (FQDN "other.example.com").

Definition dns_record : relation := BasicDNSRelation "dns_record" 1 300.
Definition dns_record_fresh : relation := BasicDNSRelation "dns_record" 1 600.
Definition myscript : property := SourceProperty "myscript" 100.
Definition myscript_fresh : property := SourceProperty "myscript" 200.

(** A store with the two entities of the tests and a third one, no edge, no tag. *)
Definition entities_only : Graph := mkGraph [fqdn; ip; other] [] [] [].

(** The stored edge [fqdn -dns_record-> ip]. *)
Definition stored_edge : Edge :=
  mkEdge (Some "edge-1") (Some 10) (Some 10) dns_record fqdn ip.

Definition stored_relationship : Relationship :=
  mkRelationship (Some "fqdn-1") (Some "ip-1") "DNS_RECORD" (Edge_to_dict stored_edge).

(** The stored tags: [myscript] on [fqdn] and on the stored edge. *)
Definition stored_entity_tag : EntityTag :=
  mkEntityTag (Some "tag-1") (Some 20) (Some 20) fqdn (Some myscript).

Definition stored_edge_tag : EdgeTag :=
  mkEdgeTag (Some "tag-2") (Some 30) (Some 30) stored_edge (Some myscript).

Definition populated : Graph :=
  mkGraph [fqdn; ip; other] [stored_relationship]
    [mkTagNode "SourceProperty" (EntityTag_to_dict stored_entity_tag)]
    [mkTagNode "SourceProperty" (EdgeTag_to_dict stored_edge_tag)].

(** Repositories as the tests open them ([emit_events=True]) and with the
    constructor's defaults. *)
Definition repo : NeoRepository := __init__ populated None (Some true).
Definition fresh_repo : NeoRepository := __init__ entities_only None (Some true).
Definition default_repo : NeoRepository := __init__ populated None None.
Definition lenient_repo : NeoRepository := __init__ entities_only (Some false) (Some true).

(** The node patterns of [asset_db]'s [query_node_by_property_key_value]. *)
Definition key_value_pattern (p : property) : option (TagProps -> bool) :=
  match p with
  | SourceProperty source confidence =>
      Some (fun props =>
              match tp_prop props with
              | Some (SourceProperty s c) => (s =? source)%string && (c =? confidence)%nat
              | _ => false
              end)
  | SimpleProperty name value =>
      Some (fun props =>
              match tp_prop props with
              | Some (SimpleProperty n v) => (n =? name)%string && (v =? value)%string
              | _ => false
              end)
  end.

(** Submissions. *)
Definition same_edge : Edge := mkEdge None None None dns_record fqdn ip.
Definition fresher_edge : Edge := mkEdge None None None dns_record_fresh fqdn ip.
Definition illegal_relation : relation := SimpleRelation "owns".
Definition illegal_edge : Edge := mkEdge None None None illegal_relation fqdn ip.
Definition unstored_edge : Edge :=
  mkEdge (Some "edge-2") (Some 11) (Some 11) (SimpleRelation "owns") other ip.

Definition same_entity_tag : EntityTag := mkEntityTag None None None fqdn (Some myscript).
Definition fresher_entity_tag : EntityTag :=
  mkEntityTag None None None fqdn (Some myscript_fresh).
Definition same_edge_tag : EdgeTag := mkEdgeTag None None None stored_edge (Some myscript).
Definition fresher_edge_tag : EdgeTag :=
  mkEdgeTag None None None stored_edge (Some myscript_fresh).

(** Upserts that name the stored tags by id, with a property of the stored
    variant and with one of another variant. *)
Definition owner_ops : property := SimpleProperty "owner" "ops".
Definition retyped_entity_tag : EntityTag :=
  mkEntityTag (Some "tag-1") None None fqdn (Some owner_ops).
Definition renamed_entity_tag : EntityTag :=
  mkEntityTag (Some "tag-1") None None fqdn (Some myscript_fresh).
Definition retyped_edge_tag : EdgeTag :=
  mkEdgeTag (Some "tag-2") None None stored_edge (Some owner_ops).

(** An entity that is not in the store, and a legal edge that starts at it. *)
Definition ghost : Entity := mkEntity (Some "fqdn-9") (Some 4) (Some 4) (FQDN "ghost.example.com").
Definition dangling_edge : Edge := mkEdge None None None dns_record ghost ip.

(** A day of calls against [repo]: a stale edge, an illegal relation, a
    tag of larger confidence, a delete of the stored edge, a new tag on
    another entity. *)
Definition day : list call :=
  [ call_create_edge same_edge;
    call_create_relation illegal_relation fqdn ip;
    call_create_entity_tag fresher_entity_tag;
    call_delete_edge "edge-1";
    call_create_entity_property other owner_ops ].

End Fixtures.

(** ** Observations used by the statements *)
Section Observations.
Context {AM : AssetModel} {PS : PyStr}.
Variable valid_relationship : string -> string -> string -> string -> bool.
Variable clock : nat -> datetime.
Variable uuid4 : nat -> string.

(** What one [_emit] adds to the log of [self]. *)
Definition emitted (self : NeoRepository) (event : Event) : list Event :=
  if emit_events self then [event] else [].

(** The taxonomy gate of [create_edge] lets the edge through. *)
Definition accepted (self : NeoRepository) (edge : Edge) : bool :=
  negb (enforce_taxonomy self)
  || valid_relationship
       (asset_type (asset (from_entity edge)))
       (label (relation edge))
       (relation_type (relation edge))
       (asset_type (asset (to_entity edge))).

(** Nothing but the event log differs between [self] and [self']: same store,
    same flags, no clock reading and no id drawn. *)
Definition same_store (self self' : NeoRepository) : Prop :=
  db self' = db self
  /\ clock_reads self' = clock_reads self
  /\ uuids_drawn self' = uuids_drawn self
  /\ enforce_taxonomy self' = enforce_taxonomy self
  /\ emit_events self' = emit_events self.

(** The relationship an edge is stored as: between the entity ids of the
    edge's two ends, with exactly the property map of the edge. *)
Definition stored_as (g : Graph) (edge : Edge) (r : Relationship) : Prop :=
  In r (relationships g)
  /\ rel_start r = Some (py_str (entity_id (from_entity edge)))
  /\ rel_end r = Some (py_str (entity_id (to_entity edge)))
  /\ rel_props r = Edge_to_dict edge.

(** The node a tag is stored as: one with exactly the property map of the tag. *)
Definition entity_tag_stored_as (g : Graph) (tag : EntityTag) (node : TagNode) : Prop :=
  In node (entity_tag_nodes g) /\ tn_props node = EntityTag_to_dict tag.

Definition edge_tag_stored_as (g : Graph) (tag : EdgeTag) (node : TagNode) : Prop :=
  In node (edge_tag_nodes g) /\ tn_props node = EdgeTag_to_dict tag.

(** Every relationship of the store is filed under the upper-cased label of
    the relation it carries. *)
Definition filed (g : Graph) : Prop :=
  forall r stored,
    In r (relationships g) ->
    ep_relation (rel_props r) = Some stored ->
    rel_type r = upper (label stored).

(** The effect of a call on flags and log: the flags are those of [self];
    when the call returned, the log is the log of [self] followed by what one
    [_emit] adds; when it raised, the log is the log of [self]. *)
Definition log_effect {A : Type} (self : NeoRepository) (out : result A * NeoRepository) : Prop :=
  emit_events (snd out) = emit_events self
  /\ enforce_taxonomy (snd out) = enforce_taxonomy self
  /\ match fst out with
     | Ok _ => exists ev, _events_buffer (snd out) = (_events_buffer self ++ emitted self ev)%list
     | Raise _ => _events_buffer (snd out) = _events_buffer self
     end.

(** How many calls of a sequence return rather than raise. *)
Fixpoint completed (self : NeoRepository) (calls : list call) : nat :=
  match calls with
  | [] => 0
  | c :: rest =>
      (if returned valid_relationship clock uuid4 self c then 1 else 0)
      + completed (after valid_relationship clock uuid4 self c) rest
  end.

End Observations.

(** ** The record types of the older repository, [asset_db/types]

    [Entity.to_dict], [Edge.to_dict], [EntityTag.to_dict] and
    [EdgeTag.to_dict] build the property map that is written to the store: a
    dict literal with the record's own keys, followed by [**_flatten(...)] of
    the payload's [to_dict()].  A Python dict is a list of key-value pairs
    with distinct keys, in insertion order. *)
Module AssetDbTypes.
#[local] Open Scope list_scope.

#[warnings="-register-all"]
Inductive pyvalue : Type :=
| VStr (s : string)
| VInt (n : nat)
| VDatetime (t : datetime)
| VNone
| VDict (items : list (string * pyvalue)).

Definition pydict : Type := list (string * pyvalue).

(** [isinstance(v, dict)] *)
Definition is_dict (v : pyvalue) : bool :=
  match v with
  | VDict _ => true
  | _ => false
  end.

(** [d.get(k)] *)
Fixpoint dict_get (d : pydict) (k : string) : option pyvalue :=
  match d with
  | [] => None
  | (k', v) :: rest => if (k' =? k)%string then Some v else dict_get rest k
  end.

(** [d[k] = v]: a key that is present keeps its place and takes the new
    value, a new key goes to the end. *)
Fixpoint dict_set (d : pydict) (k : string) (v : pyvalue) : pydict :=
  match d with
  | [] => [(k, v)]
  | (k', v') :: rest =>
      if (k' =? k)%string then (k', v) :: rest else (k', v') :: dict_set rest k v
  end.

(** [d.update(other)], also [{**d, **other}] *)
Definition dict_update (d other : pydict) : pydict :=
  fold_left (fun flat kv => dict_set flat (fst kv) (snd kv)) other d.

(** The body of [_flatten] on the items of a dict value. *)
Fixpoint flatten_value (v : pyvalue) : pydict :=
  match v with
  | VDict items =>
      fold_left
        (fun flat kv =>
           match snd kv with
           | VDict _ => dict_update flat (flatten_value (snd kv))
           | w => dict_set flat (fst kv) w
           end)
        items []
  | _ => []
  end.

Definition _flatten (d : pydict) : pydict := flatten_value (VDict d).

(** The leaves of a nested dict, depth first, in the order [_flatten] visits
    them. *)
Fixpoint leaves (v : pyvalue) : pydict :=
  match v with
  | VDict items =>
      flat_map (fun kv => match snd kv with
                          | VDict _ => leaves (snd kv)
                          | w => [(fst kv, w)]
                          end) items
  | _ => []
  end.

(** Induction on a value with the hypothesis for every item of a dict. *)
Fixpoint pyvalue_nested_ind (P : pyvalue -> Prop)
  (HStr : forall s, P (VStr s)) (HInt : forall n, P (VInt n))
  (HDatetime : forall t, P (VDatetime t)) (HNone : P VNone)
  (HDict : forall items, Forall (fun kv => P (snd kv)) items -> P (VDict items))
  (v : pyvalue) : P v :=
  match v with
  | VStr s => HStr s
  | VInt n => HInt n
  | VDatetime t => HDatetime t
  | VNone => HNone
  | VDict items =>
      HDict items
        ((fix all (l : list (string * pyvalue)) : Forall (fun kv => P (snd kv)) l :=
            match l with
            | [] => Forall_nil _
            | kv :: rest =>
                Forall_cons kv
                  (pyvalue_nested_ind P HStr HInt HDatetime HNone HDict (snd kv))
                  (all rest)
            end) items)
  end.

Section ToDict.
Context {AM : AssetModel} {PS : PyStr}.

(** [asset.to_dict()], [relation.to_dict()] and [property.to_dict()] of the
    payload library. *)
Variable asset_to_dict : Asset -> pydict.
Variable relation_to_dict : Relation -> pydict.
Variable property_to_dict : Property -> pydict.

Definition py_datetime (t : option datetime) : pyvalue :=
  match t with
  | Some t => VDatetime t
  | None => VNone
  end.

(** The record's own keys, the part of the literal before [**_flatten(...)]. *)
Definition Entity_own_keys (self : Entity) : pydict :=
  [ ("entity_id", VStr (py_str (entity_id self)));
    ("created_at", py_datetime (entity_created_at self));
    ("updated_at", py_datetime (entity_updated_at self));
    ("etype", VStr (asset_type (asset self))) ].

Definition Entity_to_dict (self : Entity) : pydict :=
  dict_update (Entity_own_keys self) (_flatten (asset_to_dict (asset self))).

(** [Edge.label] *)
Definition Edge_label (self : Edge) : string := upper (label (relation self)).

Definition Edge_own_keys (self : Edge) : pydict :=
  [ ("created_at", py_datetime (edge_created_at self));
    ("updated_at", py_datetime (edge_updated_at self));
    ("etype", VStr (relation_type (relation self))) ].

Definition Edge_to_dict (self : Edge) : pydict :=
  dict_update (Edge_own_keys self) (_flatten (relation_to_dict (relation self))).

Definition EntityTag_own_keys (self : EntityTag) (property : Property) : pydict :=
  [ ("tag_id", VStr (py_str (etag_id self)));
    ("entity_id", VStr (py_str (entity_id (etag_entity self))));
    ("created_at", py_datetime (etag_created_at self));
    ("updated_at", py_datetime (etag_updated_at self));
    ("ttype", VStr (property_type property)) ].

(** [self.ttype] reads [self.property.property_type]. *)
Definition EntityTag_to_dict (self : EntityTag) : result pydict :=
  match etag_prop self with
  | None => Raise (AttributeError "'NoneType' object has no attribute 'property_type'")
  | Some property =>
      Ok (dict_update (EntityTag_own_keys self property) (_flatten (property_to_dict property)))
  end.

Definition EdgeTag_own_keys (self : EdgeTag) (property : Property) : pydict :=
  [ ("tag_id", VStr (py_str (gtag_id self)));
    ("edge_id", VStr (py_str (edge_id (gtag_edge self))));
    ("created_at", py_datetime (gtag_created_at self));
    ("updated_at", py_datetime (gtag_updated_at self));
    ("ttype", VStr (property_type property)) ].

Definition EdgeTag_to_dict (self : EdgeTag) : result pydict :=
  match gtag_prop self with
  | None => Raise (AttributeError "'NoneType' object has no attribute 'property_type'")
  | Some property =>
      Ok (dict_update (EdgeTag_own_keys self property) (_flatten (property_to_dict property)))
  end.

End ToDict.
End AssetDbTypes.

(** ** The tag lookups by id and by owner and the tag deletes of [asset_db] *)
Module AssetDbTags.
Section Model.
Context {AM : AssetModel}.

Definition find_entity_tag_by_id (g : Graph) (id : string) : result EntityTag :=
  let result :=
    execute_query (match_tag_by_id (entity_tag_nodes g) (Some id)) to_eager_result in
  if is_None result
  then Raise (Exception ("the entity tag with ID " ++ id ++ " was not found"))
  else
    node <- get_required result row_p "the record value for the node is empty" ;;
    AssetDb.node_to_entity_tag node.

(** The dataclass [EntityTag] of [asset_db/types] has a field [property] and
    no [prop], which is what the name filter reads. *)
Fixpoint find_entity_tags_loop (names : list string) (records : list TagRow)
  : result (list EntityTag) :=
  match records with
  | [] => Ok []
  | record :: rest =>
      match row_p record with
      | None => find_entity_tags_loop names rest
      | Some node =>
          tag <- AssetDb.node_to_entity_tag node ;;
          if (0 <? length names)%nat
          then Raise (AttributeError "'EntityTag' object has no attribute 'prop'")
          else
            tags <- find_entity_tags_loop names rest ;;
            Ok (tag :: tags)
      end
  end.

Definition find_entity_tags (g : Graph) (entity : Entity) (since : option datetime)
  (names : list string) : result (list EntityTag) :=
  records <- unpack_records
    (execute_query
       (match_tags_by_owner (entity_tag_nodes g) (py_str (entity_id entity)) since)
       to_eager_result) ;;
  if (length records =? 0)%nat then Raise (Exception "no entity tags found")
  else
    tags <- find_entity_tags_loop names records ;;
    if (length tags =? 0)%nat then Raise (Exception "no entity tag found") else Ok tags.

(** [delete_entity_tag] sends its statement and returns [None]. *)
Definition delete_entity_tag (g : Graph) (id : string) : result unit * Graph :=
  if plain_statement_ok delete_entity_tag_statement
  then (Ok tt, set_entity_tag_nodes g (delete_tag_nodes (entity_tag_nodes g) id))
  else (Raise (CypherSyntaxError "Invalid input '{'"), g).

Definition find_edge_tag_by_id (g : Graph) (id : string) : result EdgeTag :=
  let result :=
    execute_query (match_tag_by_id (edge_tag_nodes g) (Some id)) to_eager_result in
  if is_None result
  then Raise (Exception ("the edge tag with ID " ++ id ++ " was not found"))
  else
    node <- get_required result row_p "the record value for the node is empty" ;;
    AssetDb.node_to_edge_tag node.

Fixpoint find_edge_tags_loop (names : list string) (records : list TagRow)
  : result (list EdgeTag) :=
  match records with
  | [] => Ok []
  | record :: rest =>
      match row_p record with
      | None => find_edge_tags_loop names rest
      | Some node =>
          tag <- AssetDb.node_to_edge_tag node ;;
          if (0 <? length names)%nat
          then Raise (AttributeError "'EdgeTag' object has no attribute 'prop'")
          else
            tags <- find_edge_tags_loop names rest ;;
            Ok (tag :: tags)
      end
  end.

Definition find_edge_tags (g : Graph) (edge : Edge) (since : option datetime)
  (names : list string) : result (list EdgeTag) :=
  records <- unpack_records
    (execute_query
       (match_tags_by_owner (edge_tag_nodes g) (py_str (edge_id edge)) since)
       to_eager_result) ;;
  if (length records =? 0)%nat then Raise (Exception "no edge tags found")
  else
    tags <- find_edge_tags_loop names records ;;
    if (length tags =? 0)%nat then Raise (Exception "no edge tag found") else Ok tags.

Definition delete_edge_tag (g : Graph) (id : string) : result unit * Graph :=
  if plain_statement_ok delete_edge_tag_statement
  then (Ok tt, set_edge_tag_nodes g (delete_tag_nodes (edge_tag_nodes g) id))
  else (Raise (CypherSyntaxError "Invalid input '{'"), g).

End Model.
End AssetDbTags.

(** ** Further observations *)
Section Records.
Context {AM : AssetModel} {PS : PyStr}.
Variable clock : nat -> datetime.
Variable uuid4 : nat -> string.

(** The records the upserts build for a submission they have not found: the
    next id of the id source, the next two clock readings. *)
Definition inserted_edge (self : NeoRepository) (edge : Edge) : Edge :=
  mkEdge (Some (uuid4 (uuids_drawn self)))
    (Some (clock (clock_reads self))) (Some (clock (S (clock_reads self))))
    (relation edge) (from_entity edge) (to_entity edge).

Definition inserted_entity_tag (self : NeoRepository) (tag : EntityTag) (prop : Property)
  : EntityTag :=
  mkEntityTag (Some (uuid4 (uuids_drawn self)))
    (Some (clock (clock_reads self))) (Some (clock (S (clock_reads self))))
    (etag_entity tag) (Some prop).

Definition inserted_edge_tag (self : NeoRepository) (tag : EdgeTag) (prop : Property)
  : EdgeTag :=
  mkEdgeTag (Some (uuid4 (uuids_drawn self)))
    (Some (clock (clock_reads self))) (Some (clock (S (clock_reads self))))
    (gtag_edge tag) (Some prop).

(** The relationship that files a record between the ids of its ends. *)
Definition relationship_of (edge : Edge) : Relationship :=
  mkRelationship
    (Some (py_str (entity_id (from_entity edge))))
    (Some (py_str (entity_id (to_entity edge))))
    (Edge_label edge) (Edge_to_dict edge).

(** A relationship that lacks one of the four properties the decoder asks for. *)
Definition undecodable (r : Relationship) : bool :=
  match ep_edge_id (rel_props r), ep_created_at (rel_props r),
        ep_updated_at (rel_props r), ep_relation (rel_props r) with
  | Some _, Some _, Some _, Some _ => false
  | _, _, _, _ => true
  end.

(** What no statement of the repository changes on a relationship: its two
    ends and its type; on a tag node: its label and its [tag_id]. *)
Definition ends_and_type (r : Relationship) : option string * option string * string :=
  (rel_start r, rel_end r, rel_type r).

Definition label_and_id (n : TagNode) : string * option string :=
  (tn_label n, tp_tag_id (tn_props n)).

(** [g'] holds what [g] holds and possibly more: the same entities, the
    relationships of [g] with their ends and types followed by new ones, the
    tag nodes of [g] with their labels and ids followed by new ones. *)
Definition grown_from (g g' : Graph) : Prop :=
  entities g' = entities g
  /\ (exists added,
         map ends_and_type (relationships g')
         = (map ends_and_type (relationships g) ++ added)%list)
  /\ (exists added,
         map label_and_id (entity_tag_nodes g')
         = (map label_and_id (entity_tag_nodes g) ++ added)%list)
  /\ (exists added,
         map label_and_id (edge_tag_nodes g')
         = (map label_and_id (edge_tag_nodes g) ++ added)%list).

End Records.

(** ** Further stores and submissions over the fixtures *)
Module Scenarios.
Import Fixtures.

(** [to_dict()] of the payload shapes of [Fixtures]. *)
Definition asset_to_dict (a : asset) : AssetDbTypes.pydict :=
  match a with
  | FQDN name => [("name", AssetDbTypes.VStr name)]
  | IPAddress address version =>
      [("address", AssetDbTypes.VStr address); ("type", AssetDbTypes.VInt version)]
  end.

Definition relation_to_dict (r : relation) : AssetDbTypes.pydict :=
  match r with
  | BasicDNSRelation name rrtype ttl =>
      [("label", AssetDbTypes.VStr name);
       ("header", AssetDbTypes.VDict [("rr_type", AssetDbTypes.VInt rrtype);
                                      ("ttl", AssetDbTypes.VInt ttl)])]
  | SimpleRelation name => [("label", AssetDbTypes.VStr name)]
  end.

Definition property_to_dict (p : property) : AssetDbTypes.pydict :=
  match p with
  | SourceProperty source confidence =>
      [("name", AssetDbTypes.VStr source); ("confidence", AssetDbTypes.VInt confidence)]
  | SimpleProperty name value =>
      [("property_name", AssetDbTypes.VStr name); ("property_value", AssetDbTypes.VStr value)]
  end.

(** The stored edge with entities and no tag. *)
Definition edges_only : Graph := mkGraph [fqdn; ip; other] [stored_relationship] [] [].
Definition edge_repo : NeoRepository := __init__ edges_only None (Some true).

(** A relationship of [fqdn] whose target id resolves to no entity, in front
    of the stored edge. *)
Definition dangling_relationship : Relationship :=
  mkRelationship (Some "fqdn-1") (Some "fqdn-9") "DNS_RECORD"
    (Edge_to_dict (mkEdge (Some "edge-0") (Some 5) (Some 5) dns_record fqdn ghost)).

Definition broken_scan : Graph :=
  mkGraph [fqdn; ip; other] [dangling_relationship; stored_relationship] [] [].
Definition broken_scan_repo : NeoRepository := __init__ broken_scan None (Some true).

(** An edge submitted under an id that the store does not hold. *)
Definition unknown_id_edge : Edge := mkEdge (Some "edge-404") None None dns_record fqdn ip.

(** A second DNS record between the same two entities, of another record
    type, next to the stored edge. *)
Definition aaaa_record : relation := BasicDNSRelation "dns_record" 28 300.
Definition parallel_relationship : Relationship :=
  mkRelationship (Some "fqdn-1") (Some "ip-1") "DNS_RECORD"
    (Edge_to_dict (mkEdge (Some "edge-3") (Some 12) (Some 12) aaaa_record fqdn ip)).

Definition parallel : Graph :=
  mkGraph [fqdn; ip; other] [stored_relationship; parallel_relationship] [] [].
Definition parallel_repo : NeoRepository := __init__ parallel None (Some true).

(** A relationship without properties from [other] to [ip], next to the
    stored edge. *)
Definition bare_relationship : Relationship :=
  mkRelationship (Some "fqdn-2") (Some "ip-1") "DNS_RECORD" (mkEdgeProps None None None None).

Definition bare : Graph :=
  mkGraph [fqdn; ip; other] [stored_relationship; bare_relationship] [] [].
Definition bare_repo : NeoRepository := __init__ bare None (Some true).

(** A tag for an entity that is not in the store. *)
Definition ghost_tag : EntityTag := mkEntityTag None None None ghost (Some myscript).

(** A flat property map. *)
Definition flat_dict : AssetDbTypes.pydict :=
  [("name", AssetDbTypes.VStr "test.example.com"); ("ttl", AssetDbTypes.VInt 300)].

(** The stored edge submitted again under its id, with a fresher relation
    of another label, to a repository built with [enforce_taxonomy=False]. *)
Definition mx_record : relation := BasicDNSRelation "mx_record" 15 600.
Definition relabelled_edge : Edge := mkEdge (Some "edge-1") None None mx_record fqdn ip.
Definition unchecked_repo : NeoRepository := __init__ populated (Some false) (Some true).

(** A store whose tags carry the simple property [owner_ops], and the same
    property submitted again for the same owners. *)
Definition owner_entity_tag : EntityTag :=
  mkEntityTag (Some "tag-3") (Some 40) (Some 40) fqdn (Some owner_ops).
Definition owner_edge_tag : EdgeTag :=
  mkEdgeTag (Some "tag-4") (Some 50) (Some 50) stored_edge (Some owner_ops).

Definition owned : Graph :=
  mkGraph [fqdn; ip; other] [stored_relationship]
    [mkTagNode "SimpleProperty" (EntityTag_to_dict owner_entity_tag)]
    [mkTagNode "SimpleProperty" (EdgeTag_to_dict owner_edge_tag)].
Definition owned_repo : NeoRepository := __init__ owned None (Some true).

Definition owner_entity_tag_again : EntityTag :=
  mkEntityTag None None None fqdn (Some owner_ops).
Definition owner_edge_tag_again : EdgeTag :=
  mkEdgeTag None None None stored_edge (Some owner_ops).

(** A no-op upsert of the stored edge, then a delete of every stored record. *)
Definition upsert_then_deletes : list call :=
  [ call_create_edge same_edge;
    call_delete_edge "edge-1";
    call_delete_entity_tag "tag-1";
    call_delete_edge_tag "tag-2" ].

End Scenarios.

(** Case analysis on the next [match] of a hypothesis, dropping the branches
    that contradict it. *)
Ltac break_match_in H :=
  match type of H with
  | context [match ?x with _ => _ end] =>
      lazymatch x with
      | context [match _ with _ => _ end] => fail
      | _ => destruct x eqn:?; try discriminate H
      end
  end.

(** * Properties *)
Section Properties.
Context {AM : AssetModel} {PS : PyStr}.
Variable valid_relationship : string -> string -> string -> string -> bool.
Variable clock : nat -> datetime.
Variable uuid4 : nat -> string.

Lemma emit_buffer (self : NeoRepository) (event : Event) :
  _events_buffer (_emit self event) = (_events_buffer self ++ emitted self event)%list.
Proof.
  unfold _emit, emitted. destruct (emit_events self); simpl.
  - reflexivity.
  - symmetry. apply app_nil_r.
Qed.

Lemma emit_same_store (self : NeoRepository) (event : Event) :
  same_store self (_emit self event).
Proof.
  unfold same_store, _emit. destruct (emit_events self) eqn:E; simpl; auto.
Qed.

Lemma same_store_refl (self : NeoRepository) : same_store self self.
Proof. unfold same_store. auto. Qed.

Lemma accepted_gate (self : NeoRepository) (edge : Edge) :
  accepted valid_relationship self edge = true ->
  enforce_taxonomy self
  && negb (valid_relationship
             (asset_type (asset (from_entity edge)))
             (label (relation edge))
             (relation_type (relation edge))
             (asset_type (asset (to_entity edge)))) = false.
Proof.
  unfold accepted. destruct (enforce_taxonomy self); simpl; intros H.
  - rewrite H. reflexivity.
  - reflexivity.
Qed.

Lemma create_edge_untouched (self : NeoRepository) (edge old_edge : Edge) :
  accepted valid_relationship self edge = true ->
  _find_existing_edge self edge = Ok (Some old_edge) ->
  rel_is_fresher_than (relation edge) (relation old_edge) = false ->
  create_edge valid_relationship clock uuid4 self edge
  = (Ok old_edge, _emit self (EdgeUntouched old_edge)).
Proof.
  intros Hgate Hfound Hstale. unfold create_edge.
  rewrite (accepted_gate _ _ Hgate), Hfound, Hstale. reflexivity.
Qed.

Lemma create_entity_tag_untouched (self : NeoRepository) (tag old_tag : EntityTag)
  (prop old_prop : Property) :
  etag_prop tag = Some prop ->
  _find_existing_entity_tag self tag = Ok (Some old_tag) ->
  etag_prop old_tag = Some old_prop ->
  prop_is_fresher_than prop old_prop = false ->
  create_entity_tag clock uuid4 self tag
  = (Ok old_tag, _emit self (EntityTagUntouched old_tag)).
Proof.
  intros Hprop Hfound Hold Hstale. unfold create_entity_tag.
  rewrite Hprop, Hfound, Hold, Hstale. reflexivity.
Qed.

Lemma create_edge_tag_untouched (self : NeoRepository) (tag old_tag : EdgeTag)
  (prop old_prop : Property) :
  gtag_prop tag = Some prop ->
  _find_existing_edge_tag self tag = Ok (Some old_tag) ->
  gtag_prop old_tag = Some old_prop ->
  prop_is_fresher_than prop old_prop = false ->
  create_edge_tag clock uuid4 self tag
  = (Ok old_tag, _emit self (EdgeTagUntouched old_tag)).
Proof.
  intros Hprop Hfound Hold Hstale. unfold create_edge_tag.
  rewrite Hprop, Hfound, Hold, Hstale. reflexivity.
Qed.

Lemma find_entity_tag_by_id_raises (self : NeoRepository) (id : string) :
  find_entity_tag_by_id self id
  = Raise (AttributeError "'EagerResult' object has no attribute 'get'").
Proof. reflexivity. Qed.

Lemma find_edge_tag_by_id_raises (self : NeoRepository) (id : string) :
  find_edge_tag_by_id self id
  = Raise (AttributeError "'EagerResult' object has no attribute 'get'").
Proof. reflexivity. Qed.

Lemma node_to_entity_tag_fields (self : NeoRepository) (node : TagNode) (tag : EntityTag) :
  _node_to_entity_tag self node = Ok tag ->
  etag_id tag = tp_tag_id (tn_props node)
  /\ etag_prop tag = tp_prop (tn_props node)
  /\ (exists id, etag_id tag = Some id)
  /\ (exists prop, etag_prop tag = Some prop).
Proof.
  unfold _node_to_entity_tag, bind, require. intros H.
  repeat break_match_in H. inversion H; subst; simpl. eauto 8.
Qed.

Lemma node_to_edge_tag_fields (self : NeoRepository) (node : TagNode) (tag : EdgeTag) :
  _node_to_edge_tag self node = Ok tag ->
  gtag_id tag = tp_tag_id (tn_props node)
  /\ gtag_prop tag = tp_prop (tn_props node)
  /\ (exists id, gtag_id tag = Some id)
  /\ (exists prop, gtag_prop tag = Some prop).
Proof.
  unfold _node_to_edge_tag, bind, require. intros H.
  repeat break_match_in H. inversion H; subst; simpl. eauto 8.
Qed.

Lemma entity_tags_of_records_head (self : NeoRepository) (nodes : list TagNode)
  (first : EntityTag) (others : list EntityTag) :
  entity_tags_of_records self (map (fun n => mkTagRow (Some n)) nodes) = Ok (first :: others) ->
  exists node, In node nodes /\ _node_to_entity_tag self node = Ok first.
Proof.
  destruct nodes as [|node rest]; simpl; intros H.
  - discriminate.
  - unfold bind in H. destruct (_node_to_entity_tag self node) eqn:E; try discriminate.
    destruct (entity_tags_of_records self _); try discriminate.
    inversion H; subst. exists node. auto.
Qed.

Lemma edge_tags_of_records_head (self : NeoRepository) (nodes : list TagNode)
  (first : EdgeTag) (others : list EdgeTag) :
  edge_tags_of_records self (map (fun n => mkTagRow (Some n)) nodes) = Ok (first :: others) ->
  exists node, In node nodes /\ _node_to_edge_tag self node = Ok first.
Proof.
  destruct nodes as [|node rest]; simpl; intros H.
  - discriminate.
  - unfold bind in H. destruct (_node_to_edge_tag self node) eqn:E; try discriminate.
    destruct (edge_tags_of_records self _); try discriminate.
    inversion H; subst. exists node. auto.
Qed.

(** A tag that the lookup of [create_entity_tag] resolves was decoded from a
    node of the store that passes the content filter of the submitted
    property; the submitted tag had no id. *)
Lemma find_existing_entity_tag_found (self : NeoRepository) (tag old_tag : EntityTag) :
  _find_existing_entity_tag self tag = Ok (Some old_tag) ->
  explicit_id (etag_id tag) = None
  /\ exists prop node,
       etag_prop tag = Some prop
       /\ In node (entity_tag_nodes (db self))
       /\ tn_label node = property_type prop
       /\ _node_to_entity_tag self node = Ok old_tag.
Proof.
  unfold _find_existing_entity_tag. intros H.
  destruct (explicit_id (etag_id tag)) eqn:Eid.
  - rewrite find_entity_tag_by_id_raises in H. discriminate.
  - split; [reflexivity|].
    destruct (etag_prop tag) as [prop|] eqn:Eprop; try discriminate.
    unfold find_entity_tags_by_content, bind in H. simpl in H.
    unfold match_tags_by_content in H.
    match type of H with
    | context [entity_tags_of_records self (map _ ?l)] => remember l as hits eqn:Ehits
    end.
    destruct (entity_tags_of_records self _) as [tags|] eqn:Etags; try discriminate.
    assert (Hfirst : exists others, tags = old_tag :: others).
    { destruct tags as [|t ts]; simpl in H; try discriminate.
      inversion H; subst. eauto. }
    destruct Hfirst as [others ->].
    destruct (entity_tags_of_records_head _ _ _ _ Etags) as [node [Hin Hnode]].
    exists prop, node. subst hits. apply filter_In in Hin. destruct Hin as [Hin Hf].
    repeat split; auto.
    apply andb_prop in Hf. destruct Hf as [Hf _].
    apply andb_prop in Hf. destruct Hf as [Hf _].
    apply String.eqb_eq in Hf. exact Hf.
Qed.

Lemma find_existing_edge_tag_found (self : NeoRepository) (tag old_tag : EdgeTag) :
  _find_existing_edge_tag self tag = Ok (Some old_tag) ->
  explicit_id (gtag_id tag) = None
  /\ exists prop node,
       gtag_prop tag = Some prop
       /\ In node (edge_tag_nodes (db self))
       /\ tn_label node = property_type prop
       /\ _node_to_edge_tag self node = Ok old_tag.
Proof.
  unfold _find_existing_edge_tag. intros H.
  destruct (explicit_id (gtag_id tag)) eqn:Eid.
  - rewrite find_edge_tag_by_id_raises in H. discriminate.
  - split; [reflexivity|].
    destruct (gtag_prop tag) as [prop|] eqn:Eprop; try discriminate.
    unfold find_edge_tags_by_content, bind in H. simpl in H.
    unfold match_tags_by_content in H.
    match type of H with
    | context [edge_tags_of_records self (map _ ?l)] => remember l as hits eqn:Ehits
    end.
    destruct (edge_tags_of_records self _) as [tags|] eqn:Etags; try discriminate.
    assert (Hfirst : exists others, tags = old_tag :: others).
    { destruct tags as [|t ts]; simpl in H; try discriminate.
      inversion H; subst. eauto. }
    destruct Hfirst as [others ->].
    destruct (edge_tags_of_records_head _ _ _ _ Etags) as [node [Hin Hnode]].
    exists prop, node. subst hits. apply filter_In in Hin. destruct Hin as [Hin Hf].
    repeat split; auto.
    apply andb_prop in Hf. destruct Hf as [Hf _].
    apply andb_prop in Hf. destruct Hf as [Hf _].
    apply String.eqb_eq in Hf. exact Hf.
Qed.

Lemma emitted_after_write (self s : NeoRepository) (event : Event) :
  emit_events s = emit_events self ->
  _events_buffer s = _events_buffer self ->
  _events_buffer (_emit s event) = (_events_buffer self ++ emitted self event)%list.
Proof.
  intros Hflag Hbuf. rewrite emit_buffer. unfold emitted. rewrite Hflag, Hbuf. reflexivity.
Qed.

Lemma create_entity_tag_updated (self : NeoRepository) (tag old_tag : EntityTag)
  (prop old_prop : Property) :
  etag_prop tag = Some prop ->
  _find_existing_entity_tag self tag = Ok (Some old_tag) ->
  etag_prop old_tag = Some old_prop ->
  prop_is_fresher_than prop old_prop = true ->
  let new_tag :=
    mkEntityTag (etag_id old_tag) (etag_created_at old_tag) (Some (clock (clock_reads self)))
      (etag_entity old_tag) (Some (prop_override_with old_prop prop)) in
  let out := create_entity_tag clock uuid4 self tag in
  fst out = Ok new_tag
  /\ _events_buffer (snd out)
     = (_events_buffer self ++ emitted self (EntityTagUpdated old_tag new_tag))%list.
Proof.
  intros Hprop Hfound Hold Hfresh new_tag out. subst out new_tag.
  unfold create_entity_tag. rewrite Hprop, Hfound, Hold, Hfresh. simpl.
  split; [reflexivity|]. apply emitted_after_write; reflexivity.
Qed.

(** [SET n = $props] on the id of a node of the store returns a record. *)
Lemma tag_id_filter_nonempty (nodes : list TagNode) (node : TagNode) (id : string) :
  In node nodes ->
  tp_tag_id (tn_props node) = Some id ->
  exists hit hits,
    filter (fun n => opt_string_eqb (tp_tag_id (tn_props n)) (Some id)) nodes = hit :: hits.
Proof.
  intros Hin Hid.
  destruct (filter _ nodes) as [|hit hits] eqn:Ef.
  - assert (Hnode : In node []).
    { rewrite <- Ef. apply filter_In. split; [exact Hin|].
      rewrite Hid. simpl. apply String.eqb_refl. }
    destruct Hnode.
  - eauto.
Qed.

Lemma create_edge_tag_updated (self : NeoRepository) (tag old_tag : EdgeTag)
  (prop old_prop : Property) :
  gtag_prop tag = Some prop ->
  _find_existing_edge_tag self tag = Ok (Some old_tag) ->
  gtag_prop old_tag = Some old_prop ->
  prop_is_fresher_than prop old_prop = true ->
  let new_tag :=
    mkEdgeTag (gtag_id old_tag) (gtag_created_at old_tag) (Some (clock (clock_reads self)))
      (gtag_edge old_tag) (Some (prop_override_with old_prop prop)) in
  let out := create_edge_tag clock uuid4 self tag in
  fst out = Ok new_tag
  /\ _events_buffer (snd out)
     = (_events_buffer self ++ emitted self (EdgeTagUpdated old_tag new_tag))%list.
Proof.
  intros Hprop Hfound Hold Hfresh new_tag out. subst out new_tag.
  destruct (find_existing_edge_tag_found _ _ _ Hfound)
    as [_ [prop' [node [_ [Hin [_ Hnode]]]]]].
  destruct (node_to_edge_tag_fields _ _ _ Hnode) as [Hid [_ [[id Hsome] _]]].
  rewrite Hsome in Hid. symmetry in Hid.
  destruct (tag_id_filter_nonempty _ _ _ Hin Hid) as [hit [hits Ehits]].
  unfold create_edge_tag. rewrite Hprop, Hfound, Hold, Hfresh. simpl.
  rewrite Hsome, Ehits. simpl.
  split; [reflexivity|]. apply emitted_after_write; reflexivity.
Qed.

Lemma relationship_filter_nonempty (rels : list Relationship) (from_id to_id rtype : string)
  (props : EdgeProps) :
  existsb (relationship_between from_id to_id rtype) rels = true ->
  exists hit hits,
    filter (relationship_between from_id to_id rtype)
      (map (fun r => if relationship_between from_id to_id rtype r
                     then mkRelationship (rel_start r) (rel_end r) (rel_type r) props
                     else r)
         rels)
    = hit :: hits.
Proof.
  induction rels as [|r rest IH]; simpl; intros H.
  - discriminate.
  - destruct (relationship_between from_id to_id rtype r) eqn:E.
    + replace (relationship_between from_id to_id rtype
                 (mkRelationship (rel_start r) (rel_end r) (rel_type r) props))
        with true by (symmetry; exact E).
      eauto.
    + rewrite E. simpl in H. apply IH. exact H.
Qed.

Lemma create_edge_updated (self : NeoRepository) (edge old_edge : Edge) :
  accepted valid_relationship self edge = true ->
  _find_existing_edge self edge = Ok (Some old_edge) ->
  rel_is_fresher_than (relation edge) (relation old_edge) = true ->
  existsb
    (relationship_between
       (py_str (entity_id (from_entity old_edge)))
       (py_str (entity_id (to_entity old_edge)))
       (upper (label (rel_override_with (relation old_edge) (relation edge)))))
    (relationships (db self)) = true ->
  let new_edge :=
    mkEdge (edge_id old_edge) (edge_created_at old_edge) (Some (clock (clock_reads self)))
      (rel_override_with (relation old_edge) (relation edge))
      (from_entity old_edge) (to_entity old_edge) in
  let out := create_edge valid_relationship clock uuid4 self edge in
  fst out = Ok new_edge
  /\ _events_buffer (snd out)
     = (_events_buffer self ++ emitted self (EdgeUpdated old_edge new_edge))%list.
Proof.
  intros Hgate Hfound Hfresh Hfiled new_edge out. subst out new_edge.
  destruct (relationship_filter_nonempty _ _ _ _
              (Edge_to_dict
                 (mkEdge (edge_id old_edge) (edge_created_at old_edge)
                    (Some (clock (clock_reads self)))
                    (rel_override_with (relation old_edge) (relation edge))
                    (from_entity old_edge) (to_entity old_edge)))
              Hfiled) as [hit [hits Ehits]].
  unfold create_edge. rewrite (accepted_gate _ _ Hgate), Hfound, Hfresh.
  unfold datetime_now, set_relationship_props, Edge_label.
  cbn [fst snd db relation from_entity to_entity relationships].
  rewrite Ehits. simpl.
  split; [reflexivity|]. apply emitted_after_write; reflexivity.
Qed.

(** [SET r = $props] on a relationship type that no relationship between the
    two nodes has changes nothing and returns no record. *)
Lemma relationship_filter_empty (rels : list Relationship) (from_id to_id rtype : string)
  (props : EdgeProps) :
  existsb (relationship_between from_id to_id rtype) rels = false ->
  map (fun r => if relationship_between from_id to_id rtype r
                then mkRelationship (rel_start r) (rel_end r) (rel_type r) props
                else r)
    rels = rels
  /\ filter (relationship_between from_id to_id rtype) rels = [].
Proof.
  induction rels as [|r rest IH]; simpl; intros H.
  - split; reflexivity.
  - apply orb_false_iff in H. destruct H as [E Hrest].
    destruct (IH Hrest) as [Hmap Hfilter].
    rewrite E, Hmap, Hfilter. split; reflexivity.
Qed.

Lemma create_edge_update_misses (self : NeoRepository) (edge old_edge : Edge) :
  accepted valid_relationship self edge = true ->
  _find_existing_edge self edge = Ok (Some old_edge) ->
  rel_is_fresher_than (relation edge) (relation old_edge) = true ->
  existsb
    (relationship_between
       (py_str (entity_id (from_entity old_edge)))
       (py_str (entity_id (to_entity old_edge)))
       (upper (label (rel_override_with (relation old_edge) (relation edge)))))
    (relationships (db self)) = false ->
  let out := create_edge valid_relationship clock uuid4 self edge in
  fst out = Raise (Exception "no records returned from the query")
  /\ db (snd out) = db self
  /\ _events_buffer (snd out) = _events_buffer self.
Proof.
  intros Hgate Hfound Hfresh Hfiled out. subst out.
  destruct (relationship_filter_empty _ _ _ _
              (Edge_to_dict
                 (mkEdge (edge_id old_edge) (edge_created_at old_edge)
                    (Some (clock (clock_reads self)))
                    (rel_override_with (relation old_edge) (relation edge))
                    (from_entity old_edge) (to_entity old_edge)))
              Hfiled) as [Hmap Hfilter].
  unfold create_edge. rewrite (accepted_gate _ _ Hgate), Hfound, Hfresh.
  unfold datetime_now, set_relationship_props, Edge_label.
  cbn [fst snd db relation from_entity to_entity relationships].
  rewrite Hmap, Hfilter. simpl.
  split; [reflexivity|]. split; [|reflexivity].
  unfold set_relationships. destruct (db self); reflexivity.
Qed.

(** *** The lookup of an edge upsert stays between the submitted ends *)

Lemma relationship_to_edge_ends (rel : Relationship) (source target : Entity)
  (edge : Edge) :
  _relationship_to_edge rel source target = Ok edge ->
  from_entity edge = source /\ to_entity edge = target.
Proof.
  unfold _relationship_to_edge, bind, require. intros H.
  repeat break_match_in H. inversion H; subst; simpl. auto.
Qed.

Lemma outgoing_edges_loop_from (self : NeoRepository) (entity : Entity)
  (labels : list string) (records : list EdgeRow) (results : list Edge) :
  outgoing_edges_loop self entity labels records = Ok results ->
  Forall (fun edge => from_entity edge = entity) results.
Proof.
  revert results. induction records as [|record rest IH]; simpl; intros results H.
  - inversion H. constructor.
  - destruct (row_r record) as [r|]; [|apply IH; exact H].
    destruct (negb (label_selected labels r)); [apply IH; exact H|].
    destruct (row_tid record) as [tid|]; [|apply IH; exact H].
    unfold bind in H.
    destruct (find_entity_by_id self tid) as [to_entity|]; [|discriminate].
    destruct (_relationship_to_edge r entity to_entity) as [edge|] eqn:Edge;
      [|apply IH; exact H].
    destruct (outgoing_edges_loop self entity labels rest) as [others|]; [|discriminate].
    inversion H; subst. constructor.
    + apply (relationship_to_edge_ends _ _ _ _ Edge).
    + apply IH. reflexivity.
Qed.

Lemma find_existing_edge_between_ends (self : NeoRepository) (edge old_edge : Edge) :
  explicit_id (edge_id edge) = None ->
  _find_existing_edge self edge = Ok (Some old_edge) ->
  from_entity old_edge = from_entity edge
  /\ opt_string_eqb (entity_id (to_entity edge)) (entity_id (to_entity old_edge)) = true
  /\ equals (relation edge) (relation old_edge) = true.
Proof.
  intros Hid H. unfold _find_existing_edge in H. rewrite Hid in H.
  destruct (outgoing_edges self (from_entity edge) None []) as [outs|] eqn:Eouts;
    [|discriminate].
  inversion H as [Hfind]. apply find_some in Hfind. destruct Hfind as [Hin Hcond].
  apply andb_prop in Hcond. destruct Hcond as [Hto Heq].
  split; [|split; assumption].
  unfold outgoing_edges, bind in Eouts. simpl in Eouts.
  destruct (outgoing_edges_loop self (from_entity edge) [] _) as [results|] eqn:Eloop;
    [|discriminate].
  pose proof (outgoing_edges_loop_from _ _ _ _ _ Eloop) as Hall.
  rewrite Forall_forall in Hall. apply Hall.
  destruct results; simpl in Eouts; inversion Eouts; subst; exact Hin.
Qed.

(** *** Where a resolved edge is stored *)

Lemma opt_string_eqb_some (o : option string) (x : string) :
  opt_string_eqb o (Some x) = true -> o = Some x.
Proof.
  destruct o as [y|]; simpl; intros H; [|discriminate].
  apply String.eqb_eq in H. subst. reflexivity.
Qed.

Lemma find_entity_by_id_id (self : NeoRepository) (id : string) (entity : Entity) :
  find_entity_by_id self id = Ok entity -> entity_id entity = Some id.
Proof.
  unfold find_entity_by_id. intros H.
  destruct (find _ (entities (db self))) as [e|] eqn:E; [|discriminate].
  inversion H; subst. apply find_some in E. destruct E as [_ E].
  apply opt_string_eqb_some. exact E.
Qed.

Lemma relationship_to_edge_props (rel : Relationship) (source target : Entity)
  (edge : Edge) :
  _relationship_to_edge rel source target = Ok edge ->
  rel_props rel = Edge_to_dict edge.
Proof.
  unfold _relationship_to_edge, bind, require. intros H.
  destruct (rel_props rel) as [id created_at updated_at stored]. simpl in H.
  destruct id; [|discriminate]. destruct created_at; [|discriminate].
  destruct updated_at; [|discriminate]. destruct stored; [|discriminate].
  inversion H; subst. reflexivity.
Qed.

Lemma outgoing_edges_loop_stored (self : NeoRepository) (entity : Entity) (id : string)
  (labels : list string) (rels : list Relationship) (results : list Edge) :
  entity_id entity = Some id ->
  (forall r, In r rels -> In r (relationships (db self)) /\ rel_start r = Some id) ->
  outgoing_edges_loop self entity labels
    (map (fun r => mkEdgeRow (Some r) None (rel_end r)) rels) = Ok results ->
  Forall (fun edge => exists r, stored_as (db self) edge r) results.
Proof.
  intros Hid. revert results.
  induction rels as [|r rest IH]; simpl; intros results Hrels H.
  - inversion H. constructor.
  - assert (Hrest : forall r', In r' rest ->
                               In r' (relationships (db self)) /\ rel_start r' = Some id).
    { intros r' Hin. apply Hrels. right. exact Hin. }
    destruct (negb (label_selected labels r)); [apply IH; assumption|].
    destruct (rel_end r) as [tid|] eqn:Etid; [|apply IH; assumption].
    unfold bind in H.
    destruct (find_entity_by_id self tid) as [target|] eqn:Etarget; [|discriminate].
    destruct (_relationship_to_edge r entity target) as [edge|] eqn:Edge;
      [|apply IH; assumption].
    destruct (outgoing_edges_loop self entity labels _) as [others|] eqn:Eloop;
      [|discriminate].
    inversion H; subst. constructor.
    + exists r. destruct (Hrels r (or_introl eq_refl)) as [Hin Hstart].
      destruct (relationship_to_edge_ends _ _ _ _ Edge) as [Hfrom Hto].
      unfold stored_as. rewrite Hfrom, Hto, Hid, (find_entity_by_id_id _ _ _ Etarget).
      simpl. repeat split; try assumption.
      apply (relationship_to_edge_props _ _ _ _ Edge).
    + apply IH; [assumption | reflexivity].
Qed.

Lemma find_edge_by_id_stored (self : NeoRepository) (id : string) (edge : Edge) :
  find_edge_by_id self id = Ok edge -> exists r, stored_as (db self) edge r.
Proof.
  unfold find_edge_by_id, match_edge_by_id. intros H.
  destruct (filter _ (relationships (db self))) as [|r rest] eqn:Ef; simpl in H;
    [discriminate|].
  assert (Hin : In r (relationships (db self))).
  { assert (Hf : In r (r :: rest)) by (left; reflexivity).
    rewrite <- Ef in Hf. apply filter_In in Hf. apply Hf. }
  unfold get_required, bind in H. simpl in H.
  destruct (rel_start r) as [fid|] eqn:Efid; simpl in H; [|discriminate].
  destruct (find_entity_by_id self fid) as [source|] eqn:Esource; [|discriminate].
  destruct (rel_end r) as [tid|] eqn:Etid; simpl in H; [|discriminate].
  destruct (find_entity_by_id self tid) as [target|] eqn:Etarget; [|discriminate].
  exists r. destruct (relationship_to_edge_ends _ _ _ _ H) as [Hfrom Hto].
  unfold stored_as. rewrite Hfrom, Hto.
  rewrite (find_entity_by_id_id _ _ _ Esource), (find_entity_by_id_id _ _ _ Etarget).
  simpl. repeat split; try assumption.
  apply (relationship_to_edge_props _ _ _ _ H).
Qed.

Lemma find_existing_edge_stored (self : NeoRepository) (edge old_edge : Edge) :
  _find_existing_edge self edge = Ok (Some old_edge) ->
  exists r, stored_as (db self) old_edge r.
Proof.
  unfold _find_existing_edge. intros H.
  destruct (explicit_id (edge_id edge)) as [id|].
  - unfold bind in H. destruct (find_edge_by_id self id) as [found|] eqn:E; [|discriminate].
    inversion H; subst. apply (find_edge_by_id_stored _ _ _ E).
  - destruct (outgoing_edges self (from_entity edge) None []) as [outs|] eqn:Eouts;
      [|discriminate].
    inversion H as [Hfind]. apply find_some in Hfind. destruct Hfind as [Hin _].
    unfold outgoing_edges, bind, match_outgoing in Eouts. simpl in Eouts.
    destruct (entity_id (from_entity edge)) as [i|] eqn:Ei.
    + match type of Eouts with
      | context [outgoing_edges_loop _ _ _ (map _ ?l)] => remember l as rels eqn:Erels
      end.
      destruct (outgoing_edges_loop self (from_entity edge) [] _) as [results|] eqn:Eloop;
        [|discriminate].
      assert (Hall : Forall (fun e => exists r, stored_as (db self) e r) results).
      { apply (outgoing_edges_loop_stored self (from_entity edge) i [] rels results Ei);
          [|exact Eloop].
        intros r Hr. subst rels. apply filter_In in Hr. destruct Hr as [Hr Hf].
        apply andb_prop in Hf. destruct Hf as [Hstart _].
        split; [exact Hr | apply opt_string_eqb_some; exact Hstart]. }
      rewrite Forall_forall in Hall. apply Hall.
      destruct results; simpl in Eouts; inversion Eouts; subst; exact Hin.
    + simpl in Eouts. inversion Eouts; subst. destruct Hin.
Qed.

Lemma find_edge_by_id_id (self : NeoRepository) (id : string) (edge : Edge) :
  find_edge_by_id self id = Ok edge -> edge_id edge = Some id.
Proof.
  unfold find_edge_by_id, match_edge_by_id. intros H.
  destruct (filter _ (relationships (db self))) as [|r rest] eqn:Ef; simpl in H;
    [discriminate|].
  assert (Hid : ep_edge_id (rel_props r) = Some id).
  { assert (Hf : In r (r :: rest)) by (left; reflexivity).
    rewrite <- Ef in Hf. apply filter_In in Hf. destruct Hf as [_ Hf].
    apply opt_string_eqb_some. exact Hf. }
  unfold get_required, bind in H. simpl in H.
  destruct (rel_start r) as [fid|]; simpl in H; [|discriminate].
  destruct (find_entity_by_id self fid) as [source|]; [|discriminate].
  destruct (rel_end r) as [tid|]; simpl in H; [|discriminate].
  destruct (find_entity_by_id self tid) as [target|]; [|discriminate].
  apply relationship_to_edge_props in H. rewrite H in Hid. exact Hid.
Qed.

Lemma node_to_entity_tag_props (self : NeoRepository) (node : TagNode) (tag : EntityTag) :
  _node_to_entity_tag self node = Ok tag -> tn_props node = EntityTag_to_dict tag.
Proof.
  unfold _node_to_entity_tag, bind, require. intros H.
  destruct (tn_props node) as [id owner created_at updated_at stored]. simpl in H.
  destruct id; [|discriminate]. destruct owner as [owner|]; [|discriminate].
  destruct (find_entity_by_id self owner) as [entity|] eqn:E; [|discriminate].
  destruct created_at; [|discriminate]. destruct updated_at; [|discriminate].
  destruct stored; [|discriminate].
  inversion H; subst. unfold EntityTag_to_dict. simpl.
  rewrite (find_entity_by_id_id _ _ _ E). reflexivity.
Qed.

Lemma node_to_edge_tag_props (self : NeoRepository) (node : TagNode) (tag : EdgeTag) :
  _node_to_edge_tag self node = Ok tag -> tn_props node = EdgeTag_to_dict tag.
Proof.
  unfold _node_to_edge_tag, bind, require. intros H.
  destruct (tn_props node) as [id owner created_at updated_at stored]. simpl in H.
  destruct id; [|discriminate]. destruct owner as [owner|]; [|discriminate].
  destruct (find_edge_by_id self owner) as [edge|] eqn:E; [|discriminate].
  destruct created_at; [|discriminate]. destruct updated_at; [|discriminate].
  destruct stored; [|discriminate].
  inversion H; subst. unfold EdgeTag_to_dict. simpl.
  rewrite (find_edge_by_id_id _ _ _ E). reflexivity.
Qed.

Lemma find_existing_entity_tag_stored (self : NeoRepository) (tag old_tag : EntityTag) :
  _find_existing_entity_tag self tag = Ok (Some old_tag) ->
  exists node, entity_tag_stored_as (db self) old_tag node.
Proof.
  intros H. destruct (find_existing_entity_tag_found _ _ _ H)
    as [_ [prop [node [_ [Hin [_ Hnode]]]]]].
  exists node. split; [exact Hin | apply (node_to_entity_tag_props _ _ _ Hnode)].
Qed.

Lemma find_existing_edge_tag_stored (self : NeoRepository) (tag old_tag : EdgeTag) :
  _find_existing_edge_tag self tag = Ok (Some old_tag) ->
  exists node, edge_tag_stored_as (db self) old_tag node.
Proof.
  intros H. destruct (find_existing_edge_tag_found _ _ _ H)
    as [_ [prop [node [_ [Hin [_ Hnode]]]]]].
  exists node. split; [exact Hin | apply (node_to_edge_tag_props _ _ _ Hnode)].
Qed.

(** When every relationship of the store is filed under the upper-cased label
    of the relation it carries, as [create_edge] files them, and the merge
    keeps the label, the update statement finds the stored relationship. *)
Lemma merged_edge_is_filed (self : NeoRepository) (edge old_edge : Edge) :
  _find_existing_edge self edge = Ok (Some old_edge) ->
  filed (db self) ->
  label (rel_override_with (relation old_edge) (relation edge)) = label (relation old_edge) ->
  existsb
    (relationship_between
       (py_str (entity_id (from_entity old_edge)))
       (py_str (entity_id (to_entity old_edge)))
       (upper (label (rel_override_with (relation old_edge) (relation edge)))))
    (relationships (db self)) = true.
Proof.
  intros Hfound Hfiled Hlabel.
  destruct (find_existing_edge_stored _ _ _ Hfound) as [r [Hin [Hstart [Hend Hprops]]]].
  assert (Hrel : ep_relation (rel_props r) = Some (relation old_edge)).
  { rewrite Hprops. reflexivity. }
  apply existsb_exists. exists r. split; [exact Hin|].
  unfold relationship_between. rewrite Hstart, Hend, Hlabel, (Hfiled r _ Hin Hrel).
  simpl. rewrite !String.eqb_refl. reflexivity.
Qed.

Lemma emit_db (self : NeoRepository) (event : Event) : db (_emit self event) = db self.
Proof. unfold _emit. destruct (emit_events self); reflexivity. Qed.

(** [create_edge] files what it writes. *)
Lemma create_edge_keeps_filed (self : NeoRepository) (edge : Edge) :
  filed (db self) -> filed (db (snd (create_edge valid_relationship clock uuid4 self edge))).
Proof.
  intros Hfiled. unfold create_edge.
  destruct (enforce_taxonomy self && negb _); [exact Hfiled|].
  destruct (_find_existing_edge self edge) as [[old_edge|]|e]; [| |exact Hfiled].
  - destruct (rel_is_fresher_than _ _).
    + unfold datetime_now, set_relationship_props. cbn [fst snd db].
      match goal with
      | |- filed (db (snd (if ?c then (_, ?s) else (_, _emit ?s ?ev)))) =>
          assert (Hs : filed (db s)); [|destruct c; cbn [snd]; [|rewrite emit_db]; exact Hs]
      end.
      cbn [db set_db]. intros r stored Hin Hrel. cbn [relationships set_relationships] in Hin.
      apply in_map_iff in Hin. destruct Hin as [r0 [Hr Hin0]].
      destruct (relationship_between _ _ _ r0) eqn:Hit.
      * subst r. cbn [rel_type rel_props ep_relation Edge_to_dict relation] in *.
        inversion Hrel; subst.
        unfold relationship_between in Hit. apply andb_prop in Hit. destruct Hit as [_ Hit].
        apply String.eqb_eq in Hit. exact Hit.
      * subst r. apply (Hfiled r0 stored Hin0 Hrel).
    + cbn [snd]. rewrite emit_db. exact Hfiled.
  - unfold str_uuid4, datetime_now, create_relationship. cbn [fst snd db].
    match goal with
    | |- filed (db (snd (if ?c then (_, ?s) else (_, _emit ?s ?ev)))) =>
        assert (Hs : filed (db s)); [|destruct c; cbn [snd]; [|rewrite emit_db]; exact Hs]
    end.
    cbn [db set_db]. intros r stored Hin Hrel. cbn [relationships set_relationships] in Hin.
    apply in_app_or in Hin. destruct Hin as [Hin|Hin].
    + apply (Hfiled r stored Hin Hrel).
    + apply repeat_spec in Hin. subst r.
      cbn [rel_type rel_props ep_relation Edge_to_dict relation] in *.
      inversion Hrel; subst. reflexivity.
Qed.

Lemma create_entity_tag_relationships (self : NeoRepository) (tag : EntityTag) :
  relationships (db (snd (create_entity_tag clock uuid4 self tag))) = relationships (db self).
Proof.
  unfold create_entity_tag.
  destruct (etag_prop tag) as [prop|]; [|reflexivity].
  destruct (_find_existing_entity_tag self tag) as [[old_tag|]|e]; [| |reflexivity].
  - destruct (etag_prop old_tag) as [old_prop|]; [|reflexivity].
    destruct (prop_is_fresher_than prop old_prop).
    + unfold datetime_now, set_tag_props. cbn [fst snd db]. rewrite emit_db. reflexivity.
    + cbn [snd]. rewrite emit_db. reflexivity.
  - unfold str_uuid4, datetime_now, create_tag_node. cbn [fst snd db].
    cbn [execute_query is_None snd]. rewrite emit_db. reflexivity.
Qed.

Lemma create_edge_tag_relationships (self : NeoRepository) (tag : EdgeTag) :
  relationships (db (snd (create_edge_tag clock uuid4 self tag))) = relationships (db self).
Proof.
  unfold create_edge_tag.
  destruct (gtag_prop tag) as [prop|]; [|reflexivity].
  destruct (_find_existing_edge_tag self tag) as [[old_tag|]|e]; [| |reflexivity].
  - destruct (gtag_prop old_tag) as [old_prop|]; [|reflexivity].
    destruct (prop_is_fresher_than prop old_prop).
    + unfold datetime_now, set_tag_props. cbn [fst snd db].
      destruct (is_None _); cbn [snd]; [|rewrite emit_db]; reflexivity.
    + cbn [snd]. rewrite emit_db. reflexivity.
  - unfold str_uuid4, datetime_now, create_tag_node. cbn [fst snd db].
    cbn [execute_query is_None snd]. rewrite emit_db. reflexivity.
Qed.

(** The filing is an invariant of the facade. *)
Lemma run_keeps_filed (calls : list call) (self : NeoRepository) :
  filed (db self) -> filed (db (run valid_relationship clock uuid4 self calls)).
Proof.
  revert self. induction calls as [|c rest IH]; intros self Hfiled; [exact Hfiled|].
  unfold run in *. simpl. apply IH.
  assert (Hsame : forall s, relationships (db s) = relationships (db self) -> filed (db s)).
  { intros s Hs r stored Hin. rewrite Hs in Hin. apply Hfiled. exact Hin. }
  destruct c; unfold after.
  - apply create_edge_keeps_filed. exact Hfiled.
  - unfold create_relation. apply create_edge_keeps_filed. exact Hfiled.
  - unfold delete_edge. destruct (find_edge_by_id self id); exact Hfiled.
  - apply Hsame. apply create_entity_tag_relationships.
  - apply Hsame. unfold create_entity_property. apply create_entity_tag_relationships.
  - exact Hfiled.
  - apply Hsame. apply create_edge_tag_relationships.
  - apply Hsame. unfold create_edge_property. apply create_edge_tag_relationships.
  - exact Hfiled.
Qed.

(** *** What an update leaves in the store *)

Lemma set_tag_props_stores (nodes : list TagNode) (node : TagNode) (id : string)
  (props : TagProps) :
  In node nodes ->
  tp_tag_id (tn_props node) = Some id ->
  In (mkTagNode (tn_label node) props) (snd (set_tag_props nodes (Some id) props)).
Proof.
  intros Hin Hid. unfold set_tag_props. cbn [snd].
  apply in_map_iff. exists node. split; [|exact Hin].
  rewrite Hid. simpl. rewrite String.eqb_refl. reflexivity.
Qed.

Lemma create_entity_tag_update_stored (self : NeoRepository) (tag old_tag : EntityTag)
  (prop old_prop : Property) :
  etag_prop tag = Some prop ->
  _find_existing_entity_tag self tag = Ok (Some old_tag) ->
  etag_prop old_tag = Some old_prop ->
  prop_is_fresher_than prop old_prop = true ->
  exists node,
    entity_tag_stored_as (db (snd (create_entity_tag clock uuid4 self tag)))
      (mkEntityTag (etag_id old_tag) (etag_created_at old_tag)
         (Some (clock (clock_reads self)))
         (etag_entity old_tag) (Some (prop_override_with old_prop prop)))
      node.
Proof.
  intros Hprop Hfound Hold Hfresh.
  destruct (find_existing_entity_tag_found _ _ _ Hfound)
    as [_ [prop' [node [_ [Hin [_ Hnode]]]]]].
  destruct (node_to_entity_tag_fields _ _ _ Hnode) as [Hid [_ [[id Hsome] _]]].
  rewrite Hsome in Hid. symmetry in Hid.
  unfold create_entity_tag. rewrite Hprop, Hfound, Hold, Hfresh.
  unfold datetime_now. cbn [fst snd db etag_id]. rewrite Hsome.
  match goal with
  | |- context [set_tag_props ?ns (Some id) ?props] =>
      pose proof (set_tag_props_stores ns node id props Hin Hid) as Hstored;
      destruct (set_tag_props ns (Some id) props) as [rows nodes']
  end.
  cbn [snd] in *. rewrite emit_db. cbn [db set_db].
  eexists. split; [exact Hstored | reflexivity].
Qed.

Lemma create_edge_tag_update_stored (self : NeoRepository) (tag old_tag : EdgeTag)
  (prop old_prop : Property) :
  gtag_prop tag = Some prop ->
  _find_existing_edge_tag self tag = Ok (Some old_tag) ->
  gtag_prop old_tag = Some old_prop ->
  prop_is_fresher_than prop old_prop = true ->
  exists node,
    edge_tag_stored_as (db (snd (create_edge_tag clock uuid4 self tag)))
      (mkEdgeTag (gtag_id old_tag) (gtag_created_at old_tag)
         (Some (clock (clock_reads self)))
         (gtag_edge old_tag) (Some (prop_override_with old_prop prop)))
      node.
Proof.
  intros Hprop Hfound Hold Hfresh.
  destruct (find_existing_edge_tag_found _ _ _ Hfound)
    as [_ [prop' [node [_ [Hin [_ Hnode]]]]]].
  destruct (node_to_edge_tag_fields _ _ _ Hnode) as [Hid [_ [[id Hsome] _]]].
  rewrite Hsome in Hid. symmetry in Hid.
  unfold create_edge_tag. rewrite Hprop, Hfound, Hold, Hfresh.
  unfold datetime_now. cbn [fst snd db gtag_id]. rewrite Hsome.
  match goal with
  | |- context [set_tag_props ?ns (Some id) ?props] =>
      pose proof (set_tag_props_stores ns node id props Hin Hid) as Hstored;
      destruct (set_tag_props ns (Some id) props) as [rows nodes']
  end.
  cbn [snd] in Hstored.
  destruct (is_None _); cbn [snd]; [|rewrite emit_db]; cbn [db set_db];
    (eexists; split; [exact Hstored | reflexivity]).
Qed.

Lemma create_edge_update_stored (self : NeoRepository) (edge old_edge : Edge) :
  accepted valid_relationship self edge = true ->
  _find_existing_edge self edge = Ok (Some old_edge) ->
  rel_is_fresher_than (relation edge) (relation old_edge) = true ->
  existsb
    (relationship_between
       (py_str (entity_id (from_entity old_edge)))
       (py_str (entity_id (to_entity old_edge)))
       (upper (label (rel_override_with (relation old_edge) (relation edge)))))
    (relationships (db self)) = true ->
  exists r,
    stored_as (db (snd (create_edge valid_relationship clock uuid4 self edge)))
      (mkEdge (edge_id old_edge) (edge_created_at old_edge)
         (Some (clock (clock_reads self)))
         (rel_override_with (relation old_edge) (relation edge))
         (from_entity old_edge) (to_entity old_edge))
      r.
Proof.
  intros Hgate Hfound Hfresh Hfiled.
  apply existsb_exists in Hfiled. destruct Hfiled as [r0 [Hin0 Hit]].
  pose proof Hit as Hends. unfold relationship_between in Hends.
  apply andb_prop in Hends. destruct Hends as [Hends _].
  apply andb_prop in Hends. destruct Hends as [Hstart Hend].
  apply opt_string_eqb_some in Hstart. apply opt_string_eqb_some in Hend.
  unfold create_edge. rewrite (accepted_gate _ _ Hgate), Hfound, Hfresh.
  unfold datetime_now, set_relationship_props, Edge_label.
  cbn [fst snd db relation from_entity to_entity].
  match goal with
  | |- context [is_None ?record] => destruct (is_None record)
  end; cbn [snd]; [|rewrite emit_db]; cbn [db set_db];
    (eexists; split;
     [cbn [relationships set_relationships]; apply in_map_iff; exists r0;
      split; [rewrite Hit; reflexivity | exact Hin0]
     |cbn [rel_start rel_end rel_props from_entity to_entity];
      repeat split; assumption]).
Qed.

(** *** What a call does to the flags and to the event log *)

Lemma logged_return (self s : NeoRepository) (event : Event) :
  emit_events s = emit_events self ->
  enforce_taxonomy s = enforce_taxonomy self ->
  _events_buffer s = _events_buffer self ->
  emit_events (_emit s event) = emit_events self
  /\ enforce_taxonomy (_emit s event) = enforce_taxonomy self
  /\ exists ev, _events_buffer (_emit s event) = (_events_buffer self ++ emitted self ev)%list.
Proof.
  intros Hemit Henf Hbuf. split; [|split].
  - unfold _emit. destruct (emit_events s) eqn:E; simpl; congruence.
  - unfold _emit. destruct (emit_events s) eqn:E; simpl; congruence.
  - exists event. apply emitted_after_write; assumption.
Qed.

Lemma create_edge_log (self : NeoRepository) (edge : Edge) :
  log_effect self (create_edge valid_relationship clock uuid4 self edge).
Proof.
  unfold log_effect, create_edge.
  destruct (enforce_taxonomy self && negb _) eqn:G.
  - simpl. auto.
  - destruct (_find_existing_edge self edge) as [[old_edge|]|e] eqn:F.
    + destruct (rel_is_fresher_than _ _) eqn:Fr.
      * unfold datetime_now, set_relationship_props.
        cbn [fst snd db].
        destruct (is_None _) eqn:N; cbn [fst snd].
        -- simpl. auto.
        -- apply logged_return; auto.
      * cbn [fst snd]. apply logged_return; auto.
    + unfold str_uuid4, datetime_now, create_relationship.
      cbn [fst snd db].
      destruct (is_None _) eqn:N; cbn [fst snd].
      * simpl. auto.
      * apply logged_return; auto.
    + simpl. auto.
Qed.

Lemma raised_log {A : Type} (self : NeoRepository) (e : exn) :
  log_effect (A := A) self (Raise e, self).
Proof. unfold log_effect. simpl. auto. Qed.

Lemma create_relation_log (self : NeoRepository) (relation : Relation)
  (from_entity to_entity : Entity) :
  log_effect self
    (create_relation valid_relationship clock uuid4 self relation from_entity to_entity).
Proof. unfold create_relation. apply create_edge_log. Qed.

Lemma create_entity_tag_log (self : NeoRepository) (tag : EntityTag) :
  log_effect self (create_entity_tag clock uuid4 self tag).
Proof.
  unfold create_entity_tag.
  destruct (etag_prop tag) as [prop|]; [|apply raised_log].
  destruct (_find_existing_entity_tag self tag) as [[old_tag|]|e]; [| |apply raised_log].
  - destruct (etag_prop old_tag) as [old_prop|]; [|apply raised_log].
    destruct (prop_is_fresher_than prop old_prop).
    + unfold log_effect, datetime_now, set_tag_props. cbn [fst snd db].
      apply logged_return; auto.
    + unfold log_effect. cbn [fst snd]. apply logged_return; auto.
  - unfold log_effect, str_uuid4, datetime_now, create_tag_node. cbn [fst snd db].
    cbn [execute_query is_None fst snd]. apply logged_return; auto.
Qed.

Lemma create_entity_property_log (self : NeoRepository) (entity : Entity) (prop : Property) :
  log_effect self (create_entity_property clock uuid4 self entity prop).
Proof. unfold create_entity_property. apply create_entity_tag_log. Qed.

Lemma create_edge_tag_log (self : NeoRepository) (tag : EdgeTag) :
  log_effect self (create_edge_tag clock uuid4 self tag).
Proof.
  unfold create_edge_tag.
  destruct (gtag_prop tag) as [prop|]; [|apply raised_log].
  destruct (_find_existing_edge_tag self tag) as [[old_tag|]|e]; [| |apply raised_log].
  - destruct (gtag_prop old_tag) as [old_prop|]; [|apply raised_log].
    destruct (prop_is_fresher_than prop old_prop).
    + unfold log_effect, datetime_now, set_tag_props. cbn [fst snd db].
      destruct (is_None _); cbn [fst snd].
      * simpl. auto.
      * apply logged_return; auto.
    + unfold log_effect. cbn [fst snd]. apply logged_return; auto.
  - unfold log_effect, str_uuid4, datetime_now, create_tag_node. cbn [fst snd db].
    cbn [execute_query is_None fst snd]. apply logged_return; auto.
Qed.

Lemma create_edge_property_log (self : NeoRepository) (edge : Edge) (prop : Property) :
  log_effect self (create_edge_property clock uuid4 self edge prop).
Proof. unfold create_edge_property. apply create_edge_tag_log. Qed.

(** *** The delete operations *)

Lemma delete_edge_statement_rejected : plain_statement_ok delete_edge_statement = false.
Proof. reflexivity. Qed.

Lemma delete_tag_statements_accepted :
  plain_statement_ok delete_entity_tag_statement = true
  /\ plain_statement_ok delete_edge_tag_statement = true.
Proof. split; reflexivity. Qed.

Lemma delete_edge_raises (self : NeoRepository) (id : string) :
  exists e, delete_edge self id = (Raise e, self).
Proof.
  unfold delete_edge. rewrite delete_edge_statement_rejected.
  destruct (find_edge_by_id self id); eauto.
Qed.

Lemma delete_entity_tag_raises (self : NeoRepository) (id : string) :
  delete_entity_tag self id
  = (Raise (AttributeError "'EagerResult' object has no attribute 'get'"), self).
Proof. reflexivity. Qed.

Lemma delete_edge_tag_raises (self : NeoRepository) (id : string) :
  delete_edge_tag self id
  = (Raise (AttributeError "'EagerResult' object has no attribute 'get'"), self).
Proof. reflexivity. Qed.

Lemma delete_edge_log (self : NeoRepository) (id : string) :
  log_effect self (delete_edge self id).
Proof. destruct (delete_edge_raises self id) as [e ->]. apply raised_log. Qed.

(** *** Sequences of calls *)

Lemma call_log (self : NeoRepository) (c : call) :
  emit_events (after valid_relationship clock uuid4 self c) = emit_events self
  /\ enforce_taxonomy (after valid_relationship clock uuid4 self c) = enforce_taxonomy self
  /\ if returned valid_relationship clock uuid4 self c
     then exists ev,
         _events_buffer (after valid_relationship clock uuid4 self c)
         = (_events_buffer self ++ emitted self ev)%list
     else _events_buffer (after valid_relationship clock uuid4 self c) = _events_buffer self.
Proof.
  assert (Hshape : forall (A : Type) (out : result A * NeoRepository),
             log_effect self out ->
             emit_events (snd out) = emit_events self
             /\ enforce_taxonomy (snd out) = enforce_taxonomy self
             /\ if match fst out with Ok _ => true | Raise _ => false end
                then exists ev,
                    _events_buffer (snd out) = (_events_buffer self ++ emitted self ev)%list
                else _events_buffer (snd out) = _events_buffer self).
  { intros A out [H1 [H2 H3]]. repeat split; auto. destruct (fst out); exact H3. }
  destruct c; unfold after, returned; apply Hshape.
  - apply create_edge_log.
  - apply create_relation_log.
  - apply delete_edge_log.
  - apply create_entity_tag_log.
  - apply create_entity_property_log.
  - rewrite delete_entity_tag_raises. apply raised_log.
  - apply create_edge_tag_log.
  - apply create_edge_property_log.
  - rewrite delete_edge_tag_raises. apply raised_log.
Qed.

Lemma run_log (calls : list call) (self : NeoRepository) :
  emit_events self = true ->
  exists events,
    _events_buffer (run valid_relationship clock uuid4 self calls)
    = (_events_buffer self ++ events)%list
    /\ length events = completed valid_relationship clock uuid4 self calls.
Proof.
  revert self. induction calls as [|c rest IH]; intros self Hemit.
  - exists []. simpl. split; [symmetry; apply app_nil_r | reflexivity].
  - destruct (call_log self c) as [Hflag [_ Hlog]].
    destruct (IH (after valid_relationship clock uuid4 self c)) as [later [Hbuf Hlen]].
    { rewrite Hflag. exact Hemit. }
    unfold run in *. simpl. rewrite Hbuf.
    destruct (returned valid_relationship clock uuid4 self c).
    + destruct Hlog as [ev Hev]. rewrite Hev. unfold emitted. rewrite Hemit.
      exists (ev :: later). split.
      * rewrite <- app_assoc. reflexivity.
      * simpl. rewrite Hlen. reflexivity.
    + rewrite Hlog. exists later. split; [reflexivity | exact Hlen].
Qed.

Lemma run_silent (calls : list call) (self : NeoRepository) :
  emit_events self = false ->
  emit_events (run valid_relationship clock uuid4 self calls) = false
  /\ _events_buffer (run valid_relationship clock uuid4 self calls) = _events_buffer self.
Proof.
  revert self. induction calls as [|c rest IH]; intros self Hemit.
  - simpl. auto.
  - destruct (call_log self c) as [Hflag [_ Hlog]].
    destruct (IH (after valid_relationship clock uuid4 self c)) as [Hflag' Hbuf].
    { rewrite Hflag. exact Hemit. }
    unfold run in *. simpl. split; [exact Hflag'|]. rewrite Hbuf.
    destruct (returned valid_relationship clock uuid4 self c).
    + destruct Hlog as [ev Hev]. rewrite Hev. unfold emitted. rewrite Hemit.
      apply app_nil_r.
    + exact Hlog.
Qed.

(** *** Lookups that locate nothing *)

Lemma find_entity_tags_by_content_none (self : NeoRepository) (prop : Property)
  (since : option datetime) :
  match_tags_by_content (entity_tag_nodes (db self)) prop since = [] ->
  find_entity_tags_by_content self prop since = Ok [].
Proof. intros H. unfold find_entity_tags_by_content. simpl. rewrite H. reflexivity. Qed.

Lemma find_edge_tags_by_content_none (self : NeoRepository) (prop : Property)
  (since : option datetime) :
  match_tags_by_content (edge_tag_nodes (db self)) prop since = [] ->
  find_edge_tags_by_content self prop since = Ok [].
Proof. intros H. unfold find_edge_tags_by_content. simpl. rewrite H. reflexivity. Qed.

Lemma outgoing_edges_loop_none (self : NeoRepository) (entity : Entity)
  (labels : list string) (records : list EdgeRow) :
  (forall record r, In record records -> row_r record = Some r ->
                    label_selected labels r = false) ->
  outgoing_edges_loop self entity labels records = Ok [].
Proof.
  induction records as [|record rest IH]; simpl; intros H.
  - reflexivity.
  - destruct (row_r record) as [r|] eqn:Er.
    + rewrite (H record r (or_introl eq_refl) Er). simpl.
      apply IH. intros record' r' Hin. apply H. right. exact Hin.
    + apply IH. intros record' r' Hin. apply H. right. exact Hin.
Qed.

Lemma incoming_edges_loop_none (self : NeoRepository) (entity : Entity)
  (labels : list string) (records : list EdgeRow) :
  (forall record r, In record records -> row_r record = Some r ->
                    label_selected labels r = false) ->
  incoming_edges_loop self entity labels records = Ok [].
Proof.
  induction records as [|record rest IH]; simpl; intros H.
  - reflexivity.
  - destruct (row_r record) as [r|] eqn:Er.
    + rewrite (H record r (or_introl eq_refl) Er). simpl.
      apply IH. intros record' r' Hin. apply H. right. exact Hin.
    + apply IH. intros record' r' Hin. apply H. right. exact Hin.
Qed.

Lemma outgoing_edges_none (self : NeoRepository) (entity : Entity)
  (since : option datetime) (labels : list string) :
  (forall record r, In record (match_outgoing (db self) (entity_id entity) since) ->
                    row_r record = Some r -> label_selected labels r = false) ->
  outgoing_edges self entity since labels = Ok [].
Proof.
  intros H. unfold outgoing_edges. simpl.
  rewrite (outgoing_edges_loop_none _ _ _ _ H). reflexivity.
Qed.

Lemma incoming_edges_none (self : NeoRepository) (entity : Entity)
  (since : option datetime) (labels : list string) :
  (forall record r, In record (match_incoming (db self) (entity_id entity) since) ->
                    row_r record = Some r -> label_selected labels r = false) ->
  incoming_edges self entity since labels = Ok [].
Proof.
  intros H. unfold incoming_edges. simpl.
  rewrite (incoming_edges_loop_none _ _ _ _ H). reflexivity.
Qed.

Lemma find_entity_tags_none (self : NeoRepository) (entity : Entity)
  (since : option datetime) (names : list string) :
  match_tags_by_owner (entity_tag_nodes (db self)) (py_str (entity_id entity)) since = [] ->
  find_entity_tags self entity since names = Raise (Exception "no entity tags found").
Proof. intros H. unfold find_entity_tags. simpl. rewrite H. reflexivity. Qed.

Lemma find_edge_tags_none (self : NeoRepository) (edge : Edge)
  (since : option datetime) (names : list string) :
  match_tags_by_owner (edge_tag_nodes (db self)) (py_str (edge_id edge)) since = [] ->
  find_edge_tags self edge since names = Ok [].
Proof. intros H. unfold find_edge_tags. simpl. rewrite H. reflexivity. Qed.

Lemma find_edge_by_id_none (self : NeoRepository) (id : string) :
  match_edge_by_id (db self) id = [] ->
  find_edge_by_id self id = Raise (Exception "no edge was found").
Proof. intros H. unfold find_edge_by_id. rewrite H. reflexivity. Qed.

Lemma asset_db_find_entity_tags_by_content_none
  (key_value_pattern : Property -> option (TagProps -> bool))
  (g : Graph) (prop : Property) (qnode : TagProps -> bool) (since : option datetime) :
  key_value_pattern prop = Some qnode ->
  AssetDb.match_pattern (entity_tag_nodes g) qnode since = [] ->
  AssetDb.find_entity_tags_by_content key_value_pattern g prop since
  = Raise (Exception "no entity tags found").
Proof.
  intros Hq H. unfold AssetDb.find_entity_tags_by_content,
    AssetDb.query_node_by_property_key_value.
  rewrite Hq. simpl. rewrite H. reflexivity.
Qed.

Lemma asset_db_find_edge_tags_by_content_none
  (key_value_pattern : Property -> option (TagProps -> bool))
  (g : Graph) (prop : Property) (qnode : TagProps -> bool) (since : option datetime) :
  key_value_pattern prop = Some qnode ->
  AssetDb.match_pattern (edge_tag_nodes g) qnode since = [] ->
  AssetDb.find_edge_tags_by_content key_value_pattern g prop since
  = Raise (Exception "no edge tags found").
Proof.
  intros Hq H. unfold AssetDb.find_edge_tags_by_content,
    AssetDb.query_node_by_property_key_value.
  rewrite Hq. simpl. rewrite H. reflexivity.
Qed.

(** *** The taxonomy gate *)

Lemma create_edge_rejected (self : NeoRepository) (edge : Edge) :
  enforce_taxonomy self = true ->
  valid_relationship
    (asset_type (asset (from_entity edge))) (label (relation edge))
    (relation_type (relation edge)) (asset_type (asset (to_entity edge))) = false ->
  create_edge valid_relationship clock uuid4 self edge
  = (Raise (Exception (taxonomy_message edge)), self).
Proof. intros He Hv. unfold create_edge. rewrite He, Hv. reflexivity. Qed.

Lemma create_edge_unchecked (valid' : string -> string -> string -> string -> bool)
  (self : NeoRepository) (edge : Edge) :
  enforce_taxonomy self = false ->
  create_edge valid_relationship clock uuid4 self edge = create_edge valid' clock uuid4 self edge.
Proof. intros He. unfold create_edge. rewrite He. reflexivity. Qed.

Lemma entity_nodes_found (id : string) (nodes : list Entity) :
  existsb (is_entity_node id) nodes = true ->
  exists n, length (filter (is_entity_node id) nodes) = S n.
Proof.
  induction nodes as [|e rest IH]; simpl; intros H.
  - discriminate.
  - destruct (is_entity_node id e); simpl; eauto.
Qed.

Lemma create_edge_inserts (self : NeoRepository) (edge : Edge) :
  accepted valid_relationship self edge = true ->
  _find_existing_edge self edge = Ok None ->
  existsb (is_entity_node (py_str (entity_id (from_entity edge)))) (entities (db self)) = true ->
  existsb (is_entity_node (py_str (entity_id (to_entity edge)))) (entities (db self)) = true ->
  let new_edge :=
    mkEdge (Some (uuid4 (uuids_drawn self)))
      (Some (clock (clock_reads self))) (Some (clock (S (clock_reads self))))
      (relation edge) (from_entity edge) (to_entity edge) in
  let out := create_edge valid_relationship clock uuid4 self edge in
  fst out = Ok new_edge
  /\ In (mkRelationship
           (Some (py_str (entity_id (from_entity edge))))
           (Some (py_str (entity_id (to_entity edge))))
           (upper (label (relation edge))) (Edge_to_dict new_edge))
       (relationships (db (snd out)))
  /\ _events_buffer (snd out) = (_events_buffer self ++ emitted self (EdgeInserted new_edge))%list.
Proof.
  intros Hgate Hnone Hfrom Hto new_edge out. subst out new_edge.
  destruct (entity_nodes_found _ _ Hfrom) as [n Hn].
  destruct (entity_nodes_found _ _ Hto) as [m Hm].
  unfold create_edge. rewrite (accepted_gate _ _ Hgate), Hnone.
  unfold str_uuid4, datetime_now, create_relationship, Edge_label.
  cbn [fst snd db relation from_entity to_entity entities relationships].
  rewrite Hn, Hm. change (S n * S m) with (S (m + n * S m)).
  cbn [repeat map execute_query is_None fst snd].
  split; [reflexivity|]. split.
  - unfold _emit. destruct (emit_events _); cbn [db set_db set_events_buffer relationships set_relationships];
      apply in_or_app; right; left; reflexivity.
  - apply emitted_after_write; reflexivity.
Qed.

(** *** The lookup of a tag upsert does not read the owner *)

Lemma find_existing_entity_tag_ignores_owner (self : NeoRepository) (tag : EntityTag)
  (entity : Entity) :
  _find_existing_entity_tag self
    (mkEntityTag (etag_id tag) (etag_created_at tag) (etag_updated_at tag) entity
       (etag_prop tag))
  = _find_existing_entity_tag self tag.
Proof. reflexivity. Qed.

Lemma find_existing_edge_tag_ignores_owner (self : NeoRepository) (tag : EdgeTag)
  (edge : Edge) :
  _find_existing_edge_tag self
    (mkEdgeTag (gtag_id tag) (gtag_created_at tag) (gtag_updated_at tag) edge (gtag_prop tag))
  = _find_existing_edge_tag self tag.
Proof. reflexivity. Qed.

(** *** An upsert that names a tag by id stops in the lookup *)

Lemma create_entity_tag_with_id (self : NeoRepository) (tag : EntityTag) (id : string)
  (prop : Property) :
  explicit_id (etag_id tag) = Some id ->
  etag_prop tag = Some prop ->
  create_entity_tag clock uuid4 self tag
  = (Raise (AttributeError "'EagerResult' object has no attribute 'get'"), self).
Proof.
  intros Hid Hprop. unfold create_entity_tag, _find_existing_entity_tag.
  rewrite Hprop, Hid. reflexivity.
Qed.

Lemma create_edge_tag_with_id (self : NeoRepository) (tag : EdgeTag) (id : string)
  (prop : Property) :
  explicit_id (gtag_id tag) = Some id ->
  gtag_prop tag = Some prop ->
  create_edge_tag clock uuid4 self tag
  = (Raise (AttributeError "'EagerResult' object has no attribute 'get'"), self).
Proof.
  intros Hid Hprop. unfold create_edge_tag, _find_existing_edge_tag.
  rewrite Hprop, Hid. reflexivity.
Qed.

(** ** The claims *)



(** C4, as amended.  With [enforce_taxonomy] on (the default), a combination
    that the validator rejects makes [create_edge] and [create_relation] raise
    the taxonomy exception and leaves the repository, store included, as it
    was. *)
Theorem taxonomy_gate_when_enforced :
  (forall (self : NeoRepository) (edge : Edge),
      enforce_taxonomy self = true ->
      valid_relationship
        (asset_type (asset (from_entity edge))) (label (relation edge))
        (relation_type (relation edge)) (asset_type (asset (to_entity edge))) = false ->
      create_edge valid_relationship clock uuid4 self edge
      = (Raise (Exception (taxonomy_message edge)), self))
  /\ (forall (self : NeoRepository) (relation : Relation) (from_entity to_entity : Entity),
         enforce_taxonomy self = true ->
         valid_relationship
           (asset_type (asset from_entity)) (label relation)
           (relation_type relation) (asset_type (asset to_entity)) = false ->
         create_relation valid_relationship clock uuid4 self relation from_entity to_entity
         = (Raise (Exception
                     (taxonomy_message (mkEdge None None None relation from_entity to_entity))),
            self)).
Proof.
  split.
  - intros. apply create_edge_rejected; assumption.
  - intros. unfold create_relation. apply create_edge_rejected; assumption.
Qed.

(** C5, as amended.  In [asset_store], [find_entity_tags_by_content],
    [find_edge_tags_by_content], [find_edge_tags], [outgoing_edges] and
    [incoming_edges] return the empty list when the statement locates no
    record (for the traversals: no record that passes the label filter), and
    [find_edge_by_id] raises [no edge was found] when no relationship has the
    id.  [find_entity_tags] of [asset_store] and the content lookups for tags
    of [asset_db] raise [no ... tags found] when the statement locates no
    record. *)
Theorem empty_results_of_finds :
  (forall (self : NeoRepository) (prop : Property) (since : option datetime),
      match_tags_by_content (entity_tag_nodes (db self)) prop since = [] ->
      find_entity_tags_by_content self prop since = Ok [])
  /\ (forall (self : NeoRepository) (prop : Property) (since : option datetime),
         match_tags_by_content (edge_tag_nodes (db self)) prop since = [] ->
         find_edge_tags_by_content self prop since = Ok [])
  /\ (forall (self : NeoRepository) (entity : Entity) (since : option datetime)
             (labels : list string),
         (forall record r,
             In record (match_outgoing (db self) (entity_id entity) since) ->
             row_r record = Some r -> label_selected labels r = false) ->
         outgoing_edges self entity since labels = Ok [])
  /\ (forall (self : NeoRepository) (entity : Entity) (since : option datetime)
             (labels : list string),
         (forall record r,
             In record (match_incoming (db self) (entity_id entity) since) ->
             row_r record = Some r -> label_selected labels r = false) ->
         incoming_edges self entity since labels = Ok [])
  /\ (forall (self : NeoRepository) (id : string),
         match_edge_by_id (db self) id = [] ->
         find_edge_by_id self id = Raise (Exception "no edge was found"))
  /\ (forall (self : NeoRepository) (edge : Edge) (since : option datetime)
             (names : list string),
         match_tags_by_owner (edge_tag_nodes (db self)) (py_str (edge_id edge)) since = [] ->
         find_edge_tags self edge since names = Ok [])
  /\ (forall (self : NeoRepository) (entity : Entity) (since : option datetime)
             (names : list string),
         match_tags_by_owner (entity_tag_nodes (db self)) (py_str (entity_id entity)) since
         = [] ->
         find_entity_tags self entity since names = Raise (Exception "no entity tags found"))
  /\ (forall (key_value_pattern : Property -> option (TagProps -> bool)) (g : Graph)
             (prop : Property) (qnode : TagProps -> bool) (since : option datetime),
         key_value_pattern prop = Some qnode ->
         AssetDb.match_pattern (entity_tag_nodes g) qnode since = [] ->
         AssetDb.find_entity_tags_by_content key_value_pattern g prop since
         = Raise (Exception "no entity tags found"))
  /\ (forall (key_value_pattern : Property -> option (TagProps -> bool)) (g : Graph)
             (prop : Property) (qnode : TagProps -> bool) (since : option datetime),
         key_value_pattern prop = Some qnode ->
         AssetDb.match_pattern (edge_tag_nodes g) qnode since = [] ->
         AssetDb.find_edge_tags_by_content key_value_pattern g prop since
         = Raise (Exception "no edge tags found")).
Proof.
  repeat split.
  - intros. apply find_entity_tags_by_content_none; assumption.
  - intros. apply find_edge_tags_by_content_none; assumption.
  - intros. apply outgoing_edges_none; assumption.
  - intros. apply incoming_edges_none; assumption.
  - intros. apply find_edge_by_id_none; assumption.
  - intros. apply find_edge_tags_none; assumption.
  - intros. apply find_entity_tags_none; assumption.
  - intros. eapply asset_db_find_entity_tags_by_content_none; eassumption.
  - intros. eapply asset_db_find_edge_tags_by_content_none; eassumption.
Qed.

(** X23.  With event emission on, a facade call that returns
    (an insert, an update or a no-op) appends exactly one event at the end of
    the log and a call that raises appends none, so after a sequence of calls
    the log is the old log followed by one event per returning call, in call
    order; [flush_events] returns the log as it stands and empties it, and a
    second [flush_events] right after returns the empty list. *)
Theorem returning_calls_log_one_event_each :
  (forall (self : NeoRepository) (c : call),
      emit_events self = true ->
      if returned valid_relationship clock uuid4 self c
      then exists ev,
          _events_buffer (after valid_relationship clock uuid4 self c)
          = (_events_buffer self ++ [ev])%list
      else _events_buffer (after valid_relationship clock uuid4 self c) = _events_buffer self)
  /\ (forall (self : NeoRepository) (calls : list call),
         emit_events self = true ->
         exists events,
           _events_buffer (run valid_relationship clock uuid4 self calls)
           = (_events_buffer self ++ events)%list
           /\ length events = completed valid_relationship clock uuid4 self calls)
  /\ (forall (self : NeoRepository),
         fst (flush_events self) = _events_buffer self
         /\ _events_buffer (snd (flush_events self)) = []
         /\ fst (flush_events (snd (flush_events self))) = []).
Proof.
  split; [|split].
  - intros self c Hemit. destruct (call_log self c) as [_ [_ Hlog]].
    unfold emitted in Hlog. rewrite Hemit in Hlog. exact Hlog.
  - intros self calls Hemit. apply run_log. exact Hemit.
  - intros self. repeat split.
Qed.

(** C9.  [NeoRepository] takes [enforce_taxonomy], on when left out.  With it
    off, [create_edge] does not consult the validator: its outcome is the same
    under any validator, and an edge with no stored duplicate whose two ends
    are stored entities is returned and written whatever the validator says
    about it. *)
Theorem taxonomy_enforcement_is_optional :
  (forall (g : Graph) (emit : option bool),
      enforce_taxonomy (__init__ g None emit) = true)
  /\ (forall (valid' : string -> string -> string -> string -> bool)
             (self : NeoRepository) (edge : Edge),
         enforce_taxonomy self = false ->
         create_edge valid_relationship clock uuid4 self edge
         = create_edge valid' clock uuid4 self edge)
  /\ (forall (self : NeoRepository) (edge : Edge),
         enforce_taxonomy self = false ->
         _find_existing_edge self edge = Ok None ->
         existsb (is_entity_node (py_str (entity_id (from_entity edge))))
           (entities (db self)) = true ->
         existsb (is_entity_node (py_str (entity_id (to_entity edge))))
           (entities (db self)) = true ->
         let new_edge :=
           mkEdge (Some (uuid4 (uuids_drawn self)))
             (Some (clock (clock_reads self))) (Some (clock (S (clock_reads self))))
             (relation edge) (from_entity edge) (to_entity edge) in
         let out := create_edge valid_relationship clock uuid4 self edge in
         fst out = Ok new_edge
         /\ In (mkRelationship
                  (Some (py_str (entity_id (from_entity edge))))
                  (Some (py_str (entity_id (to_entity edge))))
                  (upper (label (relation edge))) (Edge_to_dict new_edge))
              (relationships (db (snd out)))).
Proof.
  split; [|split].
  - reflexivity.
  - intros. apply create_edge_unchecked. assumption.
  - intros self edge Hoff Hnone Hfrom Hto new_edge out.
    assert (Hgate : accepted valid_relationship self edge = true).
    { unfold accepted. rewrite Hoff. reflexivity. }
    destruct (create_edge_inserts self edge Hgate Hnone Hfrom Hto) as [Hret [Hin _]].
    split; assumption.
Qed.

(** C10.  [emit_events] is off when left out of the constructor.  While it is
    off, no sequence of create and delete calls puts anything in the event
    log: an empty log stays empty, [flush_events] returns the empty list, and
    the repository it leaves is again one with emission off and an empty
    log. *)
Theorem no_events_by_default :
  (forall (g : Graph) (enforce : option bool),
      emit_events (__init__ g enforce None) = false
      /\ _events_buffer (__init__ g enforce None) = [])
  /\ (forall (self : NeoRepository) (calls : list call),
         emit_events self = false ->
         _events_buffer self = [] ->
         let self' := run valid_relationship clock uuid4 self calls in
         _events_buffer self' = []
         /\ fst (flush_events self') = []
         /\ emit_events (snd (flush_events self')) = false
         /\ _events_buffer (snd (flush_events self')) = []).
Proof.
  split.
  - intros. split; reflexivity.
  - intros self calls Hoff Hempty self'. subst self'.
    destruct (run_silent calls self Hoff) as [Hflag Hbuf].
    rewrite Hempty in Hbuf.
    repeat split.
    + exact Hbuf.
    + unfold flush_events. simpl. exact Hbuf.
    + unfold flush_events. simpl. exact Hflag.
Qed.

End Properties.

(** * The older repository: property maps, tag deletes, tag lookups *)
Section OlderRepository.
Context {AM : AssetModel}.
Import AssetDbTypes.
#[local] Open Scope list_scope.

Lemma dict_get_set (d : pydict) (k k' : string) (v : pyvalue) :
  dict_get (dict_set d k v) k' = if (k =? k')%string then Some v else dict_get d k'.
Proof.
  induction d as [|[k0 v0] rest IH]; simpl.
  - reflexivity.
  - destruct (String.eqb_spec k0 k) as [->|Hne]; simpl.
    + destruct (String.eqb_spec k k'); reflexivity.
    + rewrite IH. destruct (String.eqb_spec k0 k') as [->|]; [|reflexivity].
      destruct (String.eqb_spec k k'); [congruence|reflexivity].
Qed.

Lemma dict_set_keys (d : pydict) (k k' : string) (v : pyvalue) :
  In k' (map fst (dict_set d k v)) <-> k' = k \/ In k' (map fst d).
Proof.
  induction d as [|[k0 v0] rest IH]; simpl.
  - intuition.
  - destruct (String.eqb_spec k0 k) as [->|Hne]; simpl.
    + intuition.
    + rewrite IH. intuition.
Qed.

Lemma dict_set_nodup (d : pydict) (k : string) (v : pyvalue) :
  NoDup (map fst d) -> NoDup (map fst (dict_set d k v)).
Proof.
  induction d as [|[k0 v0] rest IH]; simpl; intros Hd.
  - constructor; [intros []|constructor].
  - inversion Hd as [|? ? Hnot Hrest]; subst.
    destruct (String.eqb_spec k0 k) as [->|Hne]; simpl.
    + constructor; assumption.
    + constructor; [|auto].
      rewrite dict_set_keys. intros [->|Hin]; [congruence|contradiction].
Qed.

Lemma dict_update_nodup (other d : pydict) :
  NoDup (map fst d) -> NoDup (map fst (dict_update d other)).
Proof.
  unfold dict_update. revert d.
  induction other as [|kv rest IH]; simpl; intros d Hd; [assumption|].
  apply IH, dict_set_nodup, Hd.
Qed.

Lemma dict_get_app (a b : pydict) (k : string) :
  dict_get (a ++ b) k = match dict_get a k with
                        | Some v => Some v
                        | None => dict_get b k
                        end.
Proof.
  induction a as [|[k0 v0] rest IH]; simpl; [reflexivity|].
  destruct (k0 =? k)%string; [reflexivity|apply IH].
Qed.

Lemma dict_get_update (other d : pydict) (k : string) :
  dict_get (dict_update d other) k
  = match dict_get (rev other) k with
    | Some v => Some v
    | None => dict_get d k
    end.
Proof.
  unfold dict_update. revert d.
  induction other as [|[k0 v0] rest IH]; simpl; intros d; [reflexivity|].
  rewrite IH, dict_get_app, dict_get_set. simpl.
  destruct (dict_get (rev rest) k); [reflexivity|].
  destruct (k0 =? k)%string; reflexivity.
Qed.

Lemma dict_get_in (d : pydict) (k : string) (v : pyvalue) :
  NoDup (map fst d) -> (dict_get d k = Some v <-> In (k, v) d).
Proof.
  induction d as [|[k0 v0] rest IH]; simpl; intros Hd.
  - split; [discriminate|intros []].
  - inversion Hd as [|? ? Hnot Hrest]; subst.
    destruct (String.eqb_spec k0 k) as [->|Hne].
    + split.
      * intros [= ->]. left. reflexivity.
      * intros [[= ->]|Hin]; [reflexivity|].
        exfalso. apply Hnot. apply (in_map fst) in Hin. exact Hin.
    + rewrite (IH Hrest). split; [auto|].
      intros [[= ? ?]|Hin]; [congruence|assumption].
Qed.

Lemma dict_get_rev (d : pydict) (k : string) :
  NoDup (map fst d) -> dict_get (rev d) k = dict_get d k.
Proof.
  intros Hd.
  assert (Hr : NoDup (map fst (rev d))) by (rewrite map_rev; apply NoDup_rev, Hd).
  destruct (dict_get d k) as [v|] eqn:Hget.
  - apply (dict_get_in _ _ _ Hr). rewrite <- in_rev. apply (dict_get_in _ _ _ Hd), Hget.
  - destruct (dict_get (rev d) k) as [v|] eqn:Hrev; [|reflexivity].
    apply (dict_get_in _ _ _ Hr) in Hrev. rewrite <- in_rev in Hrev.
    apply (dict_get_in _ _ _ Hd) in Hrev. congruence.
Qed.

Lemma flatten_step_nodup (items : list (string * pyvalue)) (flat : pydict) :
  NoDup (map fst flat) ->
  NoDup (map fst
           (fold_left
              (fun flat kv =>
                 match snd kv with
                 | VDict _ => dict_update flat (flatten_value (snd kv))
                 | w => dict_set flat (fst kv) w
                 end)
              items flat)).
Proof.
  revert flat.
  induction items as [|[k v] rest IH]; intros flat Hflat; [exact Hflat|].
  cbn [fold_left fst snd]. apply IH.
  destruct v; try (apply dict_set_nodup, Hflat).
  apply dict_update_nodup, Hflat.
Qed.

Lemma flatten_value_nodup (v : pyvalue) : NoDup (map fst (flatten_value v)).
Proof.
  destruct v; try constructor.
  apply flatten_step_nodup. constructor.
Qed.

Lemma dict_set_flat (d : pydict) (k : string) (v : pyvalue) :
  is_dict v = false ->
  Forall (fun kv => is_dict (snd kv) = false) d ->
  Forall (fun kv => is_dict (snd kv) = false) (dict_set d k v).
Proof.
  intros Hv. induction d as [|[k0 v0] rest IH]; simpl; intros Hd.
  - constructor; [exact Hv|constructor].
  - inversion Hd; subst. destruct (k0 =? k)%string; constructor; auto.
Qed.

Lemma dict_update_flat (other d : pydict) :
  Forall (fun kv => is_dict (snd kv) = false) other ->
  Forall (fun kv => is_dict (snd kv) = false) d ->
  Forall (fun kv => is_dict (snd kv) = false) (dict_update d other).
Proof.
  unfold dict_update. revert d.
  induction other as [|[k v] rest IH]; simpl; intros d Ho Hd; [assumption|].
  inversion Ho; subst. apply IH; [assumption|]. apply dict_set_flat; assumption.
Qed.

Lemma flatten_value_flat (v : pyvalue) :
  Forall (fun kv => is_dict (snd kv) = false) (flatten_value v).
Proof.
  induction v as [s|n|t| |items IH] using pyvalue_nested_ind; try constructor.
  cbn [flatten_value].
  assert (Hgen : forall flat,
             Forall (fun kv => is_dict (snd kv) = false) flat ->
             Forall (fun kv => is_dict (snd kv) = false)
               (fold_left
                  (fun flat kv =>
                     match snd kv with
                     | VDict _ => dict_update flat (flatten_value (snd kv))
                     | w => dict_set flat (fst kv) w
                     end)
                  items flat)).
  { induction IH as [|[k v] rest Hv _ IHrest]; intros flat Hflat; [exact Hflat|].
    cbn [fold_left fst snd]. apply IHrest. cbn [snd] in Hv.
    destruct v; try (apply dict_set_flat; [reflexivity|exact Hflat]).
    apply dict_update_flat; assumption. }
  apply Hgen. constructor.
Qed.

Lemma flatten_value_lookup (v : pyvalue) (k : string) :
  dict_get (flatten_value v) k = dict_get (rev (leaves v)) k.
Proof.
  induction v as [s|n|t| |items IH] using pyvalue_nested_ind; try reflexivity.
  cbn [flatten_value leaves].
  assert (Hgen : forall flat,
             dict_get
               (fold_left
                  (fun flat kv =>
                     match snd kv with
                     | VDict _ => dict_update flat (flatten_value (snd kv))
                     | w => dict_set flat (fst kv) w
                     end)
                  items flat) k
             = match dict_get
                       (rev (flat_map (fun kv => match snd kv with
                                                 | VDict _ => leaves (snd kv)
                                                 | w => [(fst kv, w)]
                                                 end) items)) k with
               | Some found => Some found
               | None => dict_get flat k
               end).
  { induction IH as [|[k0 v0] rest Hv _ IHrest]; intros flat; [reflexivity|].
    cbn [fold_left flat_map fst snd]. rewrite IHrest, rev_app_distr, dict_get_app.
    destruct (dict_get (rev (flat_map _ rest)) k); [reflexivity|].
    cbn [snd] in Hv.
    destruct v0; try (rewrite dict_get_set; simpl; destruct (k0 =? k)%string; reflexivity).
    rewrite dict_get_update, dict_get_rev by apply flatten_value_nodup.
    rewrite Hv. reflexivity. }
  rewrite Hgen. destruct (dict_get _ k); reflexivity.
Qed.

Lemma dict_set_new (d : pydict) (k : string) (v : pyvalue) :
  ~ In k (map fst d) -> dict_set d k v = d ++ [(k, v)].
Proof.
  induction d as [|[k0 v0] rest IH]; simpl; intros Hnot; [reflexivity|].
  destruct (String.eqb_spec k0 k) as [->|Hne]; [exfalso; auto|].
  rewrite IH; [reflexivity|]. intros Hin. apply Hnot. right. exact Hin.
Qed.

Lemma flatten_flat_items (items flat : pydict) :
  Forall (fun kv => is_dict (snd kv) = false) items ->
  NoDup (map fst (flat ++ items)) ->
  fold_left
    (fun flat kv =>
       match snd kv with
       | VDict _ => dict_update flat (flatten_value (snd kv))
       | w => dict_set flat (fst kv) w
       end)
    items flat
  = flat ++ items.
Proof.
  revert flat.
  induction items as [|[k v] rest IH]; intros flat Hflat Hnodup.
  - rewrite app_nil_r. reflexivity.
  - inversion Hflat as [|? ? Hv Hrest]; subst. cbn [fold_left fst snd].
    cbn [snd] in Hv.
    assert (Hnew : ~ In k (map fst flat)).
    { rewrite map_app in Hnodup. apply NoDup_remove_2 in Hnodup.
      intros Hin. apply Hnodup, in_or_app. left. exact Hin. }
    assert (Hset : dict_set flat k v = flat ++ [(k, v)]) by (apply dict_set_new, Hnew).
    destruct v; try discriminate Hv; rewrite Hset;
      (rewrite IH;
       [rewrite <- app_assoc; reflexivity
       |exact Hrest
       |rewrite <- app_assoc; exact Hnodup]).
Qed.

(** X1.  [_flatten] returns a dict (distinct keys) none of whose values is a
    dict, and looking a key up in it gives the last leaf of that name that the
    nested input holds, at whatever depth: on a name collision the later leaf
    wins. *)
Theorem flatten_keeps_the_last_leaf_of_each_name (d : pydict) :
  NoDup (map fst (_flatten d))
  /\ Forall (fun kv => is_dict (snd kv) = false) (_flatten d)
  /\ forall k, dict_get (_flatten d) k = dict_get (rev (leaves (VDict d))) k.
Proof.
  split; [apply flatten_value_nodup|].
  split; [apply flatten_value_flat|].
  intros k. apply flatten_value_lookup.
Qed.

(** X2.  On a dict that is flat already (distinct keys, no dict among the
    values) [_flatten] is the identity, order of the keys included. *)
Theorem flatten_of_a_flat_dict_is_that_dict (d : pydict) :
  NoDup (map fst d) ->
  Forall (fun kv => is_dict (snd kv) = false) d ->
  _flatten d = d.
Proof.
  intros Hkeys Hflat. unfold _flatten. cbn [flatten_value].
  apply (flatten_flat_items d [] Hflat Hkeys).
Qed.

Lemma to_dict_lookup (own payload : pydict) (k : string) :
  dict_get (dict_update own (_flatten payload)) k
  = match dict_get (rev (leaves (VDict payload))) k with
    | Some v => Some v
    | None => dict_get own k
    end.
Proof.
  rewrite dict_get_update, dict_get_rev by apply flatten_value_nodup.
  unfold _flatten. rewrite flatten_value_lookup. reflexivity.
Qed.

(** X3.  In the property map of [to_dict] a payload field wins over the
    record's own key of the same name: the value under a key is the last
    payload leaf of that name when there is one, and the record's own value
    only otherwise.  So a payload field called [entity_id], [tag_id],
    [created_at], [updated_at], [etype] or [ttype], at any depth, replaces
    the record's. *)
Theorem to_dict_lets_payload_fields_replace_record_keys
  (asset_to_dict : Asset -> pydict) (relation_to_dict : Relation -> pydict)
  (property_to_dict : Property -> pydict) :
  (forall (entity : Entity) (k : string),
      dict_get (AssetDbTypes.Entity_to_dict asset_to_dict entity) k
      = match dict_get (rev (leaves (VDict (asset_to_dict (asset entity))))) k with
        | Some v => Some v
        | None => dict_get (Entity_own_keys entity) k
        end)
  /\ (forall (edge : Edge) (k : string),
         dict_get (AssetDbTypes.Edge_to_dict relation_to_dict edge) k
         = match dict_get (rev (leaves (VDict (relation_to_dict (relation edge))))) k with
           | Some v => Some v
           | None => dict_get (Edge_own_keys edge) k
           end)
  /\ (forall (tag : EntityTag) (property : Property),
         etag_prop tag = Some property ->
         exists d,
           AssetDbTypes.EntityTag_to_dict property_to_dict tag = Ok d
           /\ forall k,
               dict_get d k
               = match dict_get (rev (leaves (VDict (property_to_dict property)))) k with
                 | Some v => Some v
                 | None => dict_get (EntityTag_own_keys tag property) k
                 end)
  /\ (forall (tag : EdgeTag) (property : Property),
         gtag_prop tag = Some property ->
         exists d,
           AssetDbTypes.EdgeTag_to_dict property_to_dict tag = Ok d
           /\ forall k,
               dict_get d k
               = match dict_get (rev (leaves (VDict (property_to_dict property)))) k with
                 | Some v => Some v
                 | None => dict_get (EdgeTag_own_keys tag property) k
                 end).
Proof.
  split; [intros entity k; apply to_dict_lookup|].
  split; [intros edge k; apply to_dict_lookup|].
  split.
  - intros tag property Hprop. unfold AssetDbTypes.EntityTag_to_dict. rewrite Hprop.
    eexists. split; [reflexivity|]. intros k. apply to_dict_lookup.
  - intros tag property Hprop. unfold AssetDbTypes.EdgeTag_to_dict. rewrite Hprop.
    eexists. split; [reflexivity|]. intros k. apply to_dict_lookup.
Qed.

Lemma delete_tag_nodes_in (nodes : list TagNode) (id : string) (n : TagNode) :
  In n (delete_tag_nodes nodes id) <-> In n nodes /\ tp_tag_id (tn_props n) <> Some id.
Proof.
  unfold delete_tag_nodes. rewrite filter_In. split; intros [Hin Hid]; split; try exact Hin.
  - intros Heq. rewrite Heq in Hid. simpl in Hid. rewrite String.eqb_refl in Hid. discriminate.
  - destruct (opt_string_eqb _ _) eqn:Heq; [|reflexivity].
    apply opt_string_eqb_some in Heq. contradiction.
Qed.

Lemma delete_tag_nodes_gone (nodes : list TagNode) (id : string) :
  match_tag_by_id (delete_tag_nodes nodes id) (Some id) = [].
Proof.
  unfold match_tag_by_id, delete_tag_nodes.
  induction nodes as [|n rest IH]; simpl; [reflexivity|].
  destruct (opt_string_eqb (tp_tag_id (tn_props n)) (Some id)) eqn:Heq; simpl.
  - exact IH.
  - rewrite Heq. exact IH.
Qed.

Lemma delete_tag_nodes_absent (nodes : list TagNode) (id : string) :
  match_tag_by_id nodes (Some id) = [] -> delete_tag_nodes nodes id = nodes.
Proof.
  unfold match_tag_by_id, delete_tag_nodes.
  induction nodes as [|n rest IH]; simpl; [reflexivity|].
  destruct (opt_string_eqb (tp_tag_id (tn_props n)) (Some id)); simpl; [discriminate|].
  intros H. rewrite IH by exact H. reflexivity.
Qed.

Lemma delete_tag_nodes_twice (nodes : list TagNode) (id : string) :
  delete_tag_nodes (delete_tag_nodes nodes id) id = delete_tag_nodes nodes id.
Proof. apply delete_tag_nodes_absent, delete_tag_nodes_gone. Qed.

(** X4.  The tag deletes of [asset_db] return [None] for every id, stored or
    not; afterwards no node of that kind carries the id, every other node of
    the kind is kept, and entities, relationships and the tags of the other
    kind are as before.  Deleting an id that is not stored changes nothing,
    and so does deleting twice. *)
Theorem asset_db_tag_delete_removes_the_nodes_of_that_id (g : Graph) (id : string) :
  (let out := AssetDbTags.delete_entity_tag g id in
   fst out = Ok tt
   /\ match_tag_by_id (entity_tag_nodes (snd out)) (Some id) = []
   /\ (forall n, In n (entity_tag_nodes (snd out))
                 <-> In n (entity_tag_nodes g) /\ tp_tag_id (tn_props n) <> Some id)
   /\ entities (snd out) = entities g
   /\ relationships (snd out) = relationships g
   /\ edge_tag_nodes (snd out) = edge_tag_nodes g
   /\ (match_tag_by_id (entity_tag_nodes g) (Some id) = [] -> snd out = g)
   /\ AssetDbTags.delete_entity_tag (snd out) id = (Ok tt, snd out))
  /\ (let out := AssetDbTags.delete_edge_tag g id in
      fst out = Ok tt
      /\ match_tag_by_id (edge_tag_nodes (snd out)) (Some id) = []
      /\ (forall n, In n (edge_tag_nodes (snd out))
                    <-> In n (edge_tag_nodes g) /\ tp_tag_id (tn_props n) <> Some id)
      /\ entities (snd out) = entities g
      /\ relationships (snd out) = relationships g
      /\ entity_tag_nodes (snd out) = entity_tag_nodes g
      /\ (match_tag_by_id (edge_tag_nodes g) (Some id) = [] -> snd out = g)
      /\ AssetDbTags.delete_edge_tag (snd out) id = (Ok tt, snd out)).
Proof.
  unfold AssetDbTags.delete_entity_tag, AssetDbTags.delete_edge_tag.
  destruct delete_tag_statements_accepted as [-> ->].
  cbn [fst snd entity_tag_nodes edge_tag_nodes entities relationships
       set_entity_tag_nodes set_edge_tag_nodes].
  split.
  - split; [reflexivity|]. split; [apply delete_tag_nodes_gone|].
    split; [intros n; apply delete_tag_nodes_in|].
    repeat (split; [reflexivity|]). split.
    + intros Hnone. rewrite (delete_tag_nodes_absent _ _ Hnone). destruct g; reflexivity.
    + rewrite delete_tag_nodes_twice. reflexivity.
  - split; [reflexivity|]. split; [apply delete_tag_nodes_gone|].
    split; [intros n; apply delete_tag_nodes_in|].
    repeat (split; [reflexivity|]). split.
    + intros Hnone. rewrite (delete_tag_nodes_absent _ _ Hnone). destruct g; reflexivity.
    + rewrite delete_tag_nodes_twice. reflexivity.
Qed.

(** X5.  No tag lookup of [asset_db] ever returns: the lookups by content and
    by owner raise for every store and every argument (the not-found error
    when nothing is located, the [TypeError] of the decoder on the first
    located node otherwise), and the lookups by id raise the [AttributeError]
    of [.get] on the driver's result tuple. *)
Theorem asset_db_tag_lookups_never_return :
  (forall (key_value_pattern : Property -> option (TagProps -> bool)) (g : Graph)
          (prop : Property) (since : option datetime),
      exists e, AssetDb.find_entity_tags_by_content key_value_pattern g prop since = Raise e)
  /\ (forall (key_value_pattern : Property -> option (TagProps -> bool)) (g : Graph)
             (prop : Property) (since : option datetime),
         exists e, AssetDb.find_edge_tags_by_content key_value_pattern g prop since = Raise e)
  /\ (forall (g : Graph) (entity : Entity) (since : option datetime) (names : list string),
         exists e, AssetDbTags.find_entity_tags g entity since names = Raise e)
  /\ (forall (g : Graph) (edge : Edge) (since : option datetime) (names : list string),
         exists e, AssetDbTags.find_edge_tags g edge since names = Raise e)
  /\ (forall (g : Graph) (id : string),
         AssetDbTags.find_entity_tag_by_id g id
         = Raise (AttributeError "'EagerResult' object has no attribute 'get'"))
  /\ (forall (g : Graph) (id : string),
         AssetDbTags.find_edge_tag_by_id g id
         = Raise (AttributeError "'EagerResult' object has no attribute 'get'")).
Proof.
  split.
  { intros kvp g prop since. unfold AssetDb.find_entity_tags_by_content,
      AssetDb.query_node_by_property_key_value, AssetDb.match_pattern.
    destruct (kvp prop) as [qnode|]; cbn [require bind]; [|eexists; reflexivity].
    cbn [execute_query unpack_records bind]. rewrite length_map.
    destruct (filter _ (entity_tag_nodes g)) as [|n rest]; cbn; eexists; reflexivity. }
  split.
  { intros kvp g prop since. unfold AssetDb.find_edge_tags_by_content,
      AssetDb.query_node_by_property_key_value, AssetDb.match_pattern.
    destruct (kvp prop) as [qnode|]; cbn [require bind]; [|eexists; reflexivity].
    cbn [execute_query unpack_records bind]. rewrite length_map.
    destruct (filter _ (edge_tag_nodes g)) as [|n rest]; cbn; eexists; reflexivity. }
  split.
  { intros g entity since names. unfold AssetDbTags.find_entity_tags, match_tags_by_owner.
    cbn [execute_query unpack_records bind]. rewrite length_map.
    destruct (filter _ (entity_tag_nodes g)) as [|n rest]; cbn; eexists; reflexivity. }
  split.
  { intros g edge since names. unfold AssetDbTags.find_edge_tags, match_tags_by_owner.
    cbn [execute_query unpack_records bind]. rewrite length_map.
    destruct (filter _ (edge_tag_nodes g)) as [|n rest]; cbn; eexists; reflexivity. }
  split; intros g id; reflexivity.
Qed.

End OlderRepository.

(** * More of the reconciliation engine *)
Section StoreProperties.
Context {AM : AssetModel} {PS : PyStr}.
Variable valid_relationship : string -> string -> string -> string -> bool.
Variable clock : nat -> datetime.
Variable uuid4 : nat -> string.
#[local] Open Scope list_scope.

Lemma empty_guard {A : Type} (l : list A) :
  (if (length l =? 0)%nat then Ok [] else Ok l) = Ok l.
Proof. destruct l; reflexivity. Qed.

Lemma bind_Ok {A : Type} (m : result A) : bind m Ok = m.
Proof. destruct m; reflexivity. Qed.

Lemma find_entity_by_id_entities (self s : NeoRepository) (id : string) :
  entities (db s) = entities (db self) ->
  find_entity_by_id s id = find_entity_by_id self id.
Proof. unfold find_entity_by_id. intros ->. reflexivity. Qed.

Lemma find_entity_by_id_stored (self : NeoRepository) (id : string) (entity : Entity) :
  find_entity_by_id self id = Ok entity ->
  existsb (is_entity_node id) (entities (db self)) = true.
Proof.
  unfold find_entity_by_id. intros H.
  destruct (find _ (entities (db self))) as [e|] eqn:Efind; [|discriminate].
  apply find_some in Efind. apply existsb_exists. exists e. exact Efind.
Qed.

Lemma outgoing_edges_loop_entities (self s : NeoRepository) (entity : Entity)
  (labels : list string) (records : list EdgeRow) :
  entities (db s) = entities (db self) ->
  outgoing_edges_loop s entity labels records = outgoing_edges_loop self entity labels records.
Proof.
  intros Hsame. induction records as [|record rest IH]; simpl; [reflexivity|].
  destruct (row_r record) as [r|]; [|exact IH].
  destruct (negb (label_selected labels r)); [exact IH|].
  destruct (row_tid record) as [tid|]; [|exact IH].
  rewrite (find_entity_by_id_entities self s tid Hsame), IH. reflexivity.
Qed.

Lemma outgoing_edges_loop_app (self : NeoRepository) (entity : Entity)
  (labels : list string) (a b : list EdgeRow) (ra : list Edge) :
  outgoing_edges_loop self entity labels a = Ok ra ->
  outgoing_edges_loop self entity labels (a ++ b)
  = (rb <- outgoing_edges_loop self entity labels b ;; Ok (ra ++ rb)).
Proof.
  revert ra. induction a as [|record rest IH]; simpl; intros ra Ha.
  - inversion Ha; subst. simpl. symmetry. apply bind_Ok.
  - destruct (row_r record) as [r|]; [|apply IH, Ha].
    destruct (negb (label_selected labels r)); [apply IH, Ha|].
    destruct (row_tid record) as [tid|]; [|apply IH, Ha].
    destruct (find_entity_by_id self tid) as [target|]; simpl in *; [|discriminate].
    destruct (_relationship_to_edge r entity target) as [edge|]; [|apply IH, Ha].
    destruct (outgoing_edges_loop self entity labels rest) as [results|]; simpl in Ha;
      [|discriminate].
    inversion Ha; subst. rewrite (IH results eq_refl).
    destruct (outgoing_edges_loop self entity labels b); reflexivity.
Qed.

Lemma eqb_some_refl (x : string) : opt_string_eqb (Some x) (Some x) = true.
Proof. simpl. apply String.eqb_refl. Qed.

Lemma entity_nodes_missing (id : string) (nodes : list Entity) :
  existsb (is_entity_node id) nodes = false ->
  filter (is_entity_node id) nodes = [].
Proof.
  induction nodes as [|e rest IH]; simpl; intros H; [reflexivity|].
  apply orb_false_elim in H. destruct H as [-> H]. apply IH, H.
Qed.

(** The state [create_edge] leaves when it inserts. *)
Lemma create_edge_insert_state (self : NeoRepository) (edge : Edge) :
  accepted valid_relationship self edge = true ->
  _find_existing_edge self edge = Ok None ->
  existsb (is_entity_node (py_str (entity_id (from_entity edge)))) (entities (db self)) = true ->
  existsb (is_entity_node (py_str (entity_id (to_entity edge)))) (entities (db self)) = true ->
  exists copies,
    create_edge valid_relationship clock uuid4 self edge
    = (Ok (inserted_edge clock uuid4 self edge),
       _emit
         (mkNeoRepository (enforce_taxonomy self) (emit_events self) (_events_buffer self)
            (set_relationships (db self)
               (relationships (db self)
                ++ repeat (relationship_of (inserted_edge clock uuid4 self edge)) (S copies)))
            (S (S (clock_reads self))) (S (uuids_drawn self)))
         (EdgeInserted (inserted_edge clock uuid4 self edge))).
Proof.
  intros Hgate Hnone Hfrom Hto.
  destruct (entity_nodes_found _ _ Hfrom) as [n Hn].
  destruct (entity_nodes_found _ _ Hto) as [m Hm].
  exists (m + n * S m)%nat.
  unfold create_edge. rewrite (accepted_gate _ _ _ Hgate), Hnone.
  unfold str_uuid4, datetime_now, create_relationship, relationship_of, inserted_edge.
  cbn [fst snd db relation from_entity to_entity entities relationships].
  rewrite Hn, Hm. change (S n * S m)%nat with (S (m + n * S m)).
  cbn [repeat map execute_query is_None fst snd]. reflexivity.
Qed.

(** X6.  An edge that the scan does not find and whose two ends are stored is
    inserted: the call returns the submitted relation and ends under the next
    id of the id source, with the next clock reading as [created_at] and the
    one after it as [updated_at]; the store gains copies of one relationship,
    filed under the upper-cased label between the two entity ids, after the
    relationships it had, which are left as they were; entities and tags are
    not touched, one id and two clock readings are used, and the log gains
    [EdgeInserted]. *)
Theorem new_edge_is_appended_to_the_store (self : NeoRepository) (edge : Edge) :
  accepted valid_relationship self edge = true ->
  _find_existing_edge self edge = Ok None ->
  existsb (is_entity_node (py_str (entity_id (from_entity edge)))) (entities (db self)) = true ->
  existsb (is_entity_node (py_str (entity_id (to_entity edge)))) (entities (db self)) = true ->
  let new_edge := inserted_edge clock uuid4 self edge in
  let out := create_edge valid_relationship clock uuid4 self edge in
  fst out = Ok new_edge
  /\ (exists copies,
         relationships (db (snd out))
         = relationships (db self) ++ repeat (relationship_of new_edge) (S copies))
  /\ entities (db (snd out)) = entities (db self)
  /\ entity_tag_nodes (db (snd out)) = entity_tag_nodes (db self)
  /\ edge_tag_nodes (db (snd out)) = edge_tag_nodes (db self)
  /\ uuids_drawn (snd out) = S (uuids_drawn self)
  /\ clock_reads (snd out) = S (S (clock_reads self))
  /\ _events_buffer (snd out) = _events_buffer self ++ emitted self (EdgeInserted new_edge).
Proof.
  intros Hgate Hnone Hfrom Hto new_edge out. subst new_edge out.
  destruct (create_edge_insert_state self edge Hgate Hnone Hfrom Hto) as [copies ->].
  cbn [fst snd]. split; [reflexivity|].
  split; [exists copies; rewrite emit_db; reflexivity|].
  rewrite emit_db. cbn [db set_relationships entities entity_tag_nodes edge_tag_nodes].
  repeat (split; [reflexivity|]).
  unfold _emit, emitted. cbn [emit_events].
  destruct (emit_events self); cbn; auto using app_nil_r.
Qed.


(** X7.  [create_edge] never files an edge at an entity that is not in the
    store: when one of the two end ids matches no entity node, the [CREATE]
    statement yields no row, the call fails with [no records returned from
    the query], the store and the log are as before; the id and the two clock
    readings of the attempt are spent. *)
Theorem edge_to_a_missing_entity_is_not_created (self : NeoRepository) (edge : Edge) :
  accepted valid_relationship self edge = true ->
  _find_existing_edge self edge = Ok None ->
  existsb (is_entity_node (py_str (entity_id (from_entity edge)))) (entities (db self)) = false
  \/ existsb (is_entity_node (py_str (entity_id (to_entity edge)))) (entities (db self)) = false ->
  let out := create_edge valid_relationship clock uuid4 self edge in
  fst out = Raise (Exception "no records returned from the query")
  /\ db (snd out) = db self
  /\ _events_buffer (snd out) = _events_buffer self
  /\ uuids_drawn (snd out) = S (uuids_drawn self)
  /\ clock_reads (snd out) = S (S (clock_reads self)).
Proof.
  intros Hgate Hnone Hmissing out. subst out.
  unfold create_edge. rewrite (accepted_gate _ _ _ Hgate), Hnone.
  unfold str_uuid4, datetime_now, create_relationship.
  cbn [fst snd db relation from_entity to_entity entities relationships].
  assert (Hzero : (length (filter (is_entity_node (py_str (entity_id (from_entity edge))))
                             (entities (db self)))
                   * length (filter (is_entity_node (py_str (entity_id (to_entity edge))))
                               (entities (db self))))%nat = 0%nat).
  { destruct Hmissing as [H|H]; rewrite (entity_nodes_missing _ _ H); simpl; lia. }
  rewrite Hzero. cbn [repeat map execute_query is_None fst snd db set_db
                      _events_buffer uuids_drawn clock_reads].
  rewrite app_nil_r. repeat split. destruct (db self); reflexivity.
Qed.

Lemma filter_repeat {A : Type} (f : A -> bool) (x : A) (n : nat) :
  f x = true -> filter f (repeat x n) = repeat x n.
Proof. intros Hx. induction n as [|n IH]; simpl; [reflexivity|]. rewrite Hx, IH. reflexivity. Qed.

Lemma map_nil_inv {A B : Type} (f : A -> B) (l : list A) : map f l = [] -> l = [].
Proof. destruct l; [reflexivity|discriminate]. Qed.

(** X8.  Insert and find by id: after [create_edge] has inserted an edge
    under an id that no stored relationship carried, [find_edge_by_id] of that
    id returns the record that was inserted, with the stored entities of the
    two ids as its ends. *)
Theorem inserted_edge_is_found_by_its_id (self : NeoRepository) (edge : Edge)
  (source target : Entity) :
  accepted valid_relationship self edge = true ->
  _find_existing_edge self edge = Ok None ->
  find_entity_by_id self (py_str (entity_id (from_entity edge))) = Ok source ->
  find_entity_by_id self (py_str (entity_id (to_entity edge))) = Ok target ->
  match_edge_by_id (db self) (uuid4 (uuids_drawn self)) = [] ->
  let out := create_edge valid_relationship clock uuid4 self edge in
  find_edge_by_id (snd out) (uuid4 (uuids_drawn self))
  = Ok (mkEdge (Some (uuid4 (uuids_drawn self)))
          (Some (clock (clock_reads self))) (Some (clock (S (clock_reads self))))
          (relation edge) source target).
Proof.
  intros Hgate Hnone Hsource Htarget Hfresh out. subst out.
  destruct (create_edge_insert_state self edge Hgate Hnone
              (find_entity_by_id_stored _ _ _ Hsource)
              (find_entity_by_id_stored _ _ _ Htarget)) as [copies ->].
  cbn [snd]. unfold find_edge_by_id, match_edge_by_id. rewrite emit_db.
  cbn [db relationships set_relationships]. rewrite filter_app.
  unfold match_edge_by_id in Hfresh. rewrite (map_nil_inv _ _ Hfresh).
  rewrite filter_repeat by apply eqb_some_refl.
  cbn [app repeat map execute_query is_None get_required py_get bind require
       row_r row_fid row_tid rel_start rel_end relationship_of inserted_edge
       from_entity to_entity].
  rewrite (find_entity_by_id_entities self), Hsource by (rewrite emit_db; reflexivity).
  cbn [bind]. rewrite (find_entity_by_id_entities self), Htarget by (rewrite emit_db; reflexivity).
  reflexivity.
Qed.

Lemma outgoing_edges_loop_repeat (self : NeoRepository) (entity target : Entity)
  (r : Relationship) (tid : string) (edge : Edge) (n : nat) :
  rel_end r = Some tid ->
  find_entity_by_id self tid = Ok target ->
  _relationship_to_edge r entity target = Ok edge ->
  outgoing_edges_loop self entity []
    (repeat (mkEdgeRow (Some r) None (rel_end r)) n) = Ok (repeat edge n).
Proof.
  intros Hend Htarget Hedge. induction n as [|n IH]; [reflexivity|].
  cbn [repeat outgoing_edges_loop row_r row_tid label_selected negb].
  rewrite IH, Hend, Htarget. cbn [bind]. rewrite Hedge. reflexivity.
Qed.

Lemma find_app {A : Type} (f : A -> bool) (a b : list A) :
  find f (a ++ b) = match find f a with
                    | Some x => Some x
                    | None => find f b
                    end.
Proof.
  induction a as [|x rest IH]; simpl; [reflexivity|].
  destruct (f x); [reflexivity|exact IH].
Qed.

(** X9.  Submitting the same edge twice: when the scan of the first call ran
    clean and found no duplicate, the first call inserts and the second finds
    what the first wrote: it returns the record of the first call under the
    same id and timestamps (its target is the stored entity of the target
    id), writes nothing, draws no id, reads no clock and logs
    [EdgeUntouched]. *)
Theorem edge_resubmission_reuses_the_inserted_edge (self : NeoRepository) (edge : Edge)
  (source_id target_id : string) (outs : list Edge) (source target : Entity) :
  accepted valid_relationship self edge = true ->
  explicit_id (edge_id edge) = None ->
  entity_id (from_entity edge) = Some source_id ->
  entity_id (to_entity edge) = Some target_id ->
  find_entity_by_id self source_id = Ok source ->
  find_entity_by_id self target_id = Ok target ->
  outgoing_edges self (from_entity edge) None [] = Ok outs ->
  find (fun out => opt_string_eqb (entity_id (to_entity edge)) (entity_id (to_entity out))
                   && equals (relation edge) (relation out)) outs = None ->
  equals (relation edge) (relation edge) = true ->
  rel_is_fresher_than (relation edge) (relation edge) = false ->
  let first := create_edge valid_relationship clock uuid4 self edge in
  let second := create_edge valid_relationship clock uuid4 (snd first) edge in
  let stored :=
    mkEdge (Some (uuid4 (uuids_drawn self)))
      (Some (clock (clock_reads self))) (Some (clock (S (clock_reads self))))
      (relation edge) (from_entity edge) target in
  fst first = Ok (inserted_edge clock uuid4 self edge)
  /\ fst second = Ok stored
  /\ same_store (snd first) (snd second)
  /\ _events_buffer (snd second)
     = _events_buffer (snd first) ++ emitted self (EdgeUntouched stored).
Proof.
  intros Hgate Hid Hsid Htid Hsource Htarget Houts Hnodup Hrefl Hstale first second stored.
  assert (Hnone : _find_existing_edge self edge = Ok None).
  { unfold _find_existing_edge. rewrite Hid, Houts, Hnodup. reflexivity. }
  assert (Hfrom : existsb (is_entity_node (py_str (entity_id (from_entity edge))))
                    (entities (db self)) = true).
  { rewrite Hsid. apply (find_entity_by_id_stored _ _ _ Hsource). }
  assert (Hto : existsb (is_entity_node (py_str (entity_id (to_entity edge))))
                  (entities (db self)) = true).
  { rewrite Htid. apply (find_entity_by_id_stored _ _ _ Htarget). }
  destruct (create_edge_insert_state self edge Hgate Hnone Hfrom Hto) as [copies Hfirst].
  subst first second. rewrite Hfirst. cbn [fst snd].
  split; [reflexivity|].
  set (s1 := _emit _ (EdgeInserted _)).
  assert (Hents : entities (db s1) = entities (db self))
    by (unfold s1; rewrite emit_db; reflexivity).
  assert (Hflags : enforce_taxonomy s1 = enforce_taxonomy self /\ emit_events s1 = emit_events self).
  { unfold s1, _emit. cbn [emit_events]. destruct (emit_events self); split; reflexivity. }
  assert (Hgate1 : accepted valid_relationship s1 edge = true).
  { unfold accepted in *. destruct Hflags as [-> _]. exact Hgate. }
  assert (Hfound : _find_existing_edge s1 edge = Ok (Some stored)).
  { unfold _find_existing_edge. rewrite Hid.
    unfold outgoing_edges in *. rewrite Hsid in *.
    cbn [match_outgoing execute_query unpack_records bind] in *.
    assert (Hrels : relationships (db s1)
                    = relationships (db self)
                      ++ repeat (relationship_of (inserted_edge clock uuid4 self edge)) (S copies))
      by (unfold s1; rewrite emit_db; reflexivity).
    rewrite Hrels, filter_app, map_app.
    rewrite filter_repeat
      by (unfold relationship_of; cbn [rel_start rel_props since_ok inserted_edge from_entity];
          rewrite Hsid; cbn [py_str]; rewrite eqb_some_refl; reflexivity).
    rewrite map_repeat.
    destruct (outgoing_edges_loop self (from_entity edge) [] _) as [results|] eqn:Eloop;
      [|discriminate].
    cbn [bind] in Houts. rewrite empty_guard in Houts. inversion Houts; subst results.
    rewrite (outgoing_edges_loop_app s1 _ _ _ _ outs)
      by (rewrite (outgoing_edges_loop_entities self s1 _ _ _ Hents); exact Eloop).
    rewrite (outgoing_edges_loop_repeat s1 _ target _ target_id stored).
    - cbn [bind]. rewrite empty_guard, find_app, Hnodup.
      cbn [repeat find]. unfold stored at 1 2. cbn [to_entity relation].
      rewrite Htid, (find_entity_by_id_id _ _ _ Htarget), eqb_some_refl, Hrefl. reflexivity.
    - unfold relationship_of. cbn [rel_end inserted_edge to_entity]. rewrite Htid. reflexivity.
    - rewrite (find_entity_by_id_entities self s1 _ Hents). exact Htarget.
    - reflexivity. }
  rewrite (create_edge_untouched valid_relationship clock uuid4 s1 edge stored Hgate1 Hfound Hstale).
  cbn [fst snd]. split; [reflexivity|]. split; [apply emit_same_store|].
  rewrite emit_buffer. unfold emitted. destruct Hflags as [_ ->]. reflexivity.
Qed.

(** X10.  A scan that fails counts as no duplicate: when [outgoing_edges] of
    the source raises (a relationship of the source whose target is not in
    the store is enough), [_find_existing_edge] of an edge without id reports
    nothing and [create_edge] inserts the submission under a new id, whatever
    the store holds. *)
Theorem failed_scan_makes_create_edge_insert (self : NeoRepository) (edge : Edge) (e : exn) :
  accepted valid_relationship self edge = true ->
  explicit_id (edge_id edge) = None ->
  outgoing_edges self (from_entity edge) None [] = Raise e ->
  existsb (is_entity_node (py_str (entity_id (from_entity edge)))) (entities (db self)) = true ->
  existsb (is_entity_node (py_str (entity_id (to_entity edge)))) (entities (db self)) = true ->
  let out := create_edge valid_relationship clock uuid4 self edge in
  _find_existing_edge self edge = Ok None
  /\ fst out = Ok (inserted_edge clock uuid4 self edge)
  /\ In (relationship_of (inserted_edge clock uuid4 self edge)) (relationships (db (snd out)))
  /\ _events_buffer (snd out)
     = _events_buffer self ++ emitted self (EdgeInserted (inserted_edge clock uuid4 self edge)).
Proof.
  intros Hgate Hid Hscan Hfrom Hto out. subst out.
  assert (Hnone : _find_existing_edge self edge = Ok None).
  { unfold _find_existing_edge. rewrite Hid, Hscan. reflexivity. }
  split; [exact Hnone|].
  apply (create_edge_inserts valid_relationship clock uuid4 self edge Hgate Hnone Hfrom Hto).
Qed.

(** X11.  An edge submitted with an id is never inserted: [create_edge]
    resolves the id with [find_edge_by_id] and either fails with the error of
    that lookup, leaving the repository as it was ([no edge was found] when
    no relationship carries the id), or goes on with the stored edge of that
    id; no id is drawn, the number of relationships does not change, and an
    edge that is returned carries the submitted id. *)
Theorem edge_with_an_id_is_resolved_not_inserted (self : NeoRepository) (edge : Edge)
  (id : string) :
  accepted valid_relationship self edge = true ->
  explicit_id (edge_id edge) = Some id ->
  let out := create_edge valid_relationship clock uuid4 self edge in
  (forall e, find_edge_by_id self id = Raise e -> out = (Raise e, self))
  /\ (match_edge_by_id (db self) id = [] ->
      out = (Raise (Exception "no edge was found"), self))
  /\ (forall found, fst out = Ok found -> edge_id found = Some id)
  /\ uuids_drawn (snd out) = uuids_drawn self
  /\ length (relationships (db (snd out))) = length (relationships (db self)).
Proof.
  intros Hgate Hid out. subst out.
  unfold create_edge. rewrite (accepted_gate _ _ _ Hgate).
  unfold _find_existing_edge. rewrite Hid.
  split.
  { intros e He. rewrite He. reflexivity. }
  split.
  { intros Hnone. rewrite (find_edge_by_id_none _ _ Hnone). reflexivity. }
  destruct (find_edge_by_id self id) as [old_edge|e] eqn:Efind; cbn [bind].
  - pose proof (find_edge_by_id_id _ _ _ Efind) as Hold.
    destruct (rel_is_fresher_than _ _).
    + unfold datetime_now, set_relationship_props. cbn [fst snd db].
      match goal with
      | |- context [is_None ?record] => destruct (is_None record)
      end; cbn [fst snd]; [|rewrite emit_db];
        cbn [db set_db relationships set_relationships uuids_drawn];
        (split; [intros found Hfound; inversion Hfound; subst; try exact Hold|]);
        (split; [unfold _emit; cbn [emit_events]; try destruct (emit_events self); reflexivity
                |apply length_map]).
    + cbn [fst snd]. split; [intros found Hfound; inversion Hfound; subst; exact Hold|].
      rewrite emit_db. unfold _emit. destruct (emit_events self); split; reflexivity.
  - cbn [fst snd]. split; [intros found Hfound; discriminate Hfound|]. split; reflexivity.
Qed.

Lemma filter_none {A : Type} (f : A -> bool) (l : list A) :
  (forall x, In x l -> f x = false) -> filter f l = [].
Proof.
  induction l as [|x rest IH]; simpl; intros H; [reflexivity|].
  rewrite (H x (or_introl eq_refl)). apply IH. intros y Hy. apply H. right. exact Hy.
Qed.

(** The state [create_edge] leaves when it updates. *)
Lemma create_edge_update_state (self : NeoRepository) (edge old_edge : Edge) :
  accepted valid_relationship self edge = true ->
  _find_existing_edge self edge = Ok (Some old_edge) ->
  rel_is_fresher_than (relation edge) (relation old_edge) = true ->
  let new_edge :=
    mkEdge (edge_id old_edge) (edge_created_at old_edge) (Some (clock (clock_reads self)))
      (rel_override_with (relation old_edge) (relation edge))
      (from_entity old_edge) (to_entity old_edge) in
  relationships (db (snd (create_edge valid_relationship clock uuid4 self edge)))
  = map (fun r =>
           if relationship_between
                (py_str (entity_id (from_entity old_edge)))
                (py_str (entity_id (to_entity old_edge)))
                (upper (label (rel_override_with (relation old_edge) (relation edge)))) r
           then mkRelationship (rel_start r) (rel_end r) (rel_type r) (Edge_to_dict new_edge)
           else r)
      (relationships (db self)).
Proof.
  intros Hgate Hfound Hfresh new_edge. subst new_edge.
  unfold create_edge. rewrite (accepted_gate _ _ _ Hgate), Hfound, Hfresh.
  unfold datetime_now, set_relationship_props, Edge_label.
  cbn [fst snd db relation from_entity to_entity].
  match goal with
  | |- context [is_None ?record] => destruct (is_None record)
  end; cbn [snd]; [|rewrite emit_db]; reflexivity.
Qed.

(** X12.  The update statement of [create_edge] is scoped by the two ends and
    the relationship type, not by the edge id: after a fresher resubmission
    every relationship of that type between the two entities carries the
    property map of the merged edge, its [edge_id] included, and every other
    relationship is as it was.  An edge id that only such parallel
    relationships carried is not found any more. *)
Theorem edge_update_overwrites_parallel_relationships (self : NeoRepository)
  (edge old_edge : Edge) (old_id : string) :
  accepted valid_relationship self edge = true ->
  _find_existing_edge self edge = Ok (Some old_edge) ->
  rel_is_fresher_than (relation edge) (relation old_edge) = true ->
  edge_id old_edge = Some old_id ->
  let parallel :=
    relationship_between
      (py_str (entity_id (from_entity old_edge)))
      (py_str (entity_id (to_entity old_edge)))
      (upper (label (rel_override_with (relation old_edge) (relation edge)))) in
  let new_edge :=
    mkEdge (edge_id old_edge) (edge_created_at old_edge) (Some (clock (clock_reads self)))
      (rel_override_with (relation old_edge) (relation edge))
      (from_entity old_edge) (to_entity old_edge) in
  let after := snd (create_edge valid_relationship clock uuid4 self edge) in
  (forall r, In r (relationships (db after)) -> parallel r = true ->
             rel_props r = Edge_to_dict new_edge)
  /\ (forall r, In r (relationships (db self)) -> parallel r = true ->
                In (mkRelationship (rel_start r) (rel_end r) (rel_type r) (Edge_to_dict new_edge))
                  (relationships (db after)))
  /\ (forall r, parallel r = false ->
                (In r (relationships (db after)) <-> In r (relationships (db self))))
  /\ (forall id, id <> old_id ->
                 (forall r, In r (relationships (db self)) ->
                            ep_edge_id (rel_props r) = Some id -> parallel r = true) ->
                 find_edge_by_id after id = Raise (Exception "no edge was found")).
Proof.
  intros Hgate Hfound Hfresh Hold parallel new_edge after.
  pose proof (create_edge_update_state self edge old_edge Hgate Hfound Hfresh) as Hrels.
  cbn zeta in Hrels. fold parallel in Hrels. fold new_edge in Hrels. fold after in Hrels.
  assert (Hkeep : forall r, parallel (mkRelationship (rel_start r) (rel_end r) (rel_type r)
                                        (Edge_to_dict new_edge)) = parallel r)
    by reflexivity.
  split.
  { intros r Hin Hpar. rewrite Hrels in Hin. apply in_map_iff in Hin.
    destruct Hin as [r0 [Hr Hin0]]. destruct (parallel r0) eqn:Hpar0.
    - subst r. reflexivity.
    - subst r. congruence. }
  split.
  { intros r Hin Hpar. rewrite Hrels. apply in_map_iff. exists r.
    rewrite Hpar. split; [reflexivity|exact Hin]. }
  split.
  { intros r Hpar. rewrite Hrels, in_map_iff. split.
    - intros [r0 [Hr Hin0]]. destruct (parallel r0) eqn:Hpar0.
      + subst r. rewrite Hkeep in Hpar. congruence.
      + subst r. exact Hin0.
    - intros Hin. exists r. rewrite Hpar. split; [reflexivity|exact Hin]. }
  intros id Hid Honly. apply find_edge_by_id_none. unfold match_edge_by_id.
  rewrite Hrels, filter_none; [reflexivity|].
  intros r Hin. apply in_map_iff in Hin. destruct Hin as [r0 [Hr Hin0]].
  destruct (parallel r0) eqn:Hpar0.
  - subst r. cbn [rel_props Edge_to_dict ep_edge_id new_edge edge_id]. rewrite Hold.
    simpl. apply String.eqb_neq. congruence.
  - subst r. destruct (opt_string_eqb (ep_edge_id (rel_props r0)) (Some id)) eqn:Heq;
      [|reflexivity].
    apply opt_string_eqb_some in Heq. rewrite (Honly r0 Hin0 Heq) in Hpar0. discriminate.
Qed.

Lemma relationship_to_edge_updated_at (rel : Relationship) (source target : Entity)
  (edge : Edge) :
  _relationship_to_edge rel source target = Ok edge ->
  edge_updated_at edge = ep_updated_at (rel_props rel).
Proof. intros H. rewrite (relationship_to_edge_props _ _ _ _ H). reflexivity. Qed.

Lemma outgoing_edges_loop_sound (self : NeoRepository) (entity : Entity) (id : string)
  (since : option datetime) (labels : list string) (rels : list Relationship)
  (results : list Edge) :
  entity_id entity = Some id ->
  (forall r, In r rels ->
             In r (relationships (db self)) /\ rel_start r = Some id
             /\ since_ok since (ep_updated_at (rel_props r)) = true) ->
  outgoing_edges_loop self entity labels
    (map (fun r => mkEdgeRow (Some r) None (rel_end r)) rels) = Ok results ->
  Forall (fun edge =>
            from_entity edge = entity
            /\ since_ok since (edge_updated_at edge) = true
            /\ find_entity_by_id self (py_str (entity_id (to_entity edge))) = Ok (to_entity edge)
            /\ exists r, stored_as (db self) edge r /\ label_selected labels r = true)
    results.
Proof.
  intros Hid. revert results.
  induction rels as [|r rest IH]; simpl; intros results Hrels H.
  - inversion H. constructor.
  - assert (Hrest : forall r', In r' rest ->
                               In r' (relationships (db self)) /\ rel_start r' = Some id
                               /\ since_ok since (ep_updated_at (rel_props r')) = true).
    { intros r' Hin. apply Hrels. right. exact Hin. }
    destruct (label_selected labels r) eqn:Hsel; cbn [negb] in H; [|apply IH; assumption].
    destruct (rel_end r) as [tid|] eqn:Etid; [|apply IH; assumption].
    unfold bind in H.
    destruct (find_entity_by_id self tid) as [target|] eqn:Etarget; [|discriminate].
    destruct (_relationship_to_edge r entity target) as [edge|] eqn:Edge;
      [|apply IH; assumption].
    destruct (outgoing_edges_loop self entity labels _) as [others|] eqn:Eloop;
      [|discriminate].
    inversion H; subst. constructor; [|apply IH; [assumption|reflexivity]].
    destruct (Hrels r (or_introl eq_refl)) as [Hin [Hstart Hsince]].
    destruct (relationship_to_edge_ends _ _ _ _ Edge) as [Hfrom Hto].
    split; [exact Hfrom|].
    split; [rewrite (relationship_to_edge_updated_at _ _ _ _ Edge); exact Hsince|].
    split; [rewrite Hto, (find_entity_by_id_id _ _ _ Etarget); exact Etarget|].
    exists r. split; [|exact Hsel].
    unfold stored_as. rewrite Hfrom, Hto, Hid, (find_entity_by_id_id _ _ _ Etarget).
    simpl. repeat split; try assumption.
    apply (relationship_to_edge_props _ _ _ _ Edge).
Qed.

Lemma incoming_edges_loop_sound (self : NeoRepository) (entity : Entity) (id : string)
  (since : option datetime) (labels : list string) (rels : list Relationship)
  (results : list Edge) :
  entity_id entity = Some id ->
  (forall r, In r rels ->
             In r (relationships (db self)) /\ rel_end r = Some id
             /\ since_ok since (ep_updated_at (rel_props r)) = true) ->
  incoming_edges_loop self entity labels
    (map (fun r => mkEdgeRow (Some r) (rel_start r) None) rels) = Ok results ->
  Forall (fun edge =>
            to_entity edge = entity
            /\ since_ok since (edge_updated_at edge) = true
            /\ find_entity_by_id self (py_str (entity_id (from_entity edge)))
               = Ok (from_entity edge)
            /\ exists r, stored_as (db self) edge r /\ label_selected labels r = true)
    results.
Proof.
  intros Hid. revert results.
  induction rels as [|r rest IH]; simpl; intros results Hrels H.
  - inversion H. constructor.
  - assert (Hrest : forall r', In r' rest ->
                               In r' (relationships (db self)) /\ rel_end r' = Some id
                               /\ since_ok since (ep_updated_at (rel_props r')) = true).
    { intros r' Hin. apply Hrels. right. exact Hin. }
    destruct (label_selected labels r) eqn:Hsel; cbn [negb] in H; [|apply IH; assumption].
    destruct (rel_start r) as [fid|] eqn:Efid; [|apply IH; assumption].
    unfold bind in H.
    destruct (find_entity_by_id self fid) as [source|] eqn:Esource; [|discriminate].
    destruct (_relationship_to_edge r source entity) as [edge|] eqn:Edge; [|discriminate].
    destruct (incoming_edges_loop self entity labels _) as [others|] eqn:Eloop;
      [|discriminate].
    inversion H; subst. constructor; [|apply IH; [assumption|reflexivity]].
    destruct (Hrels r (or_introl eq_refl)) as [Hin [Hend Hsince]].
    destruct (relationship_to_edge_ends _ _ _ _ Edge) as [Hfrom Hto].
    split; [exact Hto|].
    split; [rewrite (relationship_to_edge_updated_at _ _ _ _ Edge); exact Hsince|].
    split; [rewrite Hfrom, (find_entity_by_id_id _ _ _ Esource); exact Esource|].
    exists r. split; [|exact Hsel].
    unfold stored_as. rewrite Hfrom, Hto, Hid, (find_entity_by_id_id _ _ _ Esource).
    simpl. repeat split; try assumption.
    apply (relationship_to_edge_props _ _ _ _ Edge).
Qed.

(** X13.  What the traversals return: every edge of [outgoing_edges(entity,
    since, labels)] has the entity that was passed as its source and the
    stored entity of the target id as its target, was last updated at or
    after [since], and is the decoding of a stored relationship that starts at
    the entity and passes the label filter; [incoming_edges] mirrors this
    with source and target exchanged. *)
Theorem traversals_return_stored_edges_of_the_entity :
  (forall (self : NeoRepository) (entity : Entity) (since : option datetime)
          (labels : list string) (results : list Edge),
      outgoing_edges self entity since labels = Ok results ->
      Forall (fun edge =>
                from_entity edge = entity
                /\ since_ok since (edge_updated_at edge) = true
                /\ find_entity_by_id self (py_str (entity_id (to_entity edge)))
                   = Ok (to_entity edge)
                /\ exists r, stored_as (db self) edge r /\ label_selected labels r = true)
        results)
  /\ (forall (self : NeoRepository) (entity : Entity) (since : option datetime)
             (labels : list string) (results : list Edge),
         incoming_edges self entity since labels = Ok results ->
         Forall (fun edge =>
                   to_entity edge = entity
                   /\ since_ok since (edge_updated_at edge) = true
                   /\ find_entity_by_id self (py_str (entity_id (from_entity edge)))
                      = Ok (from_entity edge)
                   /\ exists r, stored_as (db self) edge r /\ label_selected labels r = true)
           results).
Proof.
  split.
  - intros self entity since labels results H. unfold outgoing_edges, match_outgoing in H.
    destruct (entity_id entity) as [id|] eqn:Hid.
    + cbn [execute_query unpack_records bind] in H.
      destruct (outgoing_edges_loop self entity labels _) as [found|] eqn:Eloop;
        [|discriminate].
      cbn [bind] in H. rewrite empty_guard in H. inversion H; subst found.
      refine (outgoing_edges_loop_sound self entity id since labels _ results Hid _ Eloop).
      intros r Hin. apply filter_In in Hin. destruct Hin as [Hin Hf].
      apply andb_prop in Hf. destruct Hf as [Hstart Hsince].
      apply opt_string_eqb_some in Hstart. auto.
    + cbn in H. inversion H. constructor.
  - intros self entity since labels results H. unfold incoming_edges, match_incoming in H.
    destruct (entity_id entity) as [id|] eqn:Hid.
    + cbn [execute_query unpack_records bind] in H.
      destruct (incoming_edges_loop self entity labels _) as [found|] eqn:Eloop;
        [|discriminate].
      cbn [bind] in H. rewrite empty_guard in H. inversion H; subst found.
      refine (incoming_edges_loop_sound self entity id since labels _ results Hid _ Eloop).
      intros r Hin. apply filter_In in Hin. destruct Hin as [Hin Hf].
      apply andb_prop in Hf. destruct Hf as [Hend Hsince].
      apply opt_string_eqb_some in Hend. auto.
    + cbn in H. inversion H. constructor.
Qed.

Lemma label_selected_casefolded (labels labels' : list string) (r : Relationship) :
  map casefold labels' = map casefold labels ->
  label_selected labels' r = label_selected labels r.
Proof.
  assert (Hmap : forall ls,
             label_selected ls r
             = match map casefold ls with
               | [] => true
               | _ :: _ =>
                   existsb (fun c => (c =? casefold (rel_type r))%string) (map casefold ls)
               end).
  { assert (Hex : forall all,
               existsb (fun c => (c =? casefold (rel_type r))%string) (map casefold all)
               = existsb (fun l => (casefold l =? casefold (rel_type r))%string) all).
    { induction all as [|x xs IH]; [reflexivity|]. cbn [map existsb]. rewrite IH. reflexivity. }
    intros ls. destruct ls as [|l rest]; [reflexivity|].
    unfold label_selected. cbn [map].
    change (casefold l :: map casefold rest) with (map casefold (l :: rest)).
    rewrite Hex. reflexivity. }
  intros Hsame. rewrite (Hmap labels'), (Hmap labels), Hsame. reflexivity.
Qed.

Lemma outgoing_edges_loop_labels (self : NeoRepository) (entity : Entity)
  (labels labels' : list string) (records : list EdgeRow) :
  (forall r, label_selected labels' r = label_selected labels r) ->
  outgoing_edges_loop self entity labels' records
  = outgoing_edges_loop self entity labels records.
Proof.
  intros Hsel. induction records as [|record rest IH]; simpl; [reflexivity|].
  destruct (row_r record) as [r|]; [|exact IH].
  rewrite Hsel, IH. reflexivity.
Qed.

Lemma incoming_edges_loop_labels (self : NeoRepository) (entity : Entity)
  (labels labels' : list string) (records : list EdgeRow) :
  (forall r, label_selected labels' r = label_selected labels r) ->
  incoming_edges_loop self entity labels' records
  = incoming_edges_loop self entity labels records.
Proof.
  intros Hsel. induction records as [|record rest IH]; simpl; [reflexivity|].
  destruct (row_r record) as [r|]; [|exact IH].
  rewrite Hsel, IH. reflexivity.
Qed.


Lemma find_entity_by_id_found (self : NeoRepository) (id : string) :
  existsb (is_entity_node id) (entities (db self)) = true ->
  exists entity, find_entity_by_id self id = Ok entity.
Proof.
  unfold find_entity_by_id. intros H. apply existsb_exists in H. destruct H as [e [Hin He]].
  destruct (find _ (entities (db self))) as [found|] eqn:Efind; [eexists; reflexivity|].
  apply (find_none _ _ Efind) in Hin. unfold is_entity_node in He. congruence.
Qed.

Lemma undecodable_raises (r : Relationship) :
  undecodable r = true ->
  exists e, forall source target, _relationship_to_edge r source target = Raise e.
Proof.
  unfold undecodable, _relationship_to_edge. intros H.
  destruct (ep_edge_id (rel_props r)); [|eexists; intros; reflexivity].
  destruct (ep_created_at (rel_props r)); [|eexists; intros; reflexivity].
  destruct (ep_updated_at (rel_props r)); [|eexists; intros; reflexivity].
  destruct (ep_relation (rel_props r)); [discriminate|eexists; intros; reflexivity].
Qed.

Lemma outgoing_edges_loop_returns (self : NeoRepository) (entity : Entity)
  (labels : list string) (rels : list Relationship) :
  (forall r tid, In r rels -> rel_end r = Some tid ->
                 existsb (is_entity_node tid) (entities (db self)) = true) ->
  exists results,
    outgoing_edges_loop self entity labels
      (map (fun r => mkEdgeRow (Some r) None (rel_end r)) rels) = Ok results
    /\ Forall (fun edge => exists r, In r rels /\ undecodable r = false
                                     /\ rel_props r = Edge_to_dict edge) results.
Proof.
  induction rels as [|r rest IH]; simpl; intros Hends.
  - exists []. split; [reflexivity|constructor].
  - destruct IH as [others [Hothers Hall]].
    { intros r' tid Hin. apply Hends. right. exact Hin. }
    assert (Hall' : Forall (fun edge => exists r0, (r = r0 \/ In r0 rest) /\ undecodable r0 = false
                                                   /\ rel_props r0 = Edge_to_dict edge) others).
    { eapply Forall_impl; [|exact Hall]. intros edge [r0 [Hin Hr0]]. exists r0. auto. }
    destruct (negb (label_selected labels r)); [exists others; auto|].
    destruct (rel_end r) as [tid|] eqn:Etid; [|exists others; auto].
    destruct (find_entity_by_id_found self tid (Hends r tid (or_introl eq_refl) Etid))
      as [target ->].
    cbn [bind].
    destruct (_relationship_to_edge r entity target) as [edge|e] eqn:Edge;
      [|exists others; auto].
    rewrite Hothers. cbn [bind]. exists (edge :: others). split; [reflexivity|].
    constructor; [|exact Hall'].
    exists r. split; [left; reflexivity|].
    split; [|apply (relationship_to_edge_props _ _ _ _ Edge)].
    destruct (undecodable r) eqn:Hun; [|reflexivity].
    destruct (undecodable_raises r Hun) as [e He]. rewrite He in Edge. discriminate.
Qed.

Lemma incoming_edges_loop_raises (self : NeoRepository) (entity : Entity)
  (labels : list string) (rels : list Relationship) (r : Relationship) (fid : string) :
  In r rels ->
  rel_start r = Some fid ->
  label_selected labels r = true ->
  undecodable r = true ->
  exists e,
    incoming_edges_loop self entity labels
      (map (fun r => mkEdgeRow (Some r) (rel_start r) None) rels) = Raise e.
Proof.
  intros Hin Hstart Hsel Hun. induction rels as [|r0 rest IH]; [destruct Hin|].
  cbn [map incoming_edges_loop row_r row_fid].
  destruct Hin as [->|Hin].
  - rewrite Hsel, Hstart. cbn [negb].
    destruct (find_entity_by_id self fid) as [source|e]; [|eexists; reflexivity].
    cbn [bind]. destruct (undecodable_raises r Hun) as [e He]. rewrite He.
    eexists. reflexivity.
  - destruct (IH Hin) as [e He]. rewrite He.
    destruct (negb (label_selected labels r0)); [eexists; reflexivity|].
    destruct (rel_start r0) as [fid0|]; [|eexists; reflexivity].
    destruct (find_entity_by_id self fid0) as [source|e0]; [|eexists; reflexivity].
    cbn [bind].
    destruct (_relationship_to_edge r0 source entity) as [edge|e0]; eexists; reflexivity.
Qed.

(** X15.  A relationship that cannot be decoded (it lacks [edge_id],
    [created_at], [updated_at] or [etype]) is passed over by
    [outgoing_edges], which returns whenever the targets of the
    relationships of the store are stored entities, and returns decodable
    relationships only; [incoming_edges] raises as soon as one such
    relationship comes in to the entity and passes its filters. *)
Theorem outgoing_skips_what_incoming_raises_on :
  (forall (self : NeoRepository) (entity : Entity) (since : option datetime)
          (labels : list string),
      (forall r tid, In r (relationships (db self)) -> rel_end r = Some tid ->
                     existsb (is_entity_node tid) (entities (db self)) = true) ->
      exists results,
        outgoing_edges self entity since labels = Ok results
        /\ Forall (fun edge => exists r, In r (relationships (db self))
                                         /\ undecodable r = false
                                         /\ rel_props r = Edge_to_dict edge) results)
  /\ (forall (self : NeoRepository) (entity : Entity) (id : string)
             (since : option datetime) (labels : list string) (r : Relationship)
             (fid : string),
         entity_id entity = Some id ->
         In r (relationships (db self)) ->
         rel_start r = Some fid ->
         rel_end r = Some id ->
         since_ok since (ep_updated_at (rel_props r)) = true ->
         label_selected labels r = true ->
         undecodable r = true ->
         exists e, incoming_edges self entity since labels = Raise e).
Proof.
  split.
  - intros self entity since labels Hends. unfold outgoing_edges, match_outgoing.
    destruct (entity_id entity) as [id|].
    + cbn [execute_query unpack_records bind].
      destruct (outgoing_edges_loop_returns self entity labels
                  (filter (fun r => opt_string_eqb (rel_start r) (Some id)
                                    && since_ok since (ep_updated_at (rel_props r)))
                     (relationships (db self)))) as [results [Hloop Hall]].
      { intros r tid Hin. apply filter_In in Hin. apply Hends, Hin. }
      rewrite Hloop. cbn [bind]. rewrite empty_guard. exists results. split; [reflexivity|].
      eapply Forall_impl; [|exact Hall]. intros edge [r [Hin Hr]]. exists r.
      apply filter_In in Hin. split; [apply Hin|exact Hr].
    + exists []. split; [reflexivity|constructor].
  - intros self entity id since labels r fid Hid Hin Hstart Hend Hsince Hsel Hun.
    unfold incoming_edges, match_incoming. rewrite Hid.
    cbn [execute_query unpack_records bind].
    destruct (incoming_edges_loop_raises self entity labels
                (filter (fun r => opt_string_eqb (rel_end r) (Some id)
                                  && since_ok since (ep_updated_at (rel_props r)))
                   (relationships (db self))) r fid) as [e He]; try assumption.
    + apply filter_In. split; [exact Hin|]. rewrite Hend, eqb_some_refl, Hsince. reflexivity.
    + rewrite He. exists e. reflexivity.
Qed.

Lemma node_to_entity_tag_entities (self s : NeoRepository) (node : TagNode) :
  entities (db s) = entities (db self) ->
  _node_to_entity_tag s node = _node_to_entity_tag self node.
Proof.
  intros Hsame. unfold _node_to_entity_tag.
  destruct (tp_tag_id (tn_props node)); [|reflexivity].
  destruct (tp_owner_id (tn_props node)) as [owner|]; [|reflexivity].
  cbn [require bind]. rewrite (find_entity_by_id_entities self s owner Hsame). reflexivity.
Qed.

Lemma entity_tags_of_records_entities (self s : NeoRepository) (records : list TagRow) :
  entities (db s) = entities (db self) ->
  entity_tags_of_records s records = entity_tags_of_records self records.
Proof.
  intros Hsame. induction records as [|record rest IH]; simpl; [reflexivity|].
  destruct (row_p record) as [node|]; [|exact IH].
  rewrite (node_to_entity_tag_entities self s node Hsame), IH. reflexivity.
Qed.

Lemma find_edge_by_id_same (self s : NeoRepository) (id : string) :
  entities (db s) = entities (db self) ->
  relationships (db s) = relationships (db self) ->
  find_edge_by_id s id = find_edge_by_id self id.
Proof.
  intros Hents Hrels. unfold find_edge_by_id, match_edge_by_id. rewrite Hrels.
  destruct (execute_query _ Result_single) as [|row|rows]; try reflexivity.
  cbn [is_None get_required py_get bind].
  destruct (row_r row) as [r|]; [|reflexivity]. cbn [require bind].
  destruct (row_fid row) as [fid|]; [|reflexivity]. cbn [require bind].
  rewrite (find_entity_by_id_entities self s fid Hents).
  destruct (find_entity_by_id self fid); [|reflexivity]. cbn [bind].
  destruct (row_tid row) as [tid|]; [|reflexivity]. cbn [require bind].
  rewrite (find_entity_by_id_entities self s tid Hents). reflexivity.
Qed.

Lemma node_to_edge_tag_same (self s : NeoRepository) (node : TagNode) :
  entities (db s) = entities (db self) ->
  relationships (db s) = relationships (db self) ->
  _node_to_edge_tag s node = _node_to_edge_tag self node.
Proof.
  intros Hents Hrels. unfold _node_to_edge_tag.
  destruct (tp_tag_id (tn_props node)); [|reflexivity].
  destruct (tp_owner_id (tn_props node)) as [owner|]; [|reflexivity].
  cbn [require bind]. rewrite (find_edge_by_id_same self s owner Hents Hrels). reflexivity.
Qed.

Lemma edge_tags_of_records_same (self s : NeoRepository) (records : list TagRow) :
  entities (db s) = entities (db self) ->
  relationships (db s) = relationships (db self) ->
  edge_tags_of_records s records = edge_tags_of_records self records.
Proof.
  intros Hents Hrels. induction records as [|record rest IH]; simpl; [reflexivity|].
  destruct (row_p record) as [node|]; [|exact IH].
  rewrite (node_to_edge_tag_same self s node Hents Hrels), IH. reflexivity.
Qed.

Lemma entity_tags_of_records_app (self : NeoRepository) (a b : list TagRow)
  (ta : list EntityTag) :
  entity_tags_of_records self a = Ok ta ->
  entity_tags_of_records self (a ++ b)
  = (tb <- entity_tags_of_records self b ;; Ok (ta ++ tb)).
Proof.
  revert ta. induction a as [|record rest IH]; simpl; intros ta Ha.
  - inversion Ha; subst. simpl. symmetry. apply bind_Ok.
  - destruct (row_p record) as [node|]; [|apply IH, Ha].
    destruct (_node_to_entity_tag self node) as [tag|]; simpl in *; [|discriminate].
    destruct (entity_tags_of_records self rest) as [tags|]; simpl in Ha; [|discriminate].
    inversion Ha; subst. rewrite (IH tags eq_refl).
    destruct (entity_tags_of_records self b); reflexivity.
Qed.

Lemma edge_tags_of_records_app (self : NeoRepository) (a b : list TagRow)
  (ta : list EdgeTag) :
  edge_tags_of_records self a = Ok ta ->
  edge_tags_of_records self (a ++ b)
  = (tb <- edge_tags_of_records self b ;; Ok (ta ++ tb)).
Proof.
  revert ta. induction a as [|record rest IH]; simpl; intros ta Ha.
  - inversion Ha; subst. simpl. symmetry. apply bind_Ok.
  - destruct (row_p record) as [node|]; [|apply IH, Ha].
    destruct (_node_to_edge_tag self node) as [tag|]; simpl in *; [|discriminate].
    destruct (edge_tags_of_records self rest) as [tags|]; simpl in Ha; [|discriminate].
    inversion Ha; subst. rewrite (IH tags eq_refl).
    destruct (edge_tags_of_records self b); reflexivity.
Qed.

(** The states [create_entity_tag] and [create_edge_tag] leave when they insert. *)
Lemma create_entity_tag_insert_state (self : NeoRepository) (tag : EntityTag) (prop : Property) :
  etag_prop tag = Some prop ->
  _find_existing_entity_tag self tag = Ok None ->
  create_entity_tag clock uuid4 self tag
  = (Ok (inserted_entity_tag clock uuid4 self tag prop),
     _emit
       (mkNeoRepository (enforce_taxonomy self) (emit_events self) (_events_buffer self)
          (set_entity_tag_nodes (db self)
             (entity_tag_nodes (db self)
              ++ [mkTagNode (property_type prop)
                    (EntityTag_to_dict (inserted_entity_tag clock uuid4 self tag prop))]))
          (S (S (clock_reads self))) (S (uuids_drawn self)))
       (EntityTagInserted (inserted_entity_tag clock uuid4 self tag prop))).
Proof.
  intros Hprop Hnone. unfold create_entity_tag. rewrite Hprop, Hnone. reflexivity.
Qed.

Lemma create_edge_tag_insert_state (self : NeoRepository) (tag : EdgeTag) (prop : Property) :
  gtag_prop tag = Some prop ->
  _find_existing_edge_tag self tag = Ok None ->
  create_edge_tag clock uuid4 self tag
  = (Ok (inserted_edge_tag clock uuid4 self tag prop),
     _emit
       (mkNeoRepository (enforce_taxonomy self) (emit_events self) (_events_buffer self)
          (set_edge_tag_nodes (db self)
             (edge_tag_nodes (db self)
              ++ [mkTagNode (property_type prop)
                    (EdgeTag_to_dict (inserted_edge_tag clock uuid4 self tag prop))]))
          (S (S (clock_reads self))) (S (uuids_drawn self)))
       (EdgeTagInserted (inserted_edge_tag clock uuid4 self tag prop))).
Proof.
  intros Hprop Hnone. unfold create_edge_tag. rewrite Hprop, Hnone. reflexivity.
Qed.

Lemma emit_counters (self : NeoRepository) (event : Event) :
  uuids_drawn (_emit self event) = uuids_drawn self
  /\ clock_reads (_emit self event) = clock_reads self
  /\ enforce_taxonomy (_emit self event) = enforce_taxonomy self
  /\ emit_events (_emit self event) = emit_events self.
Proof. unfold _emit. destruct (emit_events self) eqn:E; cbn; auto. Qed.

(** X16.  A tag that the content lookup does not find is inserted, whether or
    not its owner is in the store: the call returns the submitted owner and
    property under the next id of the id source, with the next clock reading
    as [created_at] and the one after it as [updated_at]; the store gains
    one node, labelled with the property type, after the nodes of that kind
    it had; entities, relationships and the tags of the other kind are not
    touched, and the log gains the [*Inserted] event. *)
Theorem new_tag_is_appended_to_the_store :
  (forall (self : NeoRepository) (tag : EntityTag) (prop : Property),
      etag_prop tag = Some prop ->
      _find_existing_entity_tag self tag = Ok None ->
      let new_tag := inserted_entity_tag clock uuid4 self tag prop in
      let out := create_entity_tag clock uuid4 self tag in
      fst out = Ok new_tag
      /\ entity_tag_nodes (db (snd out))
         = entity_tag_nodes (db self)
           ++ [mkTagNode (property_type prop) (EntityTag_to_dict new_tag)]
      /\ entities (db (snd out)) = entities (db self)
      /\ relationships (db (snd out)) = relationships (db self)
      /\ edge_tag_nodes (db (snd out)) = edge_tag_nodes (db self)
      /\ uuids_drawn (snd out) = S (uuids_drawn self)
      /\ clock_reads (snd out) = S (S (clock_reads self))
      /\ _events_buffer (snd out)
         = _events_buffer self ++ emitted self (EntityTagInserted new_tag))
  /\ (forall (self : NeoRepository) (tag : EdgeTag) (prop : Property),
         gtag_prop tag = Some prop ->
         _find_existing_edge_tag self tag = Ok None ->
         let new_tag := inserted_edge_tag clock uuid4 self tag prop in
         let out := create_edge_tag clock uuid4 self tag in
         fst out = Ok new_tag
         /\ edge_tag_nodes (db (snd out))
            = edge_tag_nodes (db self)
              ++ [mkTagNode (property_type prop) (EdgeTag_to_dict new_tag)]
         /\ entities (db (snd out)) = entities (db self)
         /\ relationships (db (snd out)) = relationships (db self)
         /\ entity_tag_nodes (db (snd out)) = entity_tag_nodes (db self)
         /\ uuids_drawn (snd out) = S (uuids_drawn self)
         /\ clock_reads (snd out) = S (S (clock_reads self))
         /\ _events_buffer (snd out)
            = _events_buffer self ++ emitted self (EdgeTagInserted new_tag)).
Proof.
  split.
  - intros self tag prop Hprop Hnone new_tag out. subst new_tag out.
    rewrite (create_entity_tag_insert_state self tag prop Hprop Hnone). cbn [fst snd].
    rewrite emit_db, emit_buffer.
    destruct (emit_counters
                (mkNeoRepository (enforce_taxonomy self) (emit_events self) (_events_buffer self)
                   (set_entity_tag_nodes (db self)
                      (entity_tag_nodes (db self)
                       ++ [mkTagNode (property_type prop)
                             (EntityTag_to_dict (inserted_entity_tag clock uuid4 self tag prop))]))
                   (S (S (clock_reads self))) (S (uuids_drawn self)))
                (EntityTagInserted (inserted_entity_tag clock uuid4 self tag prop)))
      as [-> [-> _]].
    repeat split.
  - intros self tag prop Hprop Hnone new_tag out. subst new_tag out.
    rewrite (create_edge_tag_insert_state self tag prop Hprop Hnone). cbn [fst snd].
    rewrite emit_db, emit_buffer.
    destruct (emit_counters
                (mkNeoRepository (enforce_taxonomy self) (emit_events self) (_events_buffer self)
                   (set_edge_tag_nodes (db self)
                      (edge_tag_nodes (db self)
                       ++ [mkTagNode (property_type prop)
                             (EdgeTag_to_dict (inserted_edge_tag clock uuid4 self tag prop))]))
                   (S (S (clock_reads self))) (S (uuids_drawn self)))
                (EdgeTagInserted (inserted_edge_tag clock uuid4 self tag prop)))
      as [-> [-> _]].
    repeat split.
Qed.

Lemma content_filter_app (nodes : list TagNode) (node : TagNode) (prop : Property) :
  tn_label node = property_type prop ->
  tp_prop (tn_props node) = Some prop ->
  prop_fields_match prop prop = true ->
  match_tags_by_content (nodes ++ [node]) prop None
  = match_tags_by_content nodes prop None ++ [mkTagRow (Some node)].
Proof.
  intros Hlabel Hprop Hmatch. unfold match_tags_by_content.
  rewrite filter_app, map_app. cbn [filter].
  rewrite Hlabel, String.eqb_refl, Hprop, Hmatch. reflexivity.
Qed.

Lemma entity_content_lookup_clean (self : NeoRepository) (prop : Property) :
  find_entity_tags_by_content self prop None = Ok [] ->
  entity_tags_of_records self (match_tags_by_content (entity_tag_nodes (db self)) prop None)
  = Ok [].
Proof.
  unfold find_entity_tags_by_content. cbn [execute_query unpack_records bind].
  destruct (entity_tags_of_records self _) as [tags|]; cbn [bind]; [|discriminate].
  rewrite empty_guard. intros H. exact H.
Qed.

Lemma edge_content_lookup_clean (self : NeoRepository) (prop : Property) :
  find_edge_tags_by_content self prop None = Ok [] ->
  edge_tags_of_records self (match_tags_by_content (edge_tag_nodes (db self)) prop None)
  = Ok [].
Proof.
  unfold find_edge_tags_by_content. cbn [execute_query unpack_records bind].
  destruct (edge_tags_of_records self _) as [tags|]; cbn [bind]; [|discriminate].
  rewrite empty_guard. intros H. exact H.
Qed.

(** The content lookup after an insert: what it found before, then the
    decoding of the new node. *)
Lemma entity_content_lookup_after_insert (self s : NeoRepository) (prop : Property)
  (node : TagNode) :
  find_entity_tags_by_content self prop None = Ok [] ->
  entities (db s) = entities (db self) ->
  entity_tag_nodes (db s) = entity_tag_nodes (db self) ++ [node] ->
  tn_label node = property_type prop ->
  tp_prop (tn_props node) = Some prop ->
  prop_fields_match prop prop = true ->
  find_entity_tags_by_content s prop None
  = (tag <- _node_to_entity_tag s node ;; Ok [tag]).
Proof.
  intros Hclean Hents Hnodes Hlabel Hprop Hmatch.
  apply entity_content_lookup_clean in Hclean.
  unfold find_entity_tags_by_content. cbn [execute_query unpack_records bind].
  rewrite Hnodes, (content_filter_app _ _ _ Hlabel Hprop Hmatch).
  rewrite (entity_tags_of_records_app s _ _ [])
    by (rewrite (entity_tags_of_records_entities self s _ Hents); exact Hclean).
  cbn [entity_tags_of_records row_p app].
  destruct (_node_to_entity_tag s node); reflexivity.
Qed.

Lemma edge_content_lookup_after_insert (self s : NeoRepository) (prop : Property)
  (node : TagNode) :
  find_edge_tags_by_content self prop None = Ok [] ->
  entities (db s) = entities (db self) ->
  relationships (db s) = relationships (db self) ->
  edge_tag_nodes (db s) = edge_tag_nodes (db self) ++ [node] ->
  tn_label node = property_type prop ->
  tp_prop (tn_props node) = Some prop ->
  prop_fields_match prop prop = true ->
  find_edge_tags_by_content s prop None
  = (tag <- _node_to_edge_tag s node ;; Ok [tag]).
Proof.
  intros Hclean Hents Hrels Hnodes Hlabel Hprop Hmatch.
  apply edge_content_lookup_clean in Hclean.
  unfold find_edge_tags_by_content. cbn [execute_query unpack_records bind].
  rewrite Hnodes, (content_filter_app _ _ _ Hlabel Hprop Hmatch).
  rewrite (edge_tags_of_records_app s _ _ [])
    by (rewrite (edge_tags_of_records_same self s _ Hents Hrels); exact Hclean).
  cbn [edge_tags_of_records row_p app].
  destruct (_node_to_edge_tag s node); reflexivity.
Qed.

Lemma find_existing_entity_tag_clean (self : NeoRepository) (tag : EntityTag) (prop : Property) :
  explicit_id (etag_id tag) = None ->
  etag_prop tag = Some prop ->
  find_entity_tags_by_content self prop None = Ok [] ->
  _find_existing_entity_tag self tag = Ok None.
Proof.
  intros Hid Hprop Hclean. unfold _find_existing_entity_tag.
  rewrite Hid, Hprop, Hclean. reflexivity.
Qed.

Lemma find_existing_edge_tag_clean (self : NeoRepository) (tag : EdgeTag) (prop : Property) :
  explicit_id (gtag_id tag) = None ->
  gtag_prop tag = Some prop ->
  find_edge_tags_by_content self prop None = Ok [] ->
  _find_existing_edge_tag self tag = Ok None.
Proof.
  intros Hid Hprop Hclean. unfold _find_existing_edge_tag.
  rewrite Hid, Hprop, Hclean. reflexivity.
Qed.

(** X17.  Submitting the same tag twice: when the content lookup of the first
    call found nothing and the owner of the tag is in the store, the first
    call inserts and the second finds what the first wrote: it returns the
    tag of the first call under the same id and timestamps (its owner is the
    stored record of the owner id), writes nothing, draws no id, reads no
    clock and logs the [*Untouched] event. *)
Theorem tag_resubmission_reuses_the_inserted_tag :
  (forall (self : NeoRepository) (tag : EntityTag) (prop : Property) (owner : Entity),
      explicit_id (etag_id tag) = None ->
      etag_prop tag = Some prop ->
      find_entity_tags_by_content self prop None = Ok [] ->
      find_entity_by_id self (py_str (entity_id (etag_entity tag))) = Ok owner ->
      prop_fields_match prop prop = true ->
      prop_is_fresher_than prop prop = false ->
      let first := create_entity_tag clock uuid4 self tag in
      let second := create_entity_tag clock uuid4 (snd first) tag in
      let stored :=
        mkEntityTag (Some (uuid4 (uuids_drawn self)))
          (Some (clock (clock_reads self))) (Some (clock (S (clock_reads self))))
          owner (Some prop) in
      fst first = Ok (inserted_entity_tag clock uuid4 self tag prop)
      /\ fst second = Ok stored
      /\ same_store (snd first) (snd second)
      /\ _events_buffer (snd second)
         = _events_buffer (snd first) ++ emitted self (EntityTagUntouched stored))
  /\ (forall (self : NeoRepository) (tag : EdgeTag) (prop : Property) (owner : Edge),
         explicit_id (gtag_id tag) = None ->
         gtag_prop tag = Some prop ->
         find_edge_tags_by_content self prop None = Ok [] ->
         find_edge_by_id self (py_str (edge_id (gtag_edge tag))) = Ok owner ->
         prop_fields_match prop prop = true ->
         prop_is_fresher_than prop prop = false ->
         let first := create_edge_tag clock uuid4 self tag in
         let second := create_edge_tag clock uuid4 (snd first) tag in
         let stored :=
           mkEdgeTag (Some (uuid4 (uuids_drawn self)))
             (Some (clock (clock_reads self))) (Some (clock (S (clock_reads self))))
             owner (Some prop) in
         fst first = Ok (inserted_edge_tag clock uuid4 self tag prop)
         /\ fst second = Ok stored
         /\ same_store (snd first) (snd second)
         /\ _events_buffer (snd second)
            = _events_buffer (snd first) ++ emitted self (EdgeTagUntouched stored)).
Proof.
  split.
  - intros self tag prop owner Hid Hprop Hclean Howner Hmatch Hstale first second stored.
    pose proof (find_existing_entity_tag_clean self tag prop Hid Hprop Hclean) as Hnone.
    subst first second. rewrite (create_entity_tag_insert_state self tag prop Hprop Hnone).
    cbn [fst snd]. split; [reflexivity|].
    set (s1 := _emit _ (EntityTagInserted _)).
    assert (Hents : entities (db s1) = entities (db self))
      by (unfold s1; rewrite emit_db; reflexivity).
    assert (Hemit : emit_events s1 = emit_events self)
      by (unfold s1, _emit; cbn [emit_events]; destruct (emit_events self); reflexivity).
    assert (Hfound : _find_existing_entity_tag s1 tag = Ok (Some stored)).
    { unfold _find_existing_entity_tag. rewrite Hid, Hprop.
      rewrite (entity_content_lookup_after_insert self s1 prop
                 (mkTagNode (property_type prop)
                    (EntityTag_to_dict (inserted_entity_tag clock uuid4 self tag prop)))
                 Hclean Hents); try reflexivity; try assumption.
      - unfold _node_to_entity_tag.
        cbn [tn_props EntityTag_to_dict inserted_entity_tag tp_tag_id tp_owner_id
             tp_created_at tp_updated_at tp_prop etag_id etag_entity etag_created_at
             etag_updated_at etag_prop require bind py_str].
        rewrite (find_entity_by_id_entities self s1 _ Hents), Howner. reflexivity.
      - unfold s1. rewrite emit_db. reflexivity. }
    rewrite (create_entity_tag_untouched clock uuid4 s1 tag stored prop prop Hprop Hfound
               eq_refl Hstale).
    cbn [fst snd]. split; [reflexivity|]. split; [apply emit_same_store|].
    rewrite emit_buffer. unfold emitted. rewrite Hemit. reflexivity.
  - intros self tag prop owner Hid Hprop Hclean Howner Hmatch Hstale first second stored.
    pose proof (find_existing_edge_tag_clean self tag prop Hid Hprop Hclean) as Hnone.
    subst first second. rewrite (create_edge_tag_insert_state self tag prop Hprop Hnone).
    cbn [fst snd]. split; [reflexivity|].
    set (s1 := _emit _ (EdgeTagInserted _)).
    assert (Hents : entities (db s1) = entities (db self))
      by (unfold s1; rewrite emit_db; reflexivity).
    assert (Hrels : relationships (db s1) = relationships (db self))
      by (unfold s1; rewrite emit_db; reflexivity).
    assert (Hemit : emit_events s1 = emit_events self)
      by (unfold s1, _emit; cbn [emit_events]; destruct (emit_events self); reflexivity).
    assert (Hfound : _find_existing_edge_tag s1 tag = Ok (Some stored)).
    { unfold _find_existing_edge_tag. rewrite Hid, Hprop.
      rewrite (edge_content_lookup_after_insert self s1 prop
                 (mkTagNode (property_type prop)
                    (EdgeTag_to_dict (inserted_edge_tag clock uuid4 self tag prop)))
                 Hclean Hents Hrels); try reflexivity; try assumption.
      - unfold _node_to_edge_tag.
        cbn [tn_props EdgeTag_to_dict inserted_edge_tag tp_tag_id tp_owner_id
             tp_created_at tp_updated_at tp_prop gtag_id gtag_edge gtag_created_at
             gtag_updated_at gtag_prop require bind py_str].
        rewrite (find_edge_by_id_same self s1 _ Hents Hrels), Howner. reflexivity.
      - unfold s1. rewrite emit_db. reflexivity. }
    rewrite (create_edge_tag_untouched clock uuid4 s1 tag stored prop prop Hprop Hfound
               eq_refl Hstale).
    cbn [fst snd]. split; [reflexivity|]. split; [apply emit_same_store|].
    rewrite emit_buffer. unfold emitted. rewrite Hemit. reflexivity.
Qed.

(** X18.  The tag upserts do not check the owner, and a tag whose owner
    cannot be resolved blocks its own content: when the content lookup found
    nothing and the owner of the submitted tag is not in the store, the tag
    is inserted all the same; from then on the content lookup of that
    property raises the error of the owner lookup, and so does every further
    upsert of a tag without id that carries the property, for whatever
    owner. *)
Theorem tag_of_an_unresolved_owner_blocks_its_content :
  (forall (self : NeoRepository) (tag : EntityTag) (prop : Property) (e : exn),
      explicit_id (etag_id tag) = None ->
      etag_prop tag = Some prop ->
      find_entity_tags_by_content self prop None = Ok [] ->
      find_entity_by_id self (py_str (entity_id (etag_entity tag))) = Raise e ->
      prop_fields_match prop prop = true ->
      let out := create_entity_tag clock uuid4 self tag in
      fst out = Ok (inserted_entity_tag clock uuid4 self tag prop)
      /\ find_entity_tags_by_content (snd out) prop None = Raise e
      /\ forall tag' : EntityTag,
          explicit_id (etag_id tag') = None ->
          etag_prop tag' = Some prop ->
          create_entity_tag clock uuid4 (snd out) tag' = (Raise e, snd out))
  /\ (forall (self : NeoRepository) (tag : EdgeTag) (prop : Property) (e : exn),
         explicit_id (gtag_id tag) = None ->
         gtag_prop tag = Some prop ->
         find_edge_tags_by_content self prop None = Ok [] ->
         find_edge_by_id self (py_str (edge_id (gtag_edge tag))) = Raise e ->
         prop_fields_match prop prop = true ->
         let out := create_edge_tag clock uuid4 self tag in
         fst out = Ok (inserted_edge_tag clock uuid4 self tag prop)
         /\ find_edge_tags_by_content (snd out) prop None = Raise e
         /\ forall tag' : EdgeTag,
             explicit_id (gtag_id tag') = None ->
             gtag_prop tag' = Some prop ->
             create_edge_tag clock uuid4 (snd out) tag' = (Raise e, snd out)).
Proof.
  split.
  - intros self tag prop e Hid Hprop Hclean Howner Hmatch out.
    pose proof (find_existing_entity_tag_clean self tag prop Hid Hprop Hclean) as Hnone.
    subst out. rewrite (create_entity_tag_insert_state self tag prop Hprop Hnone).
    cbn [fst snd]. split; [reflexivity|].
    set (s1 := _emit _ (EntityTagInserted _)).
    assert (Hents : entities (db s1) = entities (db self))
      by (unfold s1; rewrite emit_db; reflexivity).
    assert (Hlookup : find_entity_tags_by_content s1 prop None = Raise e).
    { rewrite (entity_content_lookup_after_insert self s1 prop
                 (mkTagNode (property_type prop)
                    (EntityTag_to_dict (inserted_entity_tag clock uuid4 self tag prop)))
                 Hclean Hents); try reflexivity; try assumption.
      - unfold _node_to_entity_tag.
        cbn [tn_props EntityTag_to_dict inserted_entity_tag tp_tag_id tp_owner_id
             etag_id etag_entity require bind py_str].
        rewrite (find_entity_by_id_entities self s1 _ Hents), Howner. reflexivity.
      - unfold s1. rewrite emit_db. reflexivity. }
    split; [exact Hlookup|].
    intros tag' Hid' Hprop'. unfold create_entity_tag, _find_existing_entity_tag.
    rewrite Hprop', Hid', Hlookup. reflexivity.
  - intros self tag prop e Hid Hprop Hclean Howner Hmatch out.
    pose proof (find_existing_edge_tag_clean self tag prop Hid Hprop Hclean) as Hnone.
    subst out. rewrite (create_edge_tag_insert_state self tag prop Hprop Hnone).
    cbn [fst snd]. split; [reflexivity|].
    set (s1 := _emit _ (EdgeTagInserted _)).
    assert (Hents : entities (db s1) = entities (db self))
      by (unfold s1; rewrite emit_db; reflexivity).
    assert (Hrels : relationships (db s1) = relationships (db self))
      by (unfold s1; rewrite emit_db; reflexivity).
    assert (Hlookup : find_edge_tags_by_content s1 prop None = Raise e).
    { rewrite (edge_content_lookup_after_insert self s1 prop
                 (mkTagNode (property_type prop)
                    (EdgeTag_to_dict (inserted_edge_tag clock uuid4 self tag prop)))
                 Hclean Hents Hrels); try reflexivity; try assumption.
      - unfold _node_to_edge_tag.
        cbn [tn_props EdgeTag_to_dict inserted_edge_tag tp_tag_id tp_owner_id
             gtag_id gtag_edge require bind py_str].
        rewrite (find_edge_by_id_same self s1 _ Hents Hrels), Howner. reflexivity.
      - unfold s1. rewrite emit_db. reflexivity. }
    split; [exact Hlookup|].
    intros tag' Hid' Hprop'. unfold create_edge_tag, _find_existing_edge_tag.
    rewrite Hprop', Hid', Hlookup. reflexivity.
Qed.

Lemma node_to_entity_tag_owner (self : NeoRepository) (node : TagNode) (tag : EntityTag) :
  _node_to_entity_tag self node = Ok tag ->
  find_entity_by_id self (py_str (entity_id (etag_entity tag))) = Ok (etag_entity tag).
Proof.
  unfold _node_to_entity_tag. intros H.
  destruct (tp_tag_id (tn_props node)); [|discriminate].
  destruct (tp_owner_id (tn_props node)) as [owner|]; [|discriminate].
  cbn [require bind] in H.
  destruct (find_entity_by_id self owner) as [entity|] eqn:Eowner; [|discriminate].
  cbn [bind] in H.
  destruct (tp_created_at (tn_props node)); [|discriminate].
  destruct (tp_updated_at (tn_props node)); [|discriminate].
  destruct (tp_prop (tn_props node)); [|discriminate].
  inversion H; subst. cbn [etag_entity].
  rewrite (find_entity_by_id_id _ _ _ Eowner). exact Eowner.
Qed.

Lemma node_to_edge_tag_owner (self : NeoRepository) (node : TagNode) (tag : EdgeTag) :
  _node_to_edge_tag self node = Ok tag ->
  find_edge_by_id self (py_str (edge_id (gtag_edge tag))) = Ok (gtag_edge tag).
Proof.
  unfold _node_to_edge_tag. intros H.
  destruct (tp_tag_id (tn_props node)); [|discriminate].
  destruct (tp_owner_id (tn_props node)) as [owner|]; [|discriminate].
  cbn [require bind] in H.
  destruct (find_edge_by_id self owner) as [edge|] eqn:Eowner; [|discriminate].
  cbn [bind] in H.
  destruct (tp_created_at (tn_props node)); [|discriminate].
  destruct (tp_updated_at (tn_props node)); [|discriminate].
  destruct (tp_prop (tn_props node)); [|discriminate].
  inversion H; subst. cbn [gtag_edge].
  rewrite (find_edge_by_id_id _ _ _ Eowner). exact Eowner.
Qed.

Lemma entity_tags_of_records_sound (self : NeoRepository) (P : TagNode -> Prop)
  (nodes : list TagNode) (tags : list EntityTag) :
  (forall n, In n nodes -> P n) ->
  entity_tags_of_records self (map (fun n => mkTagRow (Some n)) nodes) = Ok tags ->
  map EntityTag_to_dict tags = map tn_props nodes
  /\ Forall (fun tag =>
               find_entity_by_id self (py_str (entity_id (etag_entity tag)))
               = Ok (etag_entity tag)
               /\ exists n, P n /\ tn_props n = EntityTag_to_dict tag) tags.
Proof.
  revert tags. induction nodes as [|n rest IH]; simpl; intros tags HP H.
  - inversion H. split; [reflexivity|constructor].
  - destruct (_node_to_entity_tag self n) as [tag|] eqn:Etag; [|discriminate].
    cbn [bind] in H.
    destruct (entity_tags_of_records self _) as [others|] eqn:Eothers; [|discriminate].
    cbn [bind] in H. inversion H; subst.
    destruct (IH others (fun n' Hin => HP n' (or_intror Hin)) eq_refl) as [Hmap Hall].
    split.
    + cbn [map]. rewrite Hmap, (node_to_entity_tag_props _ _ _ Etag). reflexivity.
    + constructor; [|exact Hall]. split; [apply (node_to_entity_tag_owner _ _ _ Etag)|].
      exists n. split; [apply HP; left; reflexivity|apply (node_to_entity_tag_props _ _ _ Etag)].
Qed.

Lemma edge_tags_of_records_sound (self : NeoRepository) (P : TagNode -> Prop)
  (nodes : list TagNode) (tags : list EdgeTag) :
  (forall n, In n nodes -> P n) ->
  edge_tags_of_records self (map (fun n => mkTagRow (Some n)) nodes) = Ok tags ->
  map EdgeTag_to_dict tags = map tn_props nodes
  /\ Forall (fun tag =>
               find_edge_by_id self (py_str (edge_id (gtag_edge tag))) = Ok (gtag_edge tag)
               /\ exists n, P n /\ tn_props n = EdgeTag_to_dict tag) tags.
Proof.
  revert tags. induction nodes as [|n rest IH]; simpl; intros tags HP H.
  - inversion H. split; [reflexivity|constructor].
  - destruct (_node_to_edge_tag self n) as [tag|] eqn:Etag; [|discriminate].
    cbn [bind] in H.
    destruct (edge_tags_of_records self _) as [others|] eqn:Eothers; [|discriminate].
    cbn [bind] in H. inversion H; subst.
    destruct (IH others (fun n' Hin => HP n' (or_intror Hin)) eq_refl) as [Hmap Hall].
    split.
    + cbn [map]. rewrite Hmap, (node_to_edge_tag_props _ _ _ Etag). reflexivity.
    + constructor; [|exact Hall]. split; [apply (node_to_edge_tag_owner _ _ _ Etag)|].
      exists n. split; [apply HP; left; reflexivity|apply (node_to_edge_tag_props _ _ _ Etag)].
Qed.

(** X19.  What the content lookups return: when
    [find_entity_tags_by_content(prop, since)] returns, it returns one tag
    for every node of the property type whose stored property has the fields
    of [prop] (and that was updated at or after [since]), in the order of the
    store, each with exactly the property map of its node and with the stored
    record of the owner id as its owner; [find_edge_tags_by_content] does the
    same for edge tags. *)
Theorem content_lookups_return_the_matching_nodes :
  (forall (self : NeoRepository) (prop : Property) (since : option datetime)
          (tags : list EntityTag),
      find_entity_tags_by_content self prop since = Ok tags ->
      map (fun tag => Some (EntityTag_to_dict tag)) tags
      = map (fun record => option_map tn_props (row_p record))
          (match_tags_by_content (entity_tag_nodes (db self)) prop since)
      /\ Forall (fun tag =>
                   find_entity_by_id self (py_str (entity_id (etag_entity tag)))
                   = Ok (etag_entity tag)
                   /\ since_ok since (etag_updated_at tag) = true
                   /\ (exists stored, etag_prop tag = Some stored
                                      /\ prop_fields_match prop stored = true)
                   /\ exists node, entity_tag_stored_as (db self) tag node
                                   /\ tn_label node = property_type prop) tags)
  /\ (forall (self : NeoRepository) (prop : Property) (since : option datetime)
             (tags : list EdgeTag),
         find_edge_tags_by_content self prop since = Ok tags ->
         map (fun tag => Some (EdgeTag_to_dict tag)) tags
         = map (fun record => option_map tn_props (row_p record))
             (match_tags_by_content (edge_tag_nodes (db self)) prop since)
         /\ Forall (fun tag =>
                      find_edge_by_id self (py_str (edge_id (gtag_edge tag)))
                      = Ok (gtag_edge tag)
                      /\ since_ok since (gtag_updated_at tag) = true
                      /\ (exists stored, gtag_prop tag = Some stored
                                         /\ prop_fields_match prop stored = true)
                      /\ exists node, edge_tag_stored_as (db self) tag node
                                      /\ tn_label node = property_type prop) tags).
Proof.
  split.
  - intros self prop since tags H. unfold find_entity_tags_by_content in H.
    cbn [execute_query unpack_records bind] in H. unfold match_tags_by_content in *.
    destruct (entity_tags_of_records self _) as [found|] eqn:Efound; [|discriminate].
    cbn [bind] in H. rewrite empty_guard in H. inversion H; subst found.
    match type of Efound with
    | entity_tags_of_records _ (map _ ?nodes) = _ =>
        destruct (entity_tags_of_records_sound self
                    (fun n => In n (entity_tag_nodes (db self))
                              /\ tn_label n = property_type prop
                              /\ (exists stored, tp_prop (tn_props n) = Some stored
                                                 /\ prop_fields_match prop stored = true)
                              /\ since_ok since (tp_updated_at (tn_props n)) = true)
                    nodes tags) as [Hmap Hall]; [|exact Efound|]
    end.
    { intros n Hin. apply filter_In in Hin. destruct Hin as [Hin Hf].
      apply andb_prop in Hf. destruct Hf as [Hf Hsince].
      apply andb_prop in Hf. destruct Hf as [Hlabel Hmatch].
      apply String.eqb_eq in Hlabel.
      destruct (tp_prop (tn_props n)) as [stored|]; [|discriminate]. eauto 8. }
    split.
    + rewrite map_map. cbn [row_p option_map].
      rewrite <- (map_map tn_props Some), <- Hmap, map_map. reflexivity.
    + eapply Forall_impl; [|exact Hall].
      intros tag [Howner [n [[Hin [Hlabel [[stored [Hstored Hmatch]] Hsince]]] Hprops]]].
      rewrite Hprops in Hstored, Hsince. cbn [EntityTag_to_dict tp_prop tp_updated_at] in *.
      split; [exact Howner|]. split; [exact Hsince|]. split; [eauto|].
      exists n. split; [split; assumption|exact Hlabel].
  - intros self prop since tags H. unfold find_edge_tags_by_content in H.
    cbn [execute_query unpack_records bind] in H. unfold match_tags_by_content in *.
    destruct (edge_tags_of_records self _) as [found|] eqn:Efound; [|discriminate].
    cbn [bind] in H. rewrite empty_guard in H. inversion H; subst found.
    match type of Efound with
    | edge_tags_of_records _ (map _ ?nodes) = _ =>
        destruct (edge_tags_of_records_sound self
                    (fun n => In n (edge_tag_nodes (db self))
                              /\ tn_label n = property_type prop
                              /\ (exists stored, tp_prop (tn_props n) = Some stored
                                                 /\ prop_fields_match prop stored = true)
                              /\ since_ok since (tp_updated_at (tn_props n)) = true)
                    nodes tags) as [Hmap Hall]; [|exact Efound|]
    end.
    { intros n Hin. apply filter_In in Hin. destruct Hin as [Hin Hf].
      apply andb_prop in Hf. destruct Hf as [Hf Hsince].
      apply andb_prop in Hf. destruct Hf as [Hlabel Hmatch].
      apply String.eqb_eq in Hlabel.
      destruct (tp_prop (tn_props n)) as [stored|]; [|discriminate]. eauto 8. }
    split.
    + rewrite map_map. cbn [row_p option_map].
      rewrite <- (map_map tn_props Some), <- Hmap, map_map. reflexivity.
    + eapply Forall_impl; [|exact Hall].
      intros tag [Howner [n [[Hin [Hlabel [[stored [Hstored Hmatch]] Hsince]]] Hprops]]].
      rewrite Hprops in Hstored, Hsince. cbn [EdgeTag_to_dict tp_prop tp_updated_at] in *.
      split; [exact Howner|]. split; [exact Hsince|]. split; [eauto|].
      exists n. split; [split; assumption|exact Hlabel].
Qed.

Lemma name_filter_passed (names : list string) (name : string) :
  (0 <? length names)%nat && negb (existsb (fun n => (n =? name)%string) names) = false ->
  names <> [] -> In name names.
Proof.
  intros H Hnames. destruct names as [|n rest]; [congruence|].
  cbn [length Nat.ltb Nat.leb andb] in H. apply negb_false_iff in H.
  apply existsb_exists in H. destruct H as [x [Hin Hx]].
  apply String.eqb_eq in Hx. subst x. exact Hin.
Qed.

Lemma find_entity_tags_loop_sound (self : NeoRepository) (names : list string)
  (owner : string) (since : option datetime) (nodes : list TagNode) (tags : list EntityTag) :
  (forall n, In n nodes ->
             In n (entity_tag_nodes (db self)) /\ tp_owner_id (tn_props n) = Some owner
             /\ since_ok since (tp_updated_at (tn_props n)) = true) ->
  find_entity_tags_loop self names (map (fun n => mkTagRow (Some n)) nodes) = Ok tags ->
  Forall (fun tag =>
            entity_id (etag_entity tag) = Some owner
            /\ since_ok since (etag_updated_at tag) = true
            /\ (exists node, entity_tag_stored_as (db self) tag node)
            /\ (names <> [] -> exists p, etag_prop tag = Some p /\ In (prop_name p) names))
    tags.
Proof.
  revert tags. induction nodes as [|n rest IH]; simpl; intros tags HP H.
  - inversion H. constructor.
  - assert (Hrest : forall n', In n' rest ->
                               In n' (entity_tag_nodes (db self))
                               /\ tp_owner_id (tn_props n') = Some owner
                               /\ since_ok since (tp_updated_at (tn_props n')) = true)
      by (intros n' Hin; apply HP; right; exact Hin).
    destruct (_node_to_entity_tag self n) as [tag|] eqn:Etag; [|discriminate].
    cbn [bind] in H.
    destruct (etag_prop tag) as [p|] eqn:Eprop; [|discriminate].
    destruct ((0 <? length names)%nat && negb (existsb _ names)) eqn:Efilter;
      [apply IH; assumption|].
    destruct (find_entity_tags_loop self names _) as [others|] eqn:Eothers; [|discriminate].
    cbn [bind] in H. inversion H; subst. constructor; [|apply IH; [assumption|reflexivity]].
    destruct (HP n (or_introl eq_refl)) as [Hin [Howner Hsince]].
    pose proof (node_to_entity_tag_props _ _ _ Etag) as Hprops.
    pose proof (node_to_entity_tag_owner _ _ _ Etag) as Hfound.
    rewrite Hprops in Howner, Hsince. cbn [EntityTag_to_dict tp_owner_id tp_updated_at] in *.
    inversion Howner as [Hid]. rewrite Hid in Hfound.
    split; [rewrite Hid; apply (find_entity_by_id_id _ _ _ Hfound)|].
    split; [exact Hsince|]. split; [exists n; split; assumption|].
    intros Hnames. exists p. split; [exact Eprop|].
    apply (name_filter_passed names (prop_name p) Efilter Hnames).
Qed.

Lemma find_edge_tags_loop_sound (self : NeoRepository) (names : list string)
  (owner : string) (since : option datetime) (nodes : list TagNode) (tags : list EdgeTag) :
  (forall n, In n nodes ->
             In n (edge_tag_nodes (db self)) /\ tp_owner_id (tn_props n) = Some owner
             /\ since_ok since (tp_updated_at (tn_props n)) = true) ->
  find_edge_tags_loop self names (map (fun n => mkTagRow (Some n)) nodes) = Ok tags ->
  Forall (fun tag =>
            edge_id (gtag_edge tag) = Some owner
            /\ since_ok since (gtag_updated_at tag) = true
            /\ (exists node, edge_tag_stored_as (db self) tag node)
            /\ (names <> [] -> exists p, gtag_prop tag = Some p /\ In (prop_name p) names))
    tags.
Proof.
  revert tags. induction nodes as [|n rest IH]; simpl; intros tags HP H.
  - inversion H. constructor.
  - assert (Hrest : forall n', In n' rest ->
                               In n' (edge_tag_nodes (db self))
                               /\ tp_owner_id (tn_props n') = Some owner
                               /\ since_ok since (tp_updated_at (tn_props n')) = true)
      by (intros n' Hin; apply HP; right; exact Hin).
    destruct (_node_to_edge_tag self n) as [tag|] eqn:Etag; [|discriminate].
    cbn [bind] in H.
    destruct (gtag_prop tag) as [p|] eqn:Eprop; [|discriminate].
    destruct ((0 <? length names)%nat && negb (existsb _ names)) eqn:Efilter;
      [apply IH; assumption|].
    destruct (find_edge_tags_loop self names _) as [others|] eqn:Eothers; [|discriminate].
    cbn [bind] in H. inversion H; subst. constructor; [|apply IH; [assumption|reflexivity]].
    destruct (HP n (or_introl eq_refl)) as [Hin [Howner Hsince]].
    pose proof (node_to_edge_tag_props _ _ _ Etag) as Hprops.
    pose proof (node_to_edge_tag_owner _ _ _ Etag) as Hfound.
    rewrite Hprops in Howner, Hsince. cbn [EdgeTag_to_dict tp_owner_id tp_updated_at] in *.
    inversion Howner as [Hid]. rewrite Hid in Hfound.
    split; [rewrite Hid; apply (find_edge_by_id_id _ _ _ Hfound)|].
    split; [exact Hsince|]. split; [exists n; split; assumption|].
    intros Hnames. exists p. split; [exact Eprop|].
    apply (name_filter_passed names (prop_name p) Efilter Hnames).
Qed.

Lemma owner_filter_in (nodes : list TagNode) (owner : string) (since : option datetime)
  (n : TagNode) :
  In n (filter (fun n => opt_string_eqb (tp_owner_id (tn_props n)) (Some owner)
                         && since_ok since (tp_updated_at (tn_props n))) nodes) ->
  In n nodes /\ tp_owner_id (tn_props n) = Some owner
  /\ since_ok since (tp_updated_at (tn_props n)) = true.
Proof.
  intros Hin. apply filter_In in Hin. destruct Hin as [Hin Hf].
  apply andb_prop in Hf. destruct Hf as [Howner Hsince].
  apply opt_string_eqb_some in Howner. auto.
Qed.

(** X20.  What the lookups by owner return: every tag of
    [find_entity_tags(entity, since, *names)] is the decoding of a stored
    node whose owner id is the text of the entity's id, was updated at or
    after [since] and, when names are given, carries a property of one of
    these names; the list is never empty (the function raises instead).
    [find_edge_tags] returns tags of the same description for the edge, and
    may return none. *)
Theorem owner_lookups_return_tags_of_the_owner :
  (forall (self : NeoRepository) (entity : Entity) (since : option datetime)
          (names : list string) (tags : list EntityTag),
      find_entity_tags self entity since names = Ok tags ->
      tags <> []
      /\ Forall (fun tag =>
                   entity_id (etag_entity tag) = Some (py_str (entity_id entity))
                   /\ since_ok since (etag_updated_at tag) = true
                   /\ (exists node, entity_tag_stored_as (db self) tag node)
                   /\ (names <> [] ->
                       exists p, etag_prop tag = Some p /\ In (prop_name p) names))
           tags)
  /\ (forall (self : NeoRepository) (edge : Edge) (since : option datetime)
             (names : list string) (tags : list EdgeTag),
         find_edge_tags self edge since names = Ok tags ->
         Forall (fun tag =>
                   edge_id (gtag_edge tag) = Some (py_str (edge_id edge))
                   /\ since_ok since (gtag_updated_at tag) = true
                   /\ (exists node, edge_tag_stored_as (db self) tag node)
                   /\ (names <> [] ->
                       exists p, gtag_prop tag = Some p /\ In (prop_name p) names))
           tags).
Proof.
  split.
  - intros self entity since names tags H. unfold find_entity_tags, match_tags_by_owner in H.
    cbn [execute_query unpack_records bind] in H.
    destruct (length _ =? 0)%nat; [discriminate|].
    destruct (find_entity_tags_loop self names _) as [found|] eqn:Efound; [|discriminate].
    cbn [bind] in H. destruct found as [|tag others]; [discriminate|].
    cbn [length Nat.eqb] in H. inversion H; subst tags. split; [discriminate|].
    apply (find_entity_tags_loop_sound self names _ since _ _
             (owner_filter_in _ _ _) Efound).
  - intros self edge since names tags H. unfold find_edge_tags, match_tags_by_owner in H.
    cbn [execute_query unpack_records bind] in H.
    destruct (find_edge_tags_loop self names _) as [found|] eqn:Efound; [|discriminate].
    cbn [bind] in H. rewrite empty_guard in H. inversion H; subst found.
    apply (find_edge_tags_loop_sound self names _ since _ _
             (owner_filter_in _ _ _) Efound).
Qed.

Lemma grown_from_refl (g : Graph) : grown_from g g.
Proof.
  unfold grown_from. split; [reflexivity|].
  repeat split; exists []; rewrite app_nil_r; reflexivity.
Qed.

Lemma grown_from_trans (g1 g2 g3 : Graph) :
  grown_from g1 g2 -> grown_from g2 g3 -> grown_from g1 g3.
Proof.
  intros [He1 [[r1 Hr1] [[t1 Ht1] [u1 Hu1]]]] [He2 [[r2 Hr2] [[t2 Ht2] [u2 Hu2]]]].
  unfold grown_from. split; [congruence|].
  split; [exists (r1 ++ r2); rewrite Hr2, Hr1, app_assoc; reflexivity|].
  split; [exists (t1 ++ t2); rewrite Ht2, Ht1, app_assoc; reflexivity|].
  exists (u1 ++ u2). rewrite Hu2, Hu1, app_assoc. reflexivity.
Qed.

Lemma grown_relationships (g : Graph) (rels : list Relationship)
  (added : list (option string * option string * string)) :
  map ends_and_type rels = map ends_and_type (relationships g) ++ added ->
  grown_from g (set_relationships g rels).
Proof.
  intros H. unfold grown_from. cbn [set_relationships entities relationships
                                     entity_tag_nodes edge_tag_nodes].
  split; [reflexivity|]. split; [exists added; exact H|].
  split; exists []; rewrite app_nil_r; reflexivity.
Qed.

Lemma grown_entity_tags (g : Graph) (nodes : list TagNode) (added : list (string * option string)) :
  map label_and_id nodes = map label_and_id (entity_tag_nodes g) ++ added ->
  grown_from g (set_entity_tag_nodes g nodes).
Proof.
  intros H. unfold grown_from. cbn [set_entity_tag_nodes entities relationships
                                     entity_tag_nodes edge_tag_nodes].
  split; [reflexivity|]. split; [exists []; rewrite app_nil_r; reflexivity|].
  split; [exists added; exact H|exists []; rewrite app_nil_r; reflexivity].
Qed.

Lemma grown_edge_tags (g : Graph) (nodes : list TagNode) (added : list (string * option string)) :
  map label_and_id nodes = map label_and_id (edge_tag_nodes g) ++ added ->
  grown_from g (set_edge_tag_nodes g nodes).
Proof.
  intros H. unfold grown_from. cbn [set_edge_tag_nodes entities relationships
                                     entity_tag_nodes edge_tag_nodes].
  split; [reflexivity|]. split; [exists []; rewrite app_nil_r; reflexivity|].
  split; [exists []; rewrite app_nil_r; reflexivity|exists added; exact H].
Qed.

Lemma set_tag_props_labels (nodes : list TagNode) (id : option string) (tag_id : string)
  (props : TagProps) :
  tp_tag_id props = Some tag_id ->
  (forall i, id = Some i -> i = tag_id) ->
  map label_and_id (snd (set_tag_props nodes id props)) = map label_and_id nodes.
Proof.
  intros Hprops Hid. unfold set_tag_props. cbn [snd]. rewrite map_map.
  apply map_ext. intros n. destruct id as [i|]; [|reflexivity].
  destruct (opt_string_eqb (tp_tag_id (tn_props n)) (Some i)) eqn:Hit; [|reflexivity].
  apply opt_string_eqb_some in Hit. unfold label_and_id. cbn [tn_label tn_props].
  rewrite Hprops, Hit, (Hid i eq_refl). reflexivity.
Qed.

Lemma create_edge_grows (self : NeoRepository) (edge : Edge) :
  grown_from (db self) (db (snd (create_edge valid_relationship clock uuid4 self edge))).
Proof.
  unfold create_edge.
  destruct (enforce_taxonomy self && negb _); [apply grown_from_refl|].
  destruct (_find_existing_edge self edge) as [[old_edge|]|e]; [| |apply grown_from_refl].
  - destruct (rel_is_fresher_than _ _).
    + unfold datetime_now, set_relationship_props. cbn [fst snd db].
      match goal with
      | |- context [is_None ?record] => destruct (is_None record)
      end; cbn [snd]; [|rewrite emit_db]; cbn [db set_db];
        apply (grown_relationships _ _ []); rewrite app_nil_r, map_map;
        apply map_ext; intros r; destruct (relationship_between _ _ _ r); reflexivity.
    + cbn [snd]. rewrite emit_db. apply grown_from_refl.
  - unfold str_uuid4, datetime_now, create_relationship. cbn [fst snd db].
    match goal with
    | |- context [is_None ?record] => destruct (is_None record)
    end; cbn [snd]; [|rewrite emit_db]; cbn [db set_db];
      eapply grown_relationships; rewrite map_app; reflexivity.
Qed.

Lemma create_entity_tag_grows (self : NeoRepository) (tag : EntityTag) :
  grown_from (db self) (db (snd (create_entity_tag clock uuid4 self tag))).
Proof.
  unfold create_entity_tag.
  destruct (etag_prop tag) as [prop|]; [|apply grown_from_refl].
  destruct (_find_existing_entity_tag self tag) as [[old_tag|]|e] eqn:Efound;
    [| |apply grown_from_refl].
  - destruct (etag_prop old_tag) as [old_prop|]; [|apply grown_from_refl].
    destruct (prop_is_fresher_than prop old_prop).
    + unfold datetime_now. cbn [fst snd db etag_id].
      destruct (find_existing_entity_tag_found _ _ _ Efound) as [_ [p [node [_ [_ [_ Hnode]]]]]].
      destruct (node_to_entity_tag_fields _ _ _ Hnode) as [_ [_ [[id Hid] _]]].
      pose proof (set_tag_props_labels (entity_tag_nodes (db self)) (etag_id old_tag) id
                    (EntityTag_to_dict
                       (mkEntityTag (etag_id old_tag) (etag_created_at old_tag)
                          (Some (clock (clock_reads self))) (etag_entity old_tag)
                          (Some (prop_override_with old_prop prop))))) as Hlabels.
      destruct (set_tag_props _ _ _) as [rows nodes]. cbn [snd] in *.
      rewrite emit_db. cbn [db set_db]. apply (grown_entity_tags _ _ []).
      rewrite app_nil_r. apply Hlabels.
      * cbn [EntityTag_to_dict tp_tag_id etag_id]. rewrite Hid. reflexivity.
      * intros i Hi. congruence.
    + cbn [snd]. rewrite emit_db. apply grown_from_refl.
  - unfold str_uuid4, datetime_now, create_tag_node. cbn [fst snd db].
    cbn [execute_query is_None snd]. rewrite emit_db. cbn [db set_db].
    eapply grown_entity_tags. rewrite map_app. reflexivity.
Qed.

Lemma create_edge_tag_grows (self : NeoRepository) (tag : EdgeTag) :
  grown_from (db self) (db (snd (create_edge_tag clock uuid4 self tag))).
Proof.
  unfold create_edge_tag.
  destruct (gtag_prop tag) as [prop|]; [|apply grown_from_refl].
  destruct (_find_existing_edge_tag self tag) as [[old_tag|]|e] eqn:Efound;
    [| |apply grown_from_refl].
  - destruct (gtag_prop old_tag) as [old_prop|]; [|apply grown_from_refl].
    destruct (prop_is_fresher_than prop old_prop).
    + unfold datetime_now. cbn [fst snd db gtag_id].
      destruct (find_existing_edge_tag_found _ _ _ Efound) as [_ [p [node [_ [_ [_ Hnode]]]]]].
      destruct (node_to_edge_tag_fields _ _ _ Hnode) as [_ [_ [[id Hid] _]]].
      pose proof (set_tag_props_labels (edge_tag_nodes (db self)) (gtag_id old_tag) id
                    (EdgeTag_to_dict
                       (mkEdgeTag (gtag_id old_tag) (gtag_created_at old_tag)
                          (Some (clock (clock_reads self))) (gtag_edge old_tag)
                          (Some (prop_override_with old_prop prop))))) as Hlabels.
      destruct (set_tag_props _ _ _) as [rows nodes]. cbn [snd] in *.
      assert (Hgrown : grown_from (db self) (set_edge_tag_nodes (db self) nodes)).
      { apply (grown_edge_tags _ _ []). rewrite app_nil_r. apply Hlabels.
        - cbn [EdgeTag_to_dict tp_tag_id gtag_id]. rewrite Hid. reflexivity.
        - intros i Hi. congruence. }
      destruct (is_None _); cbn [snd]; [|rewrite emit_db]; exact Hgrown.
    + cbn [snd]. rewrite emit_db. apply grown_from_refl.
  - unfold str_uuid4, datetime_now, create_tag_node. cbn [fst snd db].
    cbn [execute_query is_None snd]. rewrite emit_db. cbn [db set_db].
    eapply grown_edge_tags. rewrite map_app. reflexivity.
Qed.

Lemma call_grows (self : NeoRepository) (c : call) :
  grown_from (db self) (db (after valid_relationship clock uuid4 self c)).
Proof.
  destruct c; unfold after.
  - apply create_edge_grows.
  - unfold create_relation. apply create_edge_grows.
  - destruct (delete_edge_raises self id) as [e ->]. apply grown_from_refl.
  - apply create_entity_tag_grows.
  - unfold create_entity_property. apply create_entity_tag_grows.
  - rewrite delete_entity_tag_raises. apply grown_from_refl.
  - apply create_edge_tag_grows.
  - unfold create_edge_property. apply create_edge_tag_grows.
  - rewrite delete_edge_tag_raises. apply grown_from_refl.
Qed.

(** X21.  No sequence of calls of the facade removes or re-targets what the
    store holds: afterwards the entities are the same, every relationship
    that was stored is still there in its place with the same two ends and
    the same type, and every tag node that was stored is still there in its
    place with the same label and the same [tag_id]; what is new comes after
    them.  (Property maps can change, by the updates; nothing is deleted,
    the delete calls included.) *)
Theorem facade_calls_only_add_to_the_store (calls : list call) (self : NeoRepository) :
  grown_from (db self) (db (run valid_relationship clock uuid4 self calls)).
Proof.
  revert self. induction calls as [|c rest IH]; intros self; [apply grown_from_refl|].
  unfold run in *. cbn [fold_left].
  apply (grown_from_trans _ _ _ (call_grows self c)), IH.
Qed.

(** X22.  An upsert writes records of its own kind only: [create_edge]
    leaves entities and both kinds of tag nodes as they are, and
    [create_entity_tag] and [create_edge_tag] leave entities, relationships
    and the tag nodes of the other kind as they are, whatever the outcome of
    the call. *)
Theorem upserts_write_their_own_kind_only :
  (forall (self : NeoRepository) (edge : Edge),
      let after := snd (create_edge valid_relationship clock uuid4 self edge) in
      entities (db after) = entities (db self)
      /\ entity_tag_nodes (db after) = entity_tag_nodes (db self)
      /\ edge_tag_nodes (db after) = edge_tag_nodes (db self))
  /\ (forall (self : NeoRepository) (tag : EntityTag),
         let after := snd (create_entity_tag clock uuid4 self tag) in
         entities (db after) = entities (db self)
         /\ relationships (db after) = relationships (db self)
         /\ edge_tag_nodes (db after) = edge_tag_nodes (db self))
  /\ (forall (self : NeoRepository) (tag : EdgeTag),
         let after := snd (create_edge_tag clock uuid4 self tag) in
         entities (db after) = entities (db self)
         /\ relationships (db after) = relationships (db self)
         /\ entity_tag_nodes (db after) = entity_tag_nodes (db self)).
Proof.
  split.
  { intros self edge after. subst after. unfold create_edge.
    destruct (enforce_taxonomy self && negb _); [repeat split|].
    destruct (_find_existing_edge self edge) as [[old_edge|]|e]; [| |repeat split].
    - destruct (rel_is_fresher_than _ _).
      + unfold datetime_now, set_relationship_props. cbn [fst snd db].
        match goal with
        | |- context [is_None ?record] => destruct (is_None record)
        end; cbn [snd]; [|rewrite emit_db]; repeat split.
      + cbn [snd]. rewrite emit_db. repeat split.
    - unfold str_uuid4, datetime_now, create_relationship. cbn [fst snd db].
      match goal with
      | |- context [is_None ?record] => destruct (is_None record)
      end; cbn [snd]; [|rewrite emit_db]; repeat split. }
  split.
  { intros self tag after. subst after. unfold create_entity_tag.
    destruct (etag_prop tag) as [prop|]; [|repeat split].
    destruct (_find_existing_entity_tag self tag) as [[old_tag|]|e]; [| |repeat split].
    - destruct (etag_prop old_tag) as [old_prop|]; [|repeat split].
      destruct (prop_is_fresher_than prop old_prop).
      + unfold datetime_now, set_tag_props. cbn [fst snd db]. rewrite emit_db. repeat split.
      + cbn [snd]. rewrite emit_db. repeat split.
    - unfold str_uuid4, datetime_now, create_tag_node. cbn [fst snd db].
      cbn [execute_query is_None snd]. rewrite emit_db. repeat split. }
  intros self tag after. subst after. unfold create_edge_tag.
  destruct (gtag_prop tag) as [prop|]; [|repeat split].
  destruct (_find_existing_edge_tag self tag) as [[old_tag|]|e]; [| |repeat split].
  - destruct (gtag_prop old_tag) as [old_prop|]; [|repeat split].
    destruct (prop_is_fresher_than prop old_prop).
    + unfold datetime_now, set_tag_props. cbn [fst snd db].
      match goal with
      | |- context [is_None ?record] => destruct (is_None record)
      end; cbn [snd]; [|rewrite emit_db]; repeat split.
    + cbn [snd]. rewrite emit_db. repeat split.
  - unfold str_uuid4, datetime_now, create_tag_node. cbn [fst snd db].
    cbn [execute_query is_None snd]. rewrite emit_db. repeat split.
Qed.

End StoreProperties.
(** * The claims on the fixtures of the test suite *)

#[local] Existing Instance Fixtures.model.
#[local] Existing Instance Fixtures.text.




(** C1.  What the code does where the claim fails: [repo] stores the property
    [myscript] on the entity [fqdn] and on the stored edge.  Submitting
    [myscript] for the entity [other], or for another edge, without an id
    resolves the tag of the other owner: the upsert returns that tag, attached
    to [fqdn] (to the stored edge), writes nothing, and [other] still has no
    tag. *)
Theorem content_equal_tag_of_other_owner_is_reused :
  entity_id Fixtures.other <> entity_id Fixtures.fqdn
  /\ create_entity_property Fixtures.clock Fixtures.uuid4
       Fixtures.repo Fixtures.other Fixtures.myscript
     = (Ok Fixtures.stored_entity_tag,
        _emit Fixtures.repo (EntityTagUntouched Fixtures.stored_entity_tag))
  /\ etag_entity Fixtures.stored_entity_tag = Fixtures.fqdn
  /\ find_entity_tags
       (snd (create_entity_property Fixtures.clock Fixtures.uuid4
               Fixtures.repo Fixtures.other Fixtures.myscript))
       Fixtures.other None []
     = Raise (Exception "no entity tags found")
  /\ edge_id Fixtures.unstored_edge <> edge_id Fixtures.stored_edge
  /\ create_edge_property Fixtures.clock Fixtures.uuid4
       Fixtures.repo Fixtures.unstored_edge Fixtures.myscript
     = (Ok Fixtures.stored_edge_tag,
        _emit Fixtures.repo (EdgeTagUntouched Fixtures.stored_edge_tag)).
Proof.
  repeat split; try reflexivity; discriminate.
Qed.

(** C4, the claim as stated fails: with [enforce_taxonomy=False] a relation
    that the validator rejects is created, written and found again. *)
Lemma taxonomy_gate_can_be_switched_off :
  Fixtures.taxonomy "FQDN" "owns" "SimpleRelation" "IPAddress" = false
  /\ fst (create_relation Fixtures.taxonomy Fixtures.clock Fixtures.uuid4
            Fixtures.lenient_repo Fixtures.illegal_relation Fixtures.fqdn Fixtures.ip)
     = Ok (mkEdge (Some "uuid-0") (Some 1000) (Some 1001) Fixtures.illegal_relation
             Fixtures.fqdn Fixtures.ip)
  /\ relationships
       (db (snd (create_relation Fixtures.taxonomy Fixtures.clock Fixtures.uuid4
                   Fixtures.lenient_repo Fixtures.illegal_relation
                   Fixtures.fqdn Fixtures.ip)))
     = [mkRelationship (Some "fqdn-1") (Some "ip-1") "OWNS"
          (mkEdgeProps (Some "uuid-0") (Some 1000) (Some 1001)
             (Some Fixtures.illegal_relation))]
  /\ find_edge_by_id
       (snd (create_relation Fixtures.taxonomy Fixtures.clock Fixtures.uuid4
               Fixtures.lenient_repo Fixtures.illegal_relation Fixtures.fqdn Fixtures.ip))
       "uuid-0"
     = Ok (mkEdge (Some "uuid-0") (Some 1000) (Some 1001) Fixtures.illegal_relation
             Fixtures.fqdn Fixtures.ip).
Proof. repeat split; reflexivity. Qed.

(** The gate on the repository of the tests, which enforces the taxonomy. *)
Lemma taxonomy_gate_when_enforced_witness :
  enforce_taxonomy Fixtures.fresh_repo = true
  /\ Fixtures.taxonomy "FQDN" "owns" "SimpleRelation" "IPAddress" = false
  /\ create_edge Fixtures.taxonomy Fixtures.clock Fixtures.uuid4 Fixtures.fresh_repo
       Fixtures.illegal_edge
     = (Raise (Exception "FQDN -owns-> IPAddress is not valid in the taxonomy"),
        Fixtures.fresh_repo)
  /\ create_relation Fixtures.taxonomy Fixtures.clock Fixtures.uuid4 Fixtures.fresh_repo
       Fixtures.illegal_relation Fixtures.fqdn Fixtures.ip
     = (Raise (Exception "FQDN -owns-> IPAddress is not valid in the taxonomy"),
        Fixtures.fresh_repo).
Proof.
  destruct (taxonomy_gate_when_enforced
              Fixtures.taxonomy Fixtures.clock Fixtures.uuid4) as [Hedge Hrelation].
  split; [reflexivity|]. split; [reflexivity|]. split.
  - apply (Hedge Fixtures.fresh_repo Fixtures.illegal_edge); reflexivity.
  - apply (Hrelation Fixtures.fresh_repo Fixtures.illegal_relation Fixtures.fqdn Fixtures.ip);
      reflexivity.
Defined.

(** C5, the claim as stated fails: in a store without tags the content lookup
    of [asset_db] locates no record and raises, and so does the lookup of an
    entity's tags in [asset_store], by property name or without a filter. *)
Lemma finds_that_raise_on_empty :
  entity_tag_nodes Fixtures.entities_only = []
  /\ AssetDb.find_entity_tags_by_content Fixtures.key_value_pattern
       Fixtures.entities_only Fixtures.myscript None
     = Raise (Exception "no entity tags found")
  /\ find_entity_tags Fixtures.fresh_repo Fixtures.fqdn None ["myscript"]
     = Raise (Exception "no entity tags found")
  /\ find_entity_tags Fixtures.fresh_repo Fixtures.fqdn None []
     = Raise (Exception "no entity tags found").
Proof. repeat split; reflexivity. Qed.

(** Lookups that locate nothing, in both repositories. *)
Lemma empty_results_of_finds_witness :
  find_entity_tags_by_content Fixtures.fresh_repo Fixtures.myscript None = Ok []
  /\ find_edge_tags_by_content Fixtures.fresh_repo Fixtures.myscript None = Ok []
  /\ outgoing_edges Fixtures.repo Fixtures.fqdn None ["owns"] = Ok []
  /\ incoming_edges Fixtures.repo Fixtures.fqdn (Some 5) [] = Ok []
  /\ find_edge_by_id Fixtures.repo "non-existent-id" = Raise (Exception "no edge was found")
  /\ find_edge_tags Fixtures.fresh_repo Fixtures.stored_edge None ["myscript"] = Ok []
  /\ find_entity_tags Fixtures.repo Fixtures.other None []
     = Raise (Exception "no entity tags found")
  /\ AssetDb.find_entity_tags_by_content Fixtures.key_value_pattern
       Fixtures.populated Fixtures.owner_ops None
     = Raise (Exception "no entity tags found")
  /\ AssetDb.find_edge_tags_by_content Fixtures.key_value_pattern
       Fixtures.populated Fixtures.owner_ops (Some 5)
     = Raise (Exception "no edge tags found").
Proof.
  destruct (empty_results_of_finds (AM := Fixtures.model))
    as [Hetags [Hgtags [Hout [Hin [Hid [Hgowner [Heowner [Hdb_etags Hdb_gtags]]]]]]]].
  split; [apply Hetags; reflexivity|].
  split; [apply Hgtags; reflexivity|].
  split.
  { apply Hout. simpl. intros record r [<-|[]] Hr. inversion Hr; subst. reflexivity. }
  split.
  { apply Hin. simpl. intros record r []. }
  split; [apply Hid; reflexivity|].
  split; [apply Hgowner; reflexivity|].
  split; [apply Heowner; reflexivity|].
  split.
  - eapply Hdb_etags; reflexivity.
  - eapply Hdb_gtags; reflexivity.
Defined.

(** C6.  What the code does where the claim fails: [repo] stores the tag
    [tag-1] with a [SourceProperty].  An upsert that names [tag-1] and brings
    a [SimpleProperty] raises the [AttributeError] of the lookup by id, the
    same exception as an upsert that names [tag-1] and brings a
    [SourceProperty]; the property types are not compared, and the stored tag
    stays as it was.  The same holds for edge tags. *)
Theorem explicit_id_tag_upsert_stops_in_the_lookup :
  property_type Fixtures.owner_ops <> property_type Fixtures.myscript
  /\ create_entity_tag Fixtures.clock Fixtures.uuid4 Fixtures.repo Fixtures.retyped_entity_tag
     = (Raise (AttributeError "'EagerResult' object has no attribute 'get'"), Fixtures.repo)
  /\ create_entity_tag Fixtures.clock Fixtures.uuid4 Fixtures.repo Fixtures.renamed_entity_tag
     = (Raise (AttributeError "'EagerResult' object has no attribute 'get'"), Fixtures.repo)
  /\ create_edge_tag Fixtures.clock Fixtures.uuid4 Fixtures.repo Fixtures.retyped_edge_tag
     = (Raise (AttributeError "'EagerResult' object has no attribute 'get'"), Fixtures.repo).
Proof.
  split; [discriminate|]. repeat split; reflexivity.
Qed.

(** C7.  What the code does where the claim fails: [repo] stores the edge
    [edge-1] and the tags [tag-1] and [tag-2].  [delete_edge] finds the edge
    and raises on its delete statement; [delete_entity_tag] and
    [delete_edge_tag] raise in the lookup by id.  None of them changes the
    repository or emits an event, and the edge is still found afterwards. *)
Theorem delete_raises_and_keeps_the_record :
  find_edge_by_id Fixtures.repo "edge-1" = Ok Fixtures.stored_edge
  /\ delete_edge Fixtures.repo "edge-1"
     = (Raise (CypherSyntaxError "Invalid input '{'"), Fixtures.repo)
  /\ find_edge_by_id (snd (delete_edge Fixtures.repo "edge-1")) "edge-1"
     = Ok Fixtures.stored_edge
  /\ delete_entity_tag Fixtures.repo "tag-1"
     = (Raise (AttributeError "'EagerResult' object has no attribute 'get'"), Fixtures.repo)
  /\ delete_edge_tag Fixtures.repo "tag-2"
     = (Raise (AttributeError "'EagerResult' object has no attribute 'get'"), Fixtures.repo)
  /\ _events_buffer Fixtures.repo = [].
Proof. repeat split; reflexivity. Qed.

(** C8.  What the code does where the claim fails: a delete attempt appends
    no event.  [repo], opened with event emission on, stores the edge
    [edge-1] and the tags [tag-1] and [tag-2].  Each of the three deletes
    leaves the log empty; after a no-op upsert of the stored edge and the
    three deletes the log holds the one [EdgeUntouched] of the upsert, which
    is all that [flush_events] returns.  On any repository and for any id a
    delete call leaves the log as it was. *)
Theorem delete_attempts_log_no_event :
  emit_events Fixtures.repo = true
  /\ find_edge_by_id Fixtures.repo "edge-1" = Ok Fixtures.stored_edge
  /\ map (fun node => tp_tag_id (tn_props node)) (entity_tag_nodes (db Fixtures.repo))
     = [Some "tag-1"]
  /\ map (fun node => tp_tag_id (tn_props node)) (edge_tag_nodes (db Fixtures.repo))
     = [Some "tag-2"]
  /\ _events_buffer
       (after Fixtures.taxonomy Fixtures.clock Fixtures.uuid4 Fixtures.repo
          (call_delete_edge "edge-1")) = []
  /\ _events_buffer
       (after Fixtures.taxonomy Fixtures.clock Fixtures.uuid4 Fixtures.repo
          (call_delete_entity_tag "tag-1")) = []
  /\ _events_buffer
       (after Fixtures.taxonomy Fixtures.clock Fixtures.uuid4 Fixtures.repo
          (call_delete_edge_tag "tag-2")) = []
  /\ _events_buffer
       (run Fixtures.taxonomy Fixtures.clock Fixtures.uuid4 Fixtures.repo
          Scenarios.upsert_then_deletes)
     = [EdgeUntouched Fixtures.stored_edge]
  /\ fst (flush_events
            (run Fixtures.taxonomy Fixtures.clock Fixtures.uuid4 Fixtures.repo
               Scenarios.upsert_then_deletes))
     = [EdgeUntouched Fixtures.stored_edge]
  /\ (forall (self : NeoRepository) (id : string),
         _events_buffer
           (after Fixtures.taxonomy Fixtures.clock Fixtures.uuid4 self (call_delete_edge id))
         = _events_buffer self
         /\ _events_buffer
              (after Fixtures.taxonomy Fixtures.clock Fixtures.uuid4 self
                 (call_delete_entity_tag id))
            = _events_buffer self
         /\ _events_buffer
              (after Fixtures.taxonomy Fixtures.clock Fixtures.uuid4 self
                 (call_delete_edge_tag id))
            = _events_buffer self).
Proof.
  do 9 (split; [reflexivity|]).
  intros self id. split; [|split; reflexivity].
  unfold after. destruct (delete_edge_raises self id) as [e ->]. reflexivity.
Qed.

(** The day of calls against [repo]: three calls return, two raise. *)
Lemma returning_calls_log_one_event_each_witness :
  emit_events Fixtures.repo = true
  /\ (exists ev,
         _events_buffer
           (after Fixtures.taxonomy Fixtures.clock Fixtures.uuid4 Fixtures.repo
              (call_create_edge Fixtures.same_edge))
         = (_events_buffer Fixtures.repo ++ [ev])%list)
  /\ _events_buffer
       (after Fixtures.taxonomy Fixtures.clock Fixtures.uuid4 Fixtures.repo
          (call_create_relation Fixtures.illegal_relation Fixtures.fqdn Fixtures.ip))
     = _events_buffer Fixtures.repo
  /\ (exists events,
         _events_buffer
           (run Fixtures.taxonomy Fixtures.clock Fixtures.uuid4 Fixtures.repo Fixtures.day)
         = (_events_buffer Fixtures.repo ++ events)%list
         /\ length events = 3)
  /\ fst (flush_events
            (run Fixtures.taxonomy Fixtures.clock Fixtures.uuid4 Fixtures.repo Fixtures.day))
     = _events_buffer
         (run Fixtures.taxonomy Fixtures.clock Fixtures.uuid4 Fixtures.repo Fixtures.day)
  /\ fst (flush_events
            (snd (flush_events
                    (run Fixtures.taxonomy Fixtures.clock Fixtures.uuid4
                       Fixtures.repo Fixtures.day))))
     = [].
Proof.
  destruct (returning_calls_log_one_event_each
              Fixtures.taxonomy Fixtures.clock Fixtures.uuid4) as [Hcall [Hrun Hflush]].
  split; [reflexivity|].
  split; [exact (Hcall Fixtures.repo (call_create_edge Fixtures.same_edge) eq_refl)|].
  split;
    [exact (Hcall Fixtures.repo
              (call_create_relation Fixtures.illegal_relation Fixtures.fqdn Fixtures.ip)
              eq_refl)|].
  split; [exact (Hrun Fixtures.repo Fixtures.day eq_refl)|].
  destruct (Hflush (run Fixtures.taxonomy Fixtures.clock Fixtures.uuid4
                      Fixtures.repo Fixtures.day)) as [Hfirst [_ Hsecond]].
  split; assumption.
Defined.

(** The illegal relation on a repository built with [enforce_taxonomy=False]. *)
Lemma taxonomy_enforcement_is_optional_witness :
  enforce_taxonomy Fixtures.lenient_repo = false
  /\ Fixtures.taxonomy "FQDN" "owns" "SimpleRelation" "IPAddress" = false
  /\ _find_existing_edge Fixtures.lenient_repo Fixtures.illegal_edge = Ok None
  /\ create_edge Fixtures.taxonomy Fixtures.clock Fixtures.uuid4
       Fixtures.lenient_repo Fixtures.illegal_edge
     = create_edge (fun _ _ _ _ => true) Fixtures.clock Fixtures.uuid4
         Fixtures.lenient_repo Fixtures.illegal_edge
  /\ fst (create_edge Fixtures.taxonomy Fixtures.clock Fixtures.uuid4
            Fixtures.lenient_repo Fixtures.illegal_edge)
     = Ok (mkEdge (Some "uuid-0") (Some 1000) (Some 1001) Fixtures.illegal_relation
             Fixtures.fqdn Fixtures.ip)
  /\ In (mkRelationship (Some "fqdn-1") (Some "ip-1") "OWNS"
           (mkEdgeProps (Some "uuid-0") (Some 1000) (Some 1001)
              (Some Fixtures.illegal_relation)))
       (relationships
          (db (snd (create_edge Fixtures.taxonomy Fixtures.clock Fixtures.uuid4
                      Fixtures.lenient_repo Fixtures.illegal_edge)))).
Proof.
  destruct (taxonomy_enforcement_is_optional
              Fixtures.taxonomy Fixtures.clock Fixtures.uuid4) as [_ [Hany Hwritten]].
  split; [reflexivity|]. split; [reflexivity|]. split; [reflexivity|].
  split; [apply Hany; reflexivity|].
  apply (Hwritten Fixtures.lenient_repo Fixtures.illegal_edge); reflexivity.
Defined.

(** The same day of calls on a repository built with the defaults. *)
Lemma no_events_by_default_witness :
  emit_events Fixtures.default_repo = false
  /\ _events_buffer Fixtures.default_repo = []
  /\ _events_buffer
       (run Fixtures.taxonomy Fixtures.clock Fixtures.uuid4 Fixtures.default_repo Fixtures.day)
     = []
  /\ fst (flush_events
            (run Fixtures.taxonomy Fixtures.clock Fixtures.uuid4
               Fixtures.default_repo Fixtures.day))
     = [].
Proof.
  destruct (no_events_by_default Fixtures.taxonomy Fixtures.clock Fixtures.uuid4)
    as [_ Hquiet].
  split; [reflexivity|]. split; [reflexivity|].
  destruct (Hquiet Fixtures.default_repo Fixtures.day eq_refl eq_refl)
    as [Hlog [Hflush _]].
  split; assumption.
Defined.

(** * The further properties on the fixtures *)

Lemma flatten_of_a_flat_dict_is_that_dict_witness :
  NoDup (map fst Scenarios.flat_dict)
  /\ Forall (fun kv => AssetDbTypes.is_dict (snd kv) = false) Scenarios.flat_dict
  /\ AssetDbTypes._flatten Scenarios.flat_dict = Scenarios.flat_dict.
Proof.
  assert (Hkeys : NoDup (map fst Scenarios.flat_dict)).
  { repeat constructor; simpl; intuition discriminate. }
  assert (Hflat : Forall (fun kv => AssetDbTypes.is_dict (snd kv) = false) Scenarios.flat_dict).
  { repeat constructor. }
  split; [exact Hkeys|]. split; [exact Hflat|].
  apply (flatten_of_a_flat_dict_is_that_dict Scenarios.flat_dict Hkeys Hflat).
Defined.

Lemma to_dict_lets_payload_fields_replace_record_keys_witness :
  (etag_prop Fixtures.stored_entity_tag = Some Fixtures.myscript
   /\ exists d,
       AssetDbTypes.EntityTag_to_dict Scenarios.property_to_dict Fixtures.stored_entity_tag
       = Ok d
       /\ AssetDbTypes.dict_get d "tag_id" = Some (AssetDbTypes.VStr "tag-1")
       /\ AssetDbTypes.dict_get d "name" = Some (AssetDbTypes.VStr "myscript"))
  /\ (gtag_prop Fixtures.stored_edge_tag = Some Fixtures.myscript
      /\ exists d,
          AssetDbTypes.EdgeTag_to_dict Scenarios.property_to_dict Fixtures.stored_edge_tag
          = Ok d
          /\ AssetDbTypes.dict_get d "edge_id" = Some (AssetDbTypes.VStr "edge-1")
          /\ AssetDbTypes.dict_get d "confidence" = Some (AssetDbTypes.VInt 100)).
Proof.
  destruct (to_dict_lets_payload_fields_replace_record_keys (AM := Fixtures.model)
              Scenarios.asset_to_dict Scenarios.relation_to_dict Scenarios.property_to_dict)
    as [_ [_ [Hetag Hgtag]]].
  split.
  - split; [reflexivity|].
    destruct (Hetag Fixtures.stored_entity_tag Fixtures.myscript eq_refl) as [d [Hd Hget]].
    exists d. split; [exact Hd|]. rewrite !Hget. split; reflexivity.
  - split; [reflexivity|].
    destruct (Hgtag Fixtures.stored_edge_tag Fixtures.myscript eq_refl) as [d [Hd Hget]].
    exists d. split; [exact Hd|]. rewrite !Hget. split; reflexivity.
Defined.

Lemma asset_db_tag_delete_removes_the_nodes_of_that_id_witness :
  entity_tag_nodes (snd (AssetDbTags.delete_entity_tag Fixtures.populated "tag-1")) = []
  /\ (match_tag_by_id (entity_tag_nodes Fixtures.populated) (Some "tag-9") = []
      /\ snd (AssetDbTags.delete_entity_tag Fixtures.populated "tag-9") = Fixtures.populated)
  /\ (match_tag_by_id (edge_tag_nodes Fixtures.populated) (Some "tag-1") = []
      /\ snd (AssetDbTags.delete_edge_tag Fixtures.populated "tag-1") = Fixtures.populated).
Proof.
  split; [reflexivity|]. split.
  - split; [reflexivity|].
    destruct (asset_db_tag_delete_removes_the_nodes_of_that_id Fixtures.populated "tag-9")
      as [[_ [_ [_ [_ [_ [_ [Hsame _]]]]]]] _].
    apply Hsame. reflexivity.
  - split; [reflexivity|].
    destruct (asset_db_tag_delete_removes_the_nodes_of_that_id Fixtures.populated "tag-1")
      as [_ [_ [_ [_ [_ [_ [_ [Hsame _]]]]]]]].
    apply Hsame. reflexivity.
Defined.

Lemma new_edge_is_appended_to_the_store_witness :
  accepted Fixtures.taxonomy Fixtures.fresh_repo Fixtures.same_edge = true
  /\ _find_existing_edge Fixtures.fresh_repo Fixtures.same_edge = Ok None
  /\ fst (create_edge Fixtures.taxonomy Fixtures.clock Fixtures.uuid4
            Fixtures.fresh_repo Fixtures.same_edge)
     = Ok (mkEdge (Some "uuid-0") (Some 1000) (Some 1001) Fixtures.dns_record
             Fixtures.fqdn Fixtures.ip)
  /\ uuids_drawn (snd (create_edge Fixtures.taxonomy Fixtures.clock Fixtures.uuid4
                         Fixtures.fresh_repo Fixtures.same_edge)) = 1
  /\ clock_reads (snd (create_edge Fixtures.taxonomy Fixtures.clock Fixtures.uuid4
                         Fixtures.fresh_repo Fixtures.same_edge)) = 2.
Proof.
  split; [reflexivity|]. split; [reflexivity|].
  destruct (new_edge_is_appended_to_the_store Fixtures.taxonomy Fixtures.clock Fixtures.uuid4
              Fixtures.fresh_repo Fixtures.same_edge eq_refl eq_refl eq_refl eq_refl)
    as [Hret [_ [_ [_ [_ [Hids [Hclock _]]]]]]].
  repeat split; assumption.
Defined.

Lemma edge_to_a_missing_entity_is_not_created_witness :
  accepted Fixtures.taxonomy Fixtures.fresh_repo Fixtures.dangling_edge = true
  /\ _find_existing_edge Fixtures.fresh_repo Fixtures.dangling_edge = Ok None
  /\ existsb (is_entity_node "fqdn-9") (entities (db Fixtures.fresh_repo)) = false
  /\ fst (create_edge Fixtures.taxonomy Fixtures.clock Fixtures.uuid4
            Fixtures.fresh_repo Fixtures.dangling_edge)
     = Raise (Exception "no records returned from the query")
  /\ db (snd (create_edge Fixtures.taxonomy Fixtures.clock Fixtures.uuid4
                Fixtures.fresh_repo Fixtures.dangling_edge))
     = db Fixtures.fresh_repo.
Proof.
  split; [reflexivity|]. split; [reflexivity|]. split; [reflexivity|].
  destruct (edge_to_a_missing_entity_is_not_created
              Fixtures.taxonomy Fixtures.clock Fixtures.uuid4
              Fixtures.fresh_repo Fixtures.dangling_edge eq_refl eq_refl
              (or_introl eq_refl)) as [Hret [Hdb _]].
  split; assumption.
Defined.

Lemma inserted_edge_is_found_by_its_id_witness :
  accepted Fixtures.taxonomy Fixtures.fresh_repo Fixtures.same_edge = true
  /\ _find_existing_edge Fixtures.fresh_repo Fixtures.same_edge = Ok None
  /\ find_entity_by_id Fixtures.fresh_repo "fqdn-1" = Ok Fixtures.fqdn
  /\ find_entity_by_id Fixtures.fresh_repo "ip-1" = Ok Fixtures.ip
  /\ match_edge_by_id (db Fixtures.fresh_repo) "uuid-0" = []
  /\ find_edge_by_id
       (snd (create_edge Fixtures.taxonomy Fixtures.clock Fixtures.uuid4
               Fixtures.fresh_repo Fixtures.same_edge)) "uuid-0"
     = Ok (mkEdge (Some "uuid-0") (Some 1000) (Some 1001) Fixtures.dns_record
             Fixtures.fqdn Fixtures.ip).
Proof.
  do 5 (split; [reflexivity|]).
  apply (inserted_edge_is_found_by_its_id Fixtures.taxonomy Fixtures.clock Fixtures.uuid4
           Fixtures.fresh_repo Fixtures.same_edge Fixtures.fqdn Fixtures.ip
           eq_refl eq_refl eq_refl eq_refl eq_refl).
Defined.

Lemma edge_resubmission_reuses_the_inserted_edge_witness :
  outgoing_edges Fixtures.fresh_repo Fixtures.fqdn None [] = Ok []
  /\ equals Fixtures.dns_record Fixtures.dns_record = true
  /\ rel_is_fresher_than Fixtures.dns_record Fixtures.dns_record = false
  /\ fst (create_edge Fixtures.taxonomy Fixtures.clock Fixtures.uuid4
            (snd (create_edge Fixtures.taxonomy Fixtures.clock Fixtures.uuid4
                    Fixtures.fresh_repo Fixtures.same_edge))
            Fixtures.same_edge)
     = Ok (mkEdge (Some "uuid-0") (Some 1000) (Some 1001) Fixtures.dns_record
             Fixtures.fqdn Fixtures.ip)
  /\ _events_buffer
       (snd (create_edge Fixtures.taxonomy Fixtures.clock Fixtures.uuid4
               (snd (create_edge Fixtures.taxonomy Fixtures.clock Fixtures.uuid4
                       Fixtures.fresh_repo Fixtures.same_edge))
               Fixtures.same_edge))
     = [EdgeInserted (mkEdge (Some "uuid-0") (Some 1000) (Some 1001) Fixtures.dns_record
                        Fixtures.fqdn Fixtures.ip);
        EdgeUntouched (mkEdge (Some "uuid-0") (Some 1000) (Some 1001) Fixtures.dns_record
                         Fixtures.fqdn Fixtures.ip)].
Proof.
  split; [reflexivity|]. split; [reflexivity|]. split; [reflexivity|].
  destruct (edge_resubmission_reuses_the_inserted_edge
              Fixtures.taxonomy Fixtures.clock Fixtures.uuid4
              Fixtures.fresh_repo Fixtures.same_edge "fqdn-1" "ip-1" [] Fixtures.fqdn Fixtures.ip
              eq_refl eq_refl eq_refl eq_refl eq_refl eq_refl eq_refl eq_refl eq_refl eq_refl)
    as [_ [Hsecond [_ Hlog]]].
  split; [exact Hsecond|exact Hlog].
Defined.

Lemma failed_scan_makes_create_edge_insert_witness :
  In Fixtures.stored_relationship (relationships (db Scenarios.broken_scan_repo))
  /\ equals (relation Fixtures.same_edge) (relation Fixtures.stored_edge) = true
  /\ outgoing_edges Scenarios.broken_scan_repo Fixtures.fqdn None []
     = Raise (Exception "no entity was found")
  /\ fst (create_edge Fixtures.taxonomy Fixtures.clock Fixtures.uuid4
            Scenarios.broken_scan_repo Fixtures.same_edge)
     = Ok (mkEdge (Some "uuid-0") (Some 1000) (Some 1001) Fixtures.dns_record
             Fixtures.fqdn Fixtures.ip).
Proof.
  split; [right; left; reflexivity|]. split; [reflexivity|]. split; [reflexivity|].
  destruct (failed_scan_makes_create_edge_insert
              Fixtures.taxonomy Fixtures.clock Fixtures.uuid4
              Scenarios.broken_scan_repo Fixtures.same_edge (Exception "no entity was found")
              eq_refl eq_refl eq_refl eq_refl eq_refl) as [_ [Hret _]].
  exact Hret.
Defined.

Lemma edge_with_an_id_is_resolved_not_inserted_witness :
  accepted Fixtures.taxonomy Fixtures.repo Scenarios.unknown_id_edge = true
  /\ explicit_id (edge_id Scenarios.unknown_id_edge) = Some "edge-404"
  /\ match_edge_by_id (db Fixtures.repo) "edge-404" = []
  /\ create_edge Fixtures.taxonomy Fixtures.clock Fixtures.uuid4
       Fixtures.repo Scenarios.unknown_id_edge
     = (Raise (Exception "no edge was found"), Fixtures.repo).
Proof.
  do 3 (split; [reflexivity|]).
  destruct (edge_with_an_id_is_resolved_not_inserted
              Fixtures.taxonomy Fixtures.clock Fixtures.uuid4
              Fixtures.repo Scenarios.unknown_id_edge "edge-404" eq_refl eq_refl)
    as [_ [Hnone _]].
  apply Hnone. reflexivity.
Defined.

Lemma edge_update_overwrites_parallel_relationships_witness :
  _find_existing_edge Scenarios.parallel_repo Fixtures.fresher_edge
  = Ok (Some Fixtures.stored_edge)
  /\ rel_is_fresher_than (relation Fixtures.fresher_edge) (relation Fixtures.stored_edge) = true
  /\ (exists found, find_edge_by_id Scenarios.parallel_repo "edge-3" = Ok found)
  /\ find_edge_by_id
       (snd (create_edge Fixtures.taxonomy Fixtures.clock Fixtures.uuid4
               Scenarios.parallel_repo Fixtures.fresher_edge)) "edge-3"
     = Raise (Exception "no edge was found").
Proof.
  split; [reflexivity|]. split; [reflexivity|]. split; [eexists; reflexivity|].
  destruct (edge_update_overwrites_parallel_relationships
              Fixtures.taxonomy Fixtures.clock Fixtures.uuid4
              Scenarios.parallel_repo Fixtures.fresher_edge Fixtures.stored_edge "edge-1"
              eq_refl eq_refl eq_refl eq_refl) as [_ [_ [_ Hlost]]].
  apply Hlost; [discriminate|].
  intros r [<-|[<-|[]]] Hid; [discriminate Hid|reflexivity].
Defined.

Lemma traversals_return_stored_edges_of_the_entity_witness :
  outgoing_edges Fixtures.repo Fixtures.fqdn (Some 5) ["dns_record"] = Ok [Fixtures.stored_edge]
  /\ incoming_edges Fixtures.repo Fixtures.ip None [] = Ok [Fixtures.stored_edge]
  /\ Forall (fun edge => from_entity edge = Fixtures.fqdn
                         /\ since_ok (Some 5) (edge_updated_at edge) = true)
       [Fixtures.stored_edge]
  /\ Forall (fun edge => to_entity edge = Fixtures.ip) [Fixtures.stored_edge].
Proof.
  destruct (traversals_return_stored_edges_of_the_entity (AM := Fixtures.model))
    as [Hout Hin].
  split; [reflexivity|]. split; [reflexivity|]. split.
  - eapply Forall_impl;
      [|apply (Hout Fixtures.repo Fixtures.fqdn (Some 5) ["dns_record"]
                 [Fixtures.stored_edge] eq_refl)].
    intros edge [Hfrom [Hsince _]]. split; assumption.
  - eapply Forall_impl;
      [|apply (Hin Fixtures.repo Fixtures.ip None [] [Fixtures.stored_edge] eq_refl)].
    intros edge [Hto _]. exact Hto.
Defined.

Lemma outgoing_skips_what_incoming_raises_on_witness :
  (exists results, outgoing_edges Scenarios.bare_repo Fixtures.other None [] = Ok results)
  /\ undecodable Scenarios.bare_relationship = true
  /\ exists e, incoming_edges Scenarios.bare_repo Fixtures.ip None [] = Raise e.
Proof.
  destruct (outgoing_skips_what_incoming_raises_on (AM := Fixtures.model)) as [Hout Hin].
  split.
  - destruct (Hout Scenarios.bare_repo Fixtures.other None []) as [results [Hresults _]].
    + intros r tid [<-|[<-|[]]] Hend; inversion Hend; reflexivity.
    + exists results. exact Hresults.
  - split; [reflexivity|].
    apply (Hin Scenarios.bare_repo Fixtures.ip "ip-1" None [] Scenarios.bare_relationship
             "fqdn-2" eq_refl (or_intror (or_introl eq_refl)) eq_refl eq_refl eq_refl
             eq_refl eq_refl).
Defined.

Lemma new_tag_is_appended_to_the_store_witness :
  (_find_existing_entity_tag Fixtures.fresh_repo Scenarios.ghost_tag = Ok None
   /\ find_entity_by_id Fixtures.fresh_repo "fqdn-9" = Raise (Exception "no entity was found")
   /\ fst (create_entity_tag Fixtures.clock Fixtures.uuid4 Fixtures.fresh_repo
             Scenarios.ghost_tag)
      = Ok (mkEntityTag (Some "uuid-0") (Some 1000) (Some 1001) Fixtures.ghost
              (Some Fixtures.myscript))
   /\ length (entity_tag_nodes
                (db (snd (create_entity_tag Fixtures.clock Fixtures.uuid4 Fixtures.fresh_repo
                            Scenarios.ghost_tag)))) = 1)
  /\ (_find_existing_edge_tag Fixtures.fresh_repo Fixtures.same_edge_tag = Ok None
      /\ fst (create_edge_tag Fixtures.clock Fixtures.uuid4 Fixtures.fresh_repo
                Fixtures.same_edge_tag)
         = Ok (mkEdgeTag (Some "uuid-0") (Some 1000) (Some 1001) Fixtures.stored_edge
                 (Some Fixtures.myscript))).
Proof.
  destruct (new_tag_is_appended_to_the_store (AM := Fixtures.model)
              Fixtures.clock Fixtures.uuid4) as [Hetag Hgtag].
  split.
  - split; [reflexivity|]. split; [reflexivity|].
    destruct (Hetag Fixtures.fresh_repo Scenarios.ghost_tag Fixtures.myscript eq_refl eq_refl)
      as [Hret [Hnodes _]].
    split; [exact Hret|]. rewrite Hnodes. reflexivity.
  - split; [reflexivity|].
    destruct (Hgtag Fixtures.fresh_repo Fixtures.same_edge_tag Fixtures.myscript
                eq_refl eq_refl) as [Hret _].
    exact Hret.
Defined.

Lemma tag_resubmission_reuses_the_inserted_tag_witness :
  (find_entity_tags_by_content Fixtures.fresh_repo Fixtures.myscript None = Ok []
   /\ find_entity_by_id Fixtures.fresh_repo "fqdn-1" = Ok Fixtures.fqdn
   /\ fst (create_entity_tag Fixtures.clock Fixtures.uuid4
             (snd (create_entity_tag Fixtures.clock Fixtures.uuid4 Fixtures.fresh_repo
                     Fixtures.same_entity_tag))
             Fixtures.same_entity_tag)
      = Ok (mkEntityTag (Some "uuid-0") (Some 1000) (Some 1001) Fixtures.fqdn
              (Some Fixtures.myscript)))
  /\ (find_edge_tags_by_content Scenarios.edge_repo Fixtures.myscript None = Ok []
      /\ find_edge_by_id Scenarios.edge_repo "edge-1" = Ok Fixtures.stored_edge
      /\ fst (create_edge_tag Fixtures.clock Fixtures.uuid4
                (snd (create_edge_tag Fixtures.clock Fixtures.uuid4 Scenarios.edge_repo
                        Fixtures.same_edge_tag))
                Fixtures.same_edge_tag)
         = Ok (mkEdgeTag (Some "uuid-0") (Some 1000) (Some 1001) Fixtures.stored_edge
                 (Some Fixtures.myscript))).
Proof.
  destruct (tag_resubmission_reuses_the_inserted_tag (AM := Fixtures.model)
              Fixtures.clock Fixtures.uuid4) as [Hetag Hgtag].
  split.
  - split; [reflexivity|]. split; [reflexivity|].
    destruct (Hetag Fixtures.fresh_repo Fixtures.same_entity_tag Fixtures.myscript Fixtures.fqdn
                eq_refl eq_refl eq_refl eq_refl eq_refl eq_refl) as [_ [Hsecond _]].
    exact Hsecond.
  - split; [reflexivity|]. split; [reflexivity|].
    destruct (Hgtag Scenarios.edge_repo Fixtures.same_edge_tag Fixtures.myscript
                Fixtures.stored_edge
                eq_refl eq_refl eq_refl eq_refl eq_refl eq_refl) as [_ [Hsecond _]].
    exact Hsecond.
Defined.

Lemma tag_of_an_unresolved_owner_blocks_its_content_witness :
  (find_entity_by_id Fixtures.fresh_repo "fqdn-9" = Raise (Exception "no entity was found")
   /\ find_entity_tags_by_content
        (snd (create_entity_tag Fixtures.clock Fixtures.uuid4 Fixtures.fresh_repo
                Scenarios.ghost_tag))
        Fixtures.myscript None
      = Raise (Exception "no entity was found")
   /\ fst (create_entity_tag Fixtures.clock Fixtures.uuid4
             (snd (create_entity_tag Fixtures.clock Fixtures.uuid4 Fixtures.fresh_repo
                     Scenarios.ghost_tag))
             Fixtures.same_entity_tag)
      = Raise (Exception "no entity was found"))
  /\ (find_edge_by_id Fixtures.fresh_repo "edge-1" = Raise (Exception "no edge was found")
      /\ find_edge_tags_by_content
           (snd (create_edge_tag Fixtures.clock Fixtures.uuid4 Fixtures.fresh_repo
                   Fixtures.same_edge_tag))
           Fixtures.myscript None
         = Raise (Exception "no edge was found")).
Proof.
  destruct (tag_of_an_unresolved_owner_blocks_its_content (AM := Fixtures.model)
              Fixtures.clock Fixtures.uuid4) as [Hetag Hgtag].
  split.
  - split; [reflexivity|].
    destruct (Hetag Fixtures.fresh_repo Scenarios.ghost_tag Fixtures.myscript
                (Exception "no entity was found")
                eq_refl eq_refl eq_refl eq_refl eq_refl) as [_ [Hlookup Hnext]].
    split; [exact Hlookup|].
    rewrite (Hnext Fixtures.same_entity_tag eq_refl eq_refl). reflexivity.
  - split; [reflexivity|].
    destruct (Hgtag Fixtures.fresh_repo Fixtures.same_edge_tag Fixtures.myscript
                (Exception "no edge was found")
                eq_refl eq_refl eq_refl eq_refl eq_refl) as [_ [Hlookup _]].
    exact Hlookup.
Defined.

Lemma content_lookups_return_the_matching_nodes_witness :
  (find_entity_tags_by_content Fixtures.repo Fixtures.myscript (Some 15)
   = Ok [Fixtures.stored_entity_tag]
   /\ Forall (fun tag => since_ok (Some 15) (etag_updated_at tag) = true)
        [Fixtures.stored_entity_tag])
  /\ (find_edge_tags_by_content Fixtures.repo Fixtures.myscript None
      = Ok [Fixtures.stored_edge_tag]
      /\ Forall (fun tag => find_edge_by_id Fixtures.repo (py_str (edge_id (gtag_edge tag)))
                            = Ok (gtag_edge tag))
           [Fixtures.stored_edge_tag]).
Proof.
  destruct (content_lookups_return_the_matching_nodes (AM := Fixtures.model))
    as [Hetags Hgtags].
  split.
  - split; [reflexivity|].
    destruct (Hetags Fixtures.repo Fixtures.myscript (Some 15) [Fixtures.stored_entity_tag]
                eq_refl) as [_ Hall].
    eapply Forall_impl; [|exact Hall]. intros tag [_ [Hsince _]]. exact Hsince.
  - split; [reflexivity|].
    destruct (Hgtags Fixtures.repo Fixtures.myscript None [Fixtures.stored_edge_tag]
                eq_refl) as [_ Hall].
    eapply Forall_impl; [|exact Hall]. intros tag [Howner _]. exact Howner.
Defined.

Lemma owner_lookups_return_tags_of_the_owner_witness :
  (find_entity_tags Fixtures.repo Fixtures.fqdn None ["myscript"]
   = Ok [Fixtures.stored_entity_tag]
   /\ Forall (fun tag => entity_id (etag_entity tag) = Some "fqdn-1")
        [Fixtures.stored_entity_tag])
  /\ (find_edge_tags Fixtures.repo Fixtures.stored_edge None []
      = Ok [Fixtures.stored_edge_tag]
      /\ Forall (fun tag => edge_id (gtag_edge tag) = Some "edge-1")
           [Fixtures.stored_edge_tag]).
Proof.
  destruct (owner_lookups_return_tags_of_the_owner (AM := Fixtures.model))
    as [Hetags Hgtags].
  split.
  - split; [reflexivity|].
    destruct (Hetags Fixtures.repo Fixtures.fqdn None ["myscript"]
                [Fixtures.stored_entity_tag] eq_refl) as [_ Hall].
    eapply Forall_impl; [|exact Hall]. intros tag [Howner _]. exact Howner.
  - split; [reflexivity|].
    pose proof (Hgtags Fixtures.repo Fixtures.stored_edge None []
                  [Fixtures.stored_edge_tag] eq_refl) as Hall.
    eapply Forall_impl; [|exact Hall]. intros tag [Howner _]. exact Howner.
Defined.

